(** * ScreenCraft SDKs: request execution, retry policy and error classification

    A shallow embedding of the Go SDK ([go/screencraft.go], [go/errors.go],
    [go/screenshot.go] and the PDF and type files stored with them) and of the
    Node SDK (the error factory of [nodejs/src/errors.ts] and the client
    stored after [nodejs/verify-setup.js]).

    Conventions.
    - Go's [int], [int64] and [time.Duration] are [Z]; a duration counts
      nanoseconds.  Where the source multiplies durations the 64-bit
      wrap-around is written out ([wrap64]).
    - A [float64] option value is a rational, an infinity or NaN
      ([float64]); a finite one is kept as the rational it denotes.  The
      [float64] arithmetic of [calculateBackoff] is not computed: its value
      comes from the environment.
    - A call of a Go function returns or panics ([result]).  The Go package
      has statements that do not type-check: the structs that embed [*Error]
      do not implement [error], and four [return] statements and one
      assignment use a pointer to such a struct as an [error].  The embedding
      keeps them as they are written and marks the place ([ReturnsTyped],
      [IllTyped]) without changing them.
    - Library calls whose result depends on the outside world
      ([http.Client.Do], [io.ReadAll], [json.Unmarshal] of a response body,
      the [select] between [ctx.Done()] and the retry timer, [rand.Float64],
      [new URL] of the Node runtime) take their outcome from an explicit
      environment or parameter.
    - [map[string]interface{}] is a [gmap] from keys to Go values. *)

From Stdlib Require Import ZArith QArith String Ascii List Bool Lia.
From stdpp Require Import gmap strings list fin_maps sorting.

Set Warnings "-register-all".

Local Open Scope string_scope.
Local Open Scope Z_scope.

(** ** Small run-time helpers *)

(** Two's-complement wrap-around of 64-bit signed arithmetic. *)
Definition wrap64 (z : Z) : Z := (z + 2 ^ 63) mod 2 ^ 64 - 2 ^ 63.

Definition maxInt64 : Z := 2 ^ 63 - 1.
Definition minInt64 : Z := - 2 ^ 63.
Definition maxUint64 : Z := 2 ^ 64 - 1.

(** [time.Second], in nanoseconds. *)
Definition Second : Z := 1000000000.

Definition digit_of (a : ascii) : option Z :=
  let n := Z.of_nat (nat_of_ascii a) in
  if (48 <=? n) && (n <=? 57) then Some (n - 48) else None.

(** The two errors of [strconv]. *)
Inductive NumError : Type :=
| ErrSyntax
| ErrRange.

(** The loop of [strconv.ParseUint(s, 10, 64)] over the bytes of [s], with the
    value [n] read so far: a byte that is no digit ends it with a syntax
    error and the value 0; a value that no longer fits ends it at once with
    a range error and the largest value, whatever follows. *)
Fixpoint parse_digits (s : string) (n : Z) : Z * option NumError :=
  match s with
  | EmptyString => (n, None)
  | String a s' =>
      match digit_of a with
      | None => (0, Some ErrSyntax)
      | Some d =>
          if maxUint64 / 10 + 1 <=? n then (maxUint64, Some ErrRange)
          else
            let n1 := n * 10 + d in
            if maxUint64 <? n1 then (maxUint64, Some ErrRange) else parse_digits s' n1
      end
  end.

Definition ParseUint (s : string) : Z * option NumError :=
  match s with
  | EmptyString => (0, Some ErrSyntax)
  | _ => parse_digits s 0
  end.

(** [strconv.ParseInt(s, 10, 64)]: the value and whether [err == nil].  A
    syntax error gives 0, a range error gives the nearest bound. *)
Definition ParseInt (s : string) : Z * bool :=
  let '(neg, ds) :=
    match s with
    | String "+" rest => (false, rest)
    | String "-" rest => (true, rest)
    | _ => (false, s)
    end in
  match ParseUint ds with
  | (_, Some ErrSyntax) => (0, false)
  | (un, _) =>
      if negb neg && (2 ^ 63 <=? un) then (maxInt64, false)
      else if neg && (2 ^ 63 <? un) then (minInt64, false)
      else (if neg then - un else un, true)
  end.

(** [strconv.Atoi] on a 64-bit platform: its fast path for short strings and
    [ParseInt] give the same value and the same error. *)
Definition Atoi (s : string) : Z * bool := ParseInt s.

(** ** [float64] and [time.Time] option values *)

(** A [float64]: a finite value, kept as the rational it denotes, an
    infinity, or NaN. *)
Inductive float64 : Type :=
| Finite (q : Q)
| PosInf
| NegInf
| NaN.

Coercion Finite : Q >-> float64.

(** [a < b] and [a == b] on [float64]: false whenever an operand is NaN. *)
Definition f64_ltb (a b : float64) : bool :=
  match a, b with
  | NaN, _ | _, NaN => false
  | Finite p, Finite q => negb (Qle_bool q p)
  | Finite _, PosInf | NegInf, Finite _ | NegInf, PosInf => true
  | _, _ => false
  end.

Definition f64_eqb (a b : float64) : bool :=
  match a, b with
  | Finite p, Finite q => Qeq_bool p q
  | PosInf, PosInf | NegInf, NegInf => true
  | _, _ => false
  end.

Definition isFinite (f : float64) : bool :=
  match f with
  | Finite _ => true
  | _ => false
  end.

(** The [float64] nearest to the constant [0.1]: 0x1.999999999999ap-4. *)
Definition tenth : Q := 3602879701896397 # 36028797018963968.

(** A [time.Time]: one whose year lies in 0..9999, kept as its RFC 3339
    text, or one that [Time.MarshalJSON] refuses. *)
Inductive Time : Type :=
| InRange (rfc3339 : string)
| OutOfRange.

(** ** JSON values *)

Inductive JSON : Type :=
| JNull
| JBool (b : bool)
| JNumber (q : Q)
| JString (s : string)
| JArray (l : list JSON)
| JObject (fields : list (string * JSON)).

(** ** Errors ([go/errors.go]) *)

(** What a call of a Go function comes to: it returns a value, or it
    panics. *)
Inductive result (A : Type) : Type :=
| Ok (a : A)
| Panic.
Arguments Ok {A} a.
Arguments Panic {A}.

(** Errors of types declared outside the package: none of them is, or wraps,
    a screencraft error. *)
Inductive foreign : Type :=
| errorString (s : string)
| contextCanceled
| contextDeadlineExceeded
| urlError (op url : string) (inner : foreign)
| wrapError (msg : string) (inner : foreign).

Module Error.
Record t (E : Type) : Type := mk {
  StatusCode : Z;
  Code : string;
  Message : string;
  Details : option (gmap string JSON);
  RequestID : string;
  Err : option E
}.
Arguments mk {E}.
Arguments StatusCode {E}.
Arguments Code {E}.
Arguments Message {E}.
Arguments Details {E}.
Arguments RequestID {E}.
Arguments Err {E}.
End Error.

(** A Go [error] value that the package can hold: a foreign error or a
    [*Error].  The six structs that embed [*Error] are not among them.  The
    embedded field of each is named [Error]; a field at depth zero hides the
    method [Error()] that [*Error] would promote, so none of the six types
    has that method, and none implements [error].  The source itself uses the
    selector as the field, in [NewValidationError(...).Error]. *)
Inductive error : Type :=
| Foreign (f : foreign)
| PError (e : Error.t error).

(** A pointer to one of the six structs that embed [*Error], with the
    embedded [*Error] (never nil) and the other fields. *)
Inductive typed : Type :=
| PAuthenticationError (e : Error.t error)
| PRateLimitError (e : Error.t error) (Limit Remaining : Z) (ResetAt : Z) (RetryAfter : Z)
| PValidationError (e : Error.t error) (Field Constraint : string)
| PTimeoutError (e : Error.t error) (Duration : Z)
| PNetworkError (e : Error.t error)
| PServerError (e : Error.t error).

Definition ErrMissingAPIKey : error := Foreign (errorString "screencraft: API key is required").
Definition ErrMissingURL : error := Foreign (errorString "screencraft: URL is required").
Definition ErrInvalidFormat : error := Foreign (errorString "screencraft: invalid format specified").
Definition ErrInvalidQuality : error :=
  Foreign (errorString "screencraft: quality must be between 0 and 100").
Definition ErrInvalidViewport : error :=
  Foreign (errorString "screencraft: viewport dimensions must be positive").
Definition ErrContextCanceled : error := Foreign (errorString "screencraft: context canceled").
Definition ErrTimeout : error := Foreign (errorString "screencraft: operation timed out").

Definition StatusBadRequest : Z := 400.
Definition StatusUnauthorized : Z := 401.
Definition StatusTooManyRequests : Z := 429.
Definition StatusInternalServerError : Z := 500.
Definition StatusBadGateway : Z := 502.
Definition StatusServiceUnavailable : Z := 503.
Definition StatusGatewayTimeout : Z := 504.

(** The method [IsRetryable] of [Error]. *)
Definition Error_IsRetryable {E} (e : Error.t E) : bool :=
  let s := Error.StatusCode e in
  (s =? StatusTooManyRequests) || (s =? StatusServiceUnavailable)
  || (s =? StatusBadGateway) || (s =? StatusGatewayTimeout)
  || (s =? StatusInternalServerError).

Definition NewAuthenticationError (message : string) : typed :=
  PAuthenticationError
    (Error.mk StatusUnauthorized "AUTHENTICATION_ERROR" message None "" None).

Definition NewRateLimitError (limit remaining resetAt retryAfter : Z) : typed :=
  PRateLimitError
    (Error.mk StatusTooManyRequests "RATE_LIMIT_EXCEEDED" "rate limit exceeded" None "" None)
    limit remaining resetAt retryAfter.

Definition NewValidationError (field message constraint : string) : typed :=
  PValidationError
    (Error.mk StatusBadRequest "VALIDATION_ERROR" message None "" None) field constraint.

Definition NewNetworkError (err : error) : typed :=
  PNetworkError (Error.mk 0 "NETWORK_ERROR" "network error occurred" None "" (Some err)).

Definition NewServerError (statusCode : Z) (message : string) : typed :=
  PServerError (Error.mk statusCode "SERVER_ERROR" message None "" None).

(** The field [Error] of a typed struct: the embedded [*Error]. *)
Definition embedded (t : typed) : Error.t error :=
  match t with
  | PAuthenticationError e | PRateLimitError e _ _ _ _ | PValidationError e _ _
  | PTimeoutError e _ | PNetworkError e | PServerError e => e
  end.

(** The selector expression [t.Error], as an [error]: a [*Error]. *)
Definition dotError (t : typed) : error := PError (embedded t).

(** [errors.As(err, &target)] for a target of type [*Error]: false for a nil
    error, otherwise the first error of the chain that is a [*Error].  A
    [*Error] at the head is found at once; a foreign error holds none. *)
Definition errorsAsError (err : option error) : option (Error.t error) :=
  match err with
  | Some (PError e) => Some e
  | Some (Foreign _) | None => None
  end.

(** [errors.As(err, &target)] for a target whose type is a pointer to one of
    the six typed structs, [target] saying which.  For a nil error it returns false.  For any other
    error it panics before it looks at the chain: the type of the target is
    neither an interface nor a type that implements [error]. *)
Inductive Kind : Type :=
| KAuthentication | KRateLimit | KValidation | KTimeout | KNetwork | KServer.

Definition errorsAsTyped (target : Kind) (err : option error) : result (option typed) :=
  match err with
  | None => Ok None
  | Some _ => Panic
  end.

(** The six type tests: [return errors.As(err, &target)]. *)
Definition typeTest (target : Kind) (err : option error) : result bool :=
  match errorsAsTyped target err with
  | Ok found => Ok (bool_decide (is_Some found))
  | Panic => Panic
  end.

Definition IsAuthenticationError (err : option error) : result bool := typeTest KAuthentication err.
Definition IsRateLimitError (err : option error) : result bool := typeTest KRateLimit err.
Definition IsValidationError (err : option error) : result bool := typeTest KValidation err.
Definition IsTimeoutError (err : option error) : result bool := typeTest KTimeout err.
Definition IsNetworkError (err : option error) : result bool := typeTest KNetwork err.
Definition IsServerError (err : option error) : result bool := typeTest KServer err.

(** [IsRetryable]: the [*Error] of the chain decides by its status code;
    without one the three tests with typed targets follow. *)
Definition IsRetryable (err : option error) : result bool :=
  match errorsAsError err with
  | Some scErr => Ok (Error_IsRetryable scErr)
  | None =>
      match errorsAsTyped KRateLimit err with
      | Panic => Panic
      | Ok (Some _) => Ok true
      | Ok None =>
          match errorsAsTyped KNetwork err with
          | Panic => Panic
          | Ok (Some _) => Ok true
          | Ok None =>
              match errorsAsTyped KTimeout err with
              | Panic => Panic
              | Ok (Some _) => Ok true
              | Ok None => Ok false
              end
          end
      end
  end.

(** [GetRetryAfter]. *)
Definition GetRetryAfter (err : option error) : result Z :=
  match errorsAsTyped KRateLimit err with
  | Panic => Panic
  | Ok (Some (PRateLimitError _ _ _ _ retryAfter)) => Ok retryAfter
  | Ok _ => Ok 0
  end.

(** ** Request and response types (the Go type declarations) *)

Module Viewport.
Record t : Type := mk { Width : Z; Height : Z }.
End Viewport.

Module ScrollPosition.
Record t : Type := mk { X : Z; Y : Z }.
End ScrollPosition.

Module Clip.
Record t : Type := mk { X : Z; Y : Z; Width : Z; Height : Z }.
End Clip.

Module Cookie.
Record t : Type := mk {
  Name : string;
  Value : string;
  Domain : string;
  Path : string;
  Secure : bool;
  HTTPOnly : bool;
  SameSite : string;
  Expires : option Time
}.
End Cookie.

Module Header.
Record t : Type := mk { Name : string; Value : string }.
End Header.

Module WebhookConfig.
Record t : Type := mk {
  URL : string;
  Headers : gmap string string;
  Secret : string
}.
End WebhookConfig.

Module PDFMargin.
Record t : Type := mk { Top : string; Right : string; Bottom : string; Left : string }.
End PDFMargin.

Module ScreenshotOptions.
Record t : Type := mk {
  URL : string;
  Format : string;
  Quality : Z;
  FullPage : bool;
  Viewport : option Viewport.t;
  ScrollPosition : option ScrollPosition.t;
  Clip : option Clip.t;
  AcceptCookies : bool;
  Delay : Z;
  WaitUntil : string;
  WaitForSelector : string;
  WaitForTimeout : Z;
  Cookies : list Cookie.t;
  Headers : list Header.t;
  UserAgent : string;
  DeviceScaleFactor : float64;
  IsMobile : bool;
  HasTouch : bool;
  IsLandscape : bool;
  DarkMode : bool;
  BlockAds : bool;
  BlockTrackers : bool;
  BypassCSP : bool;
  JavaScript : option bool;
  Webhook : option WebhookConfig.t
}.
End ScreenshotOptions.

Module PDFOptions.
Record t : Type := mk {
  URL : string;
  Format : string;
  Orientation : string;
  Width : string;
  Height : string;
  Scale : float64;
  DisplayHeaderFooter : bool;
  HeaderTemplate : string;
  FooterTemplate : string;
  PrintBackground : bool;
  PreferCSSPageSize : bool;
  PageRanges : string;
  Margin : option PDFMargin.t;
  Viewport : option Viewport.t;
  AcceptCookies : bool;
  Delay : Z;
  WaitUntil : string;
  WaitForSelector : string;
  WaitForTimeout : Z;
  Cookies : list Cookie.t;
  Headers : list Header.t;
  UserAgent : string;
  DarkMode : bool;
  BlockAds : bool;
  BlockTrackers : bool;
  BypassCSP : bool;
  JavaScript : option bool;
  Webhook : option WebhookConfig.t
}.
End PDFOptions.

Module APIErrorDetails.
Record t : Type := mk {
  Code : string;
  Message : string;
  Details : option (gmap string JSON)
}.
End APIErrorDetails.

Module APIResponse.
Record t : Type := mk {
  Success : bool;
  Message : string;
  JobID : string;
  Error : option APIErrorDetails.t
}.
End APIResponse.

Module RateLimitInfo.
Record t : Type := mk { Limit : Z; Remaining : Z; Reset : Z }.
End RateLimitInfo.

(** What [io.ReadAll(resp.Body)] followed by [json.Unmarshal(body, &apiResp)]
    gives: the read fails, or it yields the bytes together with the decoded
    [APIResponse] ([None] when the bytes are not a JSON document of that
    shape). *)
Inductive ReadAll : Type :=
| ReadError (err : foreign)
| ReadBytes (raw : string) (decoded : option APIResponse.t).

Module Response.
Record t : Type := mk {
  StatusCode : Z;
  Header : gmap string string;
  Body : ReadAll
}.
End Response.

(** [resp.Header.Get(key)]: the empty string when the header is absent.
    Header names are taken up to canonical form and written as in the
    source. *)
Definition Header_Get (h : gmap string string) (key : string) : string :=
  default "" (h !! key).

(** A value stored under a key of a request body.  The nested maps the
    builders create hold only scalars. *)
Inductive scalar : Type :=
| VString (s : string)
| VInt (z : Z)
| VFloat64 (f : float64)
| VBool (b : bool)
| VStringMap (m : gmap string string)
| VCookies (l : list Cookie.t)
| VHeaders (l : list Header.t).

Inductive value : Type :=
| Scalar (s : scalar)
| VMap (m : gmap string scalar).

Definition nonempty (s : string) : bool := negb (String.eqb s "").

(** ** Request bodies ([buildScreenshotRequest], [buildPDFRequest]) *)

(** [if cond { req[k] = v }]. *)
Definition put_if {V} (cond : bool) (k : string) (v : V) (req : gmap string V) : gmap string V :=
  if cond then <[k := v]> req else req.

Definition viewportMap (vp : Viewport.t) : gmap string scalar :=
  let viewport := (∅ : gmap string scalar) in
  let viewport := put_if (0 <? Viewport.Width vp) "width" (VInt (Viewport.Width vp)) viewport in
  let viewport := put_if (0 <? Viewport.Height vp) "height" (VInt (Viewport.Height vp)) viewport in
  viewport.

Definition put_viewport (vp : option Viewport.t) (req : gmap string value) : gmap string value :=
  match vp with
  | Some vp =>
      let viewport := viewportMap vp in
      put_if (0 <? size viewport)%nat "viewport" (VMap viewport) req
  | None => req
  end.

Definition webhookMap (wh : WebhookConfig.t) : gmap string scalar :=
  let webhook := ({[ "url" := VString (WebhookConfig.URL wh) ]} : gmap string scalar) in
  let webhook :=
    put_if (0 <? size (WebhookConfig.Headers wh))%nat "headers"
      (VStringMap (WebhookConfig.Headers wh)) webhook in
  let webhook :=
    put_if (nonempty (WebhookConfig.Secret wh)) "secret" (VString (WebhookConfig.Secret wh)) webhook in
  webhook.

Definition put_webhook (wh : option WebhookConfig.t) (req : gmap string value) : gmap string value :=
  match wh with
  | Some wh => <["webhook" := VMap (webhookMap wh)]> req
  | None => req
  end.

Definition put_javascript (js : option bool) (req : gmap string value) : gmap string value :=
  match js with
  | Some b => <["javascript" := Scalar (VBool b)]> req
  | None => req
  end.

Definition buildScreenshotRequest (opts : ScreenshotOptions.t) : gmap string value :=
  let req := ({[ "url" := Scalar (VString (ScreenshotOptions.URL opts)) ]} : gmap string value) in
  let req := put_if (nonempty (ScreenshotOptions.Format opts)) "format"
               (Scalar (VString (ScreenshotOptions.Format opts))) req in
  let req := put_if (0 <? ScreenshotOptions.Quality opts) "quality"
               (Scalar (VInt (ScreenshotOptions.Quality opts))) req in
  let req := put_if (ScreenshotOptions.FullPage opts) "fullPage" (Scalar (VBool true)) req in
  let req := put_viewport (ScreenshotOptions.Viewport opts) req in
  let req :=
    match ScreenshotOptions.ScrollPosition opts with
    | Some sp =>
        let scrollPos : gmap string scalar :=
          <["y" := VInt (ScrollPosition.Y sp)]> {[ "x" := VInt (ScrollPosition.X sp) ]} in
        <["scrollPosition" := VMap scrollPos]> req
    | None => req
    end in
  let req :=
    match ScreenshotOptions.Clip opts with
    | Some cl =>
        <["clip" := VMap (<["height" := VInt (Clip.Height cl)]>
                           (<["width" := VInt (Clip.Width cl)]>
                             (<["y" := VInt (Clip.Y cl)]> {[ "x" := VInt (Clip.X cl) ]})))]> req
    | None => req
    end in
  let req := put_if (ScreenshotOptions.AcceptCookies opts) "acceptCookies" (Scalar (VBool true)) req in
  let req := put_if (0 <? ScreenshotOptions.Delay opts) "delay"
               (Scalar (VInt (ScreenshotOptions.Delay opts))) req in
  let req := put_if (nonempty (ScreenshotOptions.WaitUntil opts)) "waitUntil"
               (Scalar (VString (ScreenshotOptions.WaitUntil opts))) req in
  let req := put_if (nonempty (ScreenshotOptions.WaitForSelector opts)) "waitForSelector"
               (Scalar (VString (ScreenshotOptions.WaitForSelector opts))) req in
  let req := put_if (0 <? ScreenshotOptions.WaitForTimeout opts) "waitForTimeout"
               (Scalar (VInt (ScreenshotOptions.WaitForTimeout opts))) req in
  let req := put_if (0 <? length (ScreenshotOptions.Cookies opts))%nat "cookies"
               (Scalar (VCookies (ScreenshotOptions.Cookies opts))) req in
  let req := put_if (0 <? length (ScreenshotOptions.Headers opts))%nat "headers"
               (Scalar (VHeaders (ScreenshotOptions.Headers opts))) req in
  let req := put_if (nonempty (ScreenshotOptions.UserAgent opts)) "userAgent"
               (Scalar (VString (ScreenshotOptions.UserAgent opts))) req in
  let req := put_if (f64_ltb 0%Q (ScreenshotOptions.DeviceScaleFactor opts)) "deviceScaleFactor"
               (Scalar (VFloat64 (ScreenshotOptions.DeviceScaleFactor opts))) req in
  let req := put_if (ScreenshotOptions.IsMobile opts) "isMobile" (Scalar (VBool true)) req in
  let req := put_if (ScreenshotOptions.HasTouch opts) "hasTouch" (Scalar (VBool true)) req in
  let req := put_if (ScreenshotOptions.IsLandscape opts) "isLandscape" (Scalar (VBool true)) req in
  let req := put_if (ScreenshotOptions.DarkMode opts) "darkMode" (Scalar (VBool true)) req in
  let req := put_if (ScreenshotOptions.BlockAds opts) "blockAds" (Scalar (VBool true)) req in
  let req := put_if (ScreenshotOptions.BlockTrackers opts) "blockTrackers" (Scalar (VBool true)) req in
  let req := put_if (ScreenshotOptions.BypassCSP opts) "bypassCSP" (Scalar (VBool true)) req in
  let req := put_javascript (ScreenshotOptions.JavaScript opts) req in
  let req := put_webhook (ScreenshotOptions.Webhook opts) req in
  req.

Definition marginMap (mg : PDFMargin.t) : gmap string scalar :=
  let margin := (∅ : gmap string scalar) in
  let margin := put_if (nonempty (PDFMargin.Top mg)) "top" (VString (PDFMargin.Top mg)) margin in
  let margin := put_if (nonempty (PDFMargin.Right mg)) "right" (VString (PDFMargin.Right mg)) margin in
  let margin := put_if (nonempty (PDFMargin.Bottom mg)) "bottom" (VString (PDFMargin.Bottom mg)) margin in
  let margin := put_if (nonempty (PDFMargin.Left mg)) "left" (VString (PDFMargin.Left mg)) margin in
  margin.

Definition buildPDFRequest (opts : PDFOptions.t) : gmap string value :=
  let req := ({[ "url" := Scalar (VString (PDFOptions.URL opts)) ]} : gmap string value) in
  let req := put_if (nonempty (PDFOptions.Format opts)) "format"
               (Scalar (VString (PDFOptions.Format opts))) req in
  let req := put_if (nonempty (PDFOptions.Orientation opts)) "orientation"
               (Scalar (VString (PDFOptions.Orientation opts))) req in
  let req := put_if (nonempty (PDFOptions.Width opts)) "width"
               (Scalar (VString (PDFOptions.Width opts))) req in
  let req := put_if (nonempty (PDFOptions.Height opts)) "height"
               (Scalar (VString (PDFOptions.Height opts))) req in
  let req := put_if (negb (f64_eqb (PDFOptions.Scale opts) 0%Q)) "scale"
               (Scalar (VFloat64 (PDFOptions.Scale opts))) req in
  let req := put_if (PDFOptions.DisplayHeaderFooter opts) "displayHeaderFooter"
               (Scalar (VBool true)) req in
  let req := put_if (nonempty (PDFOptions.HeaderTemplate opts)) "headerTemplate"
               (Scalar (VString (PDFOptions.HeaderTemplate opts))) req in
  let req := put_if (nonempty (PDFOptions.FooterTemplate opts)) "footerTemplate"
               (Scalar (VString (PDFOptions.FooterTemplate opts))) req in
  let req := put_if (PDFOptions.PrintBackground opts) "printBackground" (Scalar (VBool true)) req in
  let req := put_if (PDFOptions.PreferCSSPageSize opts) "preferCSSPageSize"
               (Scalar (VBool true)) req in
  let req := put_if (nonempty (PDFOptions.PageRanges opts)) "pageRanges"
               (Scalar (VString (PDFOptions.PageRanges opts))) req in
  let req :=
    match PDFOptions.Margin opts with
    | Some mg =>
        let margin := marginMap mg in
        put_if (0 <? size margin)%nat "margin" (VMap margin) req
    | None => req
    end in
  let req := put_viewport (PDFOptions.Viewport opts) req in
  let req := put_if (PDFOptions.AcceptCookies opts) "acceptCookies" (Scalar (VBool true)) req in
  let req := put_if (0 <? PDFOptions.Delay opts) "delay"
               (Scalar (VInt (PDFOptions.Delay opts))) req in
  let req := put_if (nonempty (PDFOptions.WaitUntil opts)) "waitUntil"
               (Scalar (VString (PDFOptions.WaitUntil opts))) req in
  let req := put_if (nonempty (PDFOptions.WaitForSelector opts)) "waitForSelector"
               (Scalar (VString (PDFOptions.WaitForSelector opts))) req in
  let req := put_if (0 <? PDFOptions.WaitForTimeout opts) "waitForTimeout"
               (Scalar (VInt (PDFOptions.WaitForTimeout opts))) req in
  let req := put_if (0 <? length (PDFOptions.Cookies opts))%nat "cookies"
               (Scalar (VCookies (PDFOptions.Cookies opts))) req in
  let req := put_if (0 <? length (PDFOptions.Headers opts))%nat "headers"
               (Scalar (VHeaders (PDFOptions.Headers opts))) req in
  let req := put_if (nonempty (PDFOptions.UserAgent opts)) "userAgent"
               (Scalar (VString (PDFOptions.UserAgent opts))) req in
  let req := put_if (PDFOptions.DarkMode opts) "darkMode" (Scalar (VBool true)) req in
  let req := put_if (PDFOptions.BlockAds opts) "blockAds" (Scalar (VBool true)) req in
  let req := put_if (PDFOptions.BlockTrackers opts) "blockTrackers" (Scalar (VBool true)) req in
  let req := put_if (PDFOptions.BypassCSP opts) "bypassCSP" (Scalar (VBool true)) req in
  let req := put_javascript (PDFOptions.JavaScript opts) req in
  let req := put_webhook (PDFOptions.Webhook opts) req in
  req.

(** ** Local validation ([ValidateScreenshotOptions], [ValidatePDFOptions]) *)

Definition viewportNegative (vp : option Viewport.t) : bool :=
  match vp with
  | Some vp => (Viewport.Width vp <? 0) || (Viewport.Height vp <? 0)
  | None => false
  end.

(** The result is the returned [error]; [None] is the nil error. *)
Definition ValidateScreenshotOptions (opts : option ScreenshotOptions.t) : option error :=
  match opts with
  | None => Some ErrMissingURL
  | Some opts =>
      if String.eqb (ScreenshotOptions.URL opts) "" then Some ErrMissingURL
      else if (ScreenshotOptions.Quality opts <? 0) || (100 <? ScreenshotOptions.Quality opts)
      then Some ErrInvalidQuality
      else if viewportNegative (ScreenshotOptions.Viewport opts) then Some ErrInvalidViewport
      else None
  end.

Definition ValidatePDFOptions (opts : option PDFOptions.t) : option error :=
  match opts with
  | None => Some ErrMissingURL
  | Some opts =>
      if String.eqb (PDFOptions.URL opts) "" then Some ErrMissingURL
      else if negb (f64_eqb (PDFOptions.Scale opts) 0%Q)
              && (f64_ltb (PDFOptions.Scale opts) tenth || f64_ltb (2 # 1)%Q (PDFOptions.Scale opts))
      then Some (dotError (NewValidationError "scale" "scale must be between 0.1 and 2.0" "range"))
      else if viewportNegative (PDFOptions.Viewport opts) then Some ErrInvalidViewport
      else None
  end.

(** The error both asynchronous entry points return for a missing webhook:
    [NewValidationError(...).Error], the embedded [*Error] itself. *)
Definition webhookRequired : error :=
  dotError (NewValidationError "webhook.url" "webhook URL is required for async operations" "required").

Definition webhookMissing (wh : option WebhookConfig.t) : bool :=
  match wh with
  | None => true
  | Some wh => String.eqb (WebhookConfig.URL wh) ""
  end.

(** ** What [json.Marshal] refuses *)

(** [json.Marshal] fails on a [float64] that is NaN or an infinity and on a
    [time.Time] whose [MarshalJSON] fails; every other value of a body is
    encoded. *)
Definition cookieFails (c : Cookie.t) : bool :=
  match Cookie.Expires c with
  | Some OutOfRange => true
  | _ => false
  end.

Definition scalarFails (v : scalar) : bool :=
  match v with
  | VFloat64 f => negb (isFinite f)
  | VCookies l => existsb cookieFails l
  | _ => false
  end.

Definition valueFails (v : value) : bool :=
  match v with
  | Scalar s => scalarFails s
  | VMap m => existsb (fun kv => scalarFails (snd kv)) (map_to_list m)
  end.

Definition marshalFails (body : gmap string value) : bool :=
  existsb (fun kv => valueFails (snd kv)) (map_to_list body).

(** The error [json.Marshal] reports; its text plays no part. *)
Definition jsonUnsupported : foreign := errorString "json: unsupported value".

(** The error [doRequest] returns when [json.Marshal(body)] fails, [None]
    when it succeeds. *)
Definition marshalError (body : gmap string value) : option error :=
  if marshalFails body
  then Some (Foreign (wrapError "screencraft: failed to marshal request body" jsonUnsupported))
  else None.

(** ** The client ([go/screencraft.go]) *)

Definition DefaultBaseURL : string := "https://screencraftapi.com/v1".
Definition DefaultTimeout : Z := 60 * Second.
Definition DefaultMaxRetries : Z := 3.
Definition DefaultRetryWaitMin : Z := 1 * Second.
Definition DefaultRetryWaitMax : Z := 30 * Second.
Definition Version : string := "1.0.0".

Module Client.
Record t : Type := mk {
  apiKey : string;
  baseURL : string;
  httpClient_Timeout : Z;
  maxRetries : Z;
  retryWaitMin : Z;
  retryWaitMax : Z;
  userAgent : string;
  debug : bool;
  logger : bool;
  lastRateLimit : option RateLimitInfo.t
}.
End Client.

(** The functional options of the package.  [WithHTTPClient] carries the
    timeout of the client it installs, [WithLogger] only the fact that a
    logger is set. *)
Inductive Option : Type :=
| WithBaseURL (url : string)
| WithHTTPClient (timeout : Z)
| WithTimeout (timeout : Z)
| WithMaxRetries (maxRetries : Z)
| WithRetryWait (min max : Z)
| WithUserAgent (userAgent : string)
| WithDebug (debug : bool)
| WithLogger.

Definition applyOption (c : Client.t) (opt : Option) : Client.t :=
  let '(Client.mk k b t r wmin wmax ua d l rl) := c in
  match opt with
  | WithBaseURL url => Client.mk k url t r wmin wmax ua d l rl
  | WithHTTPClient timeout => Client.mk k b timeout r wmin wmax ua d l rl
  | WithTimeout timeout => Client.mk k b timeout r wmin wmax ua d l rl
  | WithMaxRetries n => Client.mk k b t n wmin wmax ua d l rl
  | WithRetryWait min max => Client.mk k b t r min max ua d l rl
  | WithUserAgent userAgent => Client.mk k b t r wmin wmax userAgent d l rl
  | WithDebug debug => Client.mk k b t r wmin wmax ua debug l rl
  | WithLogger => Client.mk k b t r wmin wmax ua d true rl
  end.

Definition New (apiKey : string) (opts : list Option) : Client.t :=
  let c :=
    Client.mk apiKey DefaultBaseURL DefaultTimeout DefaultMaxRetries DefaultRetryWaitMin
      DefaultRetryWaitMax ("screencraft-go/" ++ Version) false false None in
  fold_left applyOption opts c.

Definition SetAPIKey (c : Client.t) (apiKey : string) : Client.t :=
  let '(Client.mk _ b t r wmin wmax ua d l rl) := c in
  Client.mk apiKey b t r wmin wmax ua d l rl.

Definition GetRateLimitInfo (c : Client.t) : option RateLimitInfo.t := Client.lastRateLimit c.

Definition setLastRateLimit (c : Client.t) (info : RateLimitInfo.t) : Client.t :=
  let '(Client.mk k b t r wmin wmax ua d l _) := c in
  Client.mk k b t r wmin wmax ua d l (Some info).

(** [parseRateLimitHeaders]. *)
Definition parseRateLimitHeaders (c : Client.t) (resp : Response.t) : Client.t :=
  let limit := fst (Atoi (Header_Get (Response.Header resp) "X-RateLimit-Limit")) in
  let remaining := fst (Atoi (Header_Get (Response.Header resp) "X-RateLimit-Remaining")) in
  let resetUnix := fst (ParseInt (Header_Get (Response.Header resp) "X-RateLimit-Reset")) in
  if (0 <? limit) || (0 <? remaining) || (0 <? resetUnix)
  then setLastRateLimit c (RateLimitInfo.mk limit remaining resetUnix)
  else c.

(** [Details[key].(string)]: the string stored under [key], with the flag of
    the type assertion. *)
Definition detailString (details : gmap string JSON) (key : string) : option string :=
  match details !! key with
  | Some (JString s) => Some s
  | _ => None
  end.

(** What a [return] statement of [parseErrorResponse] is given: an [error], or
    a pointer to a typed struct, which is not one: such a statement does not
    type-check. *)
Inductive returned : Type :=
| ReturnsError (e : error)
| ReturnsTyped (t : typed).

(** [parseErrorResponse]. *)
Definition parseErrorResponse (resp : Response.t) : returned :=
  match Response.Body resp with
  | ReadError err =>
      ReturnsError
        (PError (Error.mk (Response.StatusCode resp) "" "failed to read error response" None ""
                   (Some (Foreign err))))
  | ReadBytes body None =>
      ReturnsError (PError (Error.mk (Response.StatusCode resp) "" body None "" None))
  | ReadBytes body (Some apiResp) =>
      let requestID := Header_Get (Response.Header resp) "X-Request-ID" in
      let baseErr :=
        match APIResponse.Error apiResp with
        | Some e =>
            Error.mk (Response.StatusCode resp) (APIErrorDetails.Code e) (APIErrorDetails.Message e)
              (APIErrorDetails.Details e) requestID None
        | None =>
            Error.mk (Response.StatusCode resp) "" (APIResponse.Message apiResp) None requestID None
        end in
      let status := Response.StatusCode resp in
      if status =? StatusUnauthorized then ReturnsTyped (PAuthenticationError baseErr)
      else if status =? StatusTooManyRequests then
        let ra := Header_Get (Response.Header resp) "Retry-After" in
        let retryAfter :=
          if nonempty ra then
            let '(seconds, ok) := Atoi ra in
            if ok then wrap64 (seconds * Second) else 0
          else 0 in
        let limit := fst (Atoi (Header_Get (Response.Header resp) "X-RateLimit-Limit")) in
        let remaining := fst (Atoi (Header_Get (Response.Header resp) "X-RateLimit-Remaining")) in
        let resetUnix := fst (ParseInt (Header_Get (Response.Header resp) "X-RateLimit-Reset")) in
        ReturnsTyped (PRateLimitError baseErr limit remaining resetUnix retryAfter)
      else if status =? StatusBadRequest then
        let details :=
          match APIResponse.Error apiResp with
          | Some e => APIErrorDetails.Details e
          | None => None
          end in
        let field := default "" (details ≫= fun d => detailString d "field") in
        let constraint := default "" (details ≫= fun d => detailString d "constraint") in
        ReturnsTyped (PValidationError baseErr field constraint)
      else if (status =? StatusInternalServerError) || (status =? StatusBadGateway)
              || (status =? StatusServiceUnavailable) || (status =? StatusGatewayTimeout)
      then ReturnsTyped (PServerError baseErr)
      else ReturnsError (PError baseErr)
  end.

(** [calculateBackoff].  The wait of a rate-limit error comes first.  The
    exponential wait with jitter is [float64] arithmetic on [retryWaitMin],
    [retryWaitMax], [attempt] and [rand.Float64()], converted to a
    [time.Duration]; the embedding does not compute it: [exponential] is the
    value that expression has. *)
Definition calculateBackoff (c : Client.t) (attempt : Z) (lastErr : option error)
    (exponential : Z) : result Z :=
  match GetRetryAfter lastErr with
  | Panic => Panic
  | Ok retryAfter => if 0 <? retryAfter then Ok retryAfter else Ok exponential
  end.

(** ** The retry loop ([doRequest]) *)

(** Which case of the [select] before a retry runs: the timer of
    [time.After(waitTime)], or [ctx.Done()], with the value of [ctx.Err()]. *)
Inductive selectResult : Type :=
| timerFired
| ctxDone (err : foreign).

(** What [c.httpClient.Do(req)] returns. *)
Inductive DoResult : Type :=
| DoError (err : foreign)
| DoResponse (resp : Response.t).

(** What the outside world does during one iteration of the loop;
    [exponential] is the value of the [float64] expression of
    [calculateBackoff] in that iteration. *)
Record Attempt : Type := mkAttempt {
  wait : selectResult;
  exponential : Z;
  newRequest : option foreign;
  roundTrip : DoResult
}.

(** What one call does, in order. *)
Inductive Event : Type :=
| Slept (attempt : nat) (waitTime : Z)
| Cancelled (attempt : nat) (waitTime : Z)
| Sent (attempt : nat) (endpoint : string) (body : gmap string value).

(** How a call ends: it returns a result and an error (either may be nil), it
    panics, or it comes to a statement that uses the pointer [t] to a typed
    struct as an [error]: the source does not type-check there, and the call
    has no behaviour beyond that point. *)
Inductive ending (R : Type) : Type :=
| Returned (res : option R) (err : option error)
| Panicked
| IllTyped (t : typed).
Arguments Returned {R} res err.
Arguments Panicked {R}.
Arguments IllTyped {R} t.

Definition outcome (R : Type) : Type := (Client.t * ending R * list Event)%type.

Definition emit {R} (ev : Event) (o : outcome R) : outcome R :=
  let '(c, res, tr) := o in (c, res, ev :: tr).

(** The [for] loop of [doRequest]: [n] iterations are left, the loop
    variable is [attempt]. *)
Fixpoint attemptLoop (env : nat -> Attempt) (endpoint : string) (body : gmap string value)
    (n : nat) (c : Client.t) (attempt : nat) (lastErr : option error) {struct n}
    : outcome Response.t :=
  match n with
  | O => (c, Returned None lastErr, [])
  | S n' =>
      let a := env attempt in
      let send : outcome Response.t :=
        match newRequest a with
        | Some err =>
            (c, Returned None
                  (Some (Foreign (wrapError "screencraft: failed to create request" err))), [])
        | None =>
            emit (Sent attempt endpoint body)
              match roundTrip a with
              | DoError err => (c, IllTyped (NewNetworkError (Foreign err)), [])
              | DoResponse resp =>
                  let c := parseRateLimitHeaders c resp in
                  if 400 <=? Response.StatusCode resp then
                    match parseErrorResponse resp with
                    | ReturnsTyped t => (c, IllTyped t, [])
                    | ReturnsError lastErr =>
                        match IsRetryable (Some lastErr) with
                        | Panic => (c, Panicked, [])
                        | Ok retryable =>
                            if negb retryable || (Z.of_nat attempt =? Client.maxRetries c)
                            then (c, Returned None (Some lastErr), [])
                            else attemptLoop env endpoint body n' c (S attempt) (Some lastErr)
                        end
                    end
                  else (c, Returned (Some resp) None, [])
              end
        end in
      if (0 <? attempt)%nat then
        match calculateBackoff c (Z.of_nat attempt) lastErr (exponential a) with
        | Panic => (c, Panicked, [])
        | Ok waitTime =>
            match wait a with
            | ctxDone err => (c, Returned None (Some (Foreign err)), [Cancelled attempt waitTime])
            | timerFired => emit (Slept attempt waitTime) send
            end
        end
      else send
  end.

(** [doRequest] with the method POST and a non-nil body.  The calls of
    [logf] only write to the logger and are left out. *)
Definition doRequest (env : nat -> Attempt) (c : Client.t) (endpoint : string)
    (body : gmap string value) : outcome Response.t :=
  if String.eqb (Client.apiKey c) "" then (c, Returned None (Some ErrMissingAPIKey), [])
  else
    match marshalError body with
    | Some err => (c, Returned None (Some err), [])
    | None => attemptLoop env endpoint body (Z.to_nat (Client.maxRetries c + 1)) c 0%nat None
    end.

(** The number of HTTP requests a trace sends. *)
Definition isSent (ev : Event) : bool :=
  match ev with
  | Sent _ _ _ => true
  | _ => false
  end.

Definition sentCount (tr : list Event) : nat := length (List.filter isSent tr).

Definition traceOf {R} (o : outcome R) : list Event := snd o.
Definition resultOf {R} (o : outcome R) : ending R := snd (fst o).
Definition clientOf {R} (o : outcome R) : Client.t := fst (fst o).

(** ** The capture entry points ([go/screenshot.go] and the PDF file) *)

Definition screenshotEndpoint : string := "/screenshot".
Definition pdfEndpoint : string := "/pdf".

Module ScreenshotResult.
Record t : Type := mk {
  Data : string;
  ContentType : string;
  URL : string;
  Width : Z;
  Height : Z;
  JobID : string
}.
End ScreenshotResult.

Module PDFResult.
Record t : Type := mk {
  Data : string;
  ContentType : string;
  URL : string;
  Pages : Z;
  JobID : string
}.
End PDFResult.

(** The error [json.Unmarshal] reports; its text plays no part. *)
Definition jsonSyntaxError : foreign := errorString "invalid character".

(** The decoded [APIResponse] of a successful JSON response, or the error the
    entry points return instead. *)
Definition readAPIResponse (resp : Response.t) : APIResponse.t + error :=
  match Response.Body resp with
  | ReadError err => inr (Foreign (wrapError "screencraft: failed to read response" err))
  | ReadBytes _ None =>
      inr (Foreign (wrapError "screencraft: failed to parse response" jsonSyntaxError))
  | ReadBytes _ (Some apiResp) =>
      if APIResponse.Success apiResp then inl apiResp
      else inr (PError (Error.mk (Response.StatusCode resp) "" (APIResponse.Message apiResp)
                          None "" None))
  end.

(** A header holding an integer, or the zero value the field keeps when the
    header is absent or malformed. *)
Definition headerInt (resp : Response.t) (key : string) : Z :=
  let h := Header_Get (Response.Header resp) key in
  if nonempty h then
    let '(n, ok) := Atoi h in
    if ok then n else 0
  else 0.

Definition parseScreenshotResponse (resp : Response.t) (URL : string)
    : option ScreenshotResult.t * option error :=
  let contentType := Header_Get (Response.Header resp) "Content-Type" in
  if String.eqb contentType "application/json" then
    match readAPIResponse resp with
    | inl apiResp =>
        (Some (ScreenshotResult.mk "" "" URL 0 0 (APIResponse.JobID apiResp)), None)
    | inr err => (None, Some err)
    end
  else
    match Response.Body resp with
    | ReadError err =>
        (None, Some (Foreign (wrapError "screencraft: failed to read image data" err)))
    | ReadBytes data _ =>
        (Some (ScreenshotResult.mk data contentType URL
                 (headerInt resp "X-Image-Width") (headerInt resp "X-Image-Height") ""), None)
    end.

Definition parsePDFResponse (resp : Response.t) (URL : string)
    : option PDFResult.t * option error :=
  let contentType := Header_Get (Response.Header resp) "Content-Type" in
  if String.eqb contentType "application/json" then
    match readAPIResponse resp with
    | inl apiResp => (Some (PDFResult.mk "" "" URL 0 (APIResponse.JobID apiResp)), None)
    | inr err => (None, Some err)
    end
  else
    match Response.Body resp with
    | ReadError err =>
        (None, Some (Foreign (wrapError "screencraft: failed to read PDF data" err)))
    | ReadBytes data _ =>
        (Some (PDFResult.mk data contentType URL (headerInt resp "X-PDF-Pages") ""), None)
    end.

(** The part the four entry points share after validation: send the body and
    hand a response to [parse].  When [doRequest] returns neither a response
    nor an error (possible only for a negative [maxRetries]),
    [defer resp.Body.Close()] dereferences the nil response and panics. *)
Definition sendAndParse {R} (env : nat -> Attempt) (c : Client.t) (endpoint : string)
    (reqBody : gmap string value) (parse : Response.t -> option R * option error) : outcome R :=
  let '(c, e, tr) := doRequest env c endpoint reqBody in
  match e with
  | Returned _ (Some err) => (c, Returned None (Some err), tr)
  | Returned (Some resp) None => (c, Returned (fst (parse resp)) (snd (parse resp)), tr)
  | Returned None None => (c, Panicked, tr)
  | Panicked => (c, Panicked, tr)
  | IllTyped t => (c, IllTyped t, tr)
  end.

Definition parseAsync (resp : Response.t) : option string * option error :=
  match readAPIResponse resp with
  | inl apiResp => (Some (APIResponse.JobID apiResp), None)
  | inr err => (None, Some err)
  end.

Definition Screenshot (env : nat -> Attempt) (c : Client.t) (opts : option ScreenshotOptions.t)
    : outcome ScreenshotResult.t :=
  match ValidateScreenshotOptions opts, opts with
  | Some err, _ => (c, Returned None (Some err), [])
  | None, None => (c, Panicked, [])
  | None, Some opts =>
      let reqBody := buildScreenshotRequest opts in
      sendAndParse env c screenshotEndpoint reqBody
        (fun resp => parseScreenshotResponse resp (ScreenshotOptions.URL opts))
  end.

(** The job identifier is [Some]; the empty string returned with an error is
    [None].  The case of nil options that pass validation does not occur:
    there the source would dereference the nil pointer. *)
Definition ScreenshotAsync (env : nat -> Attempt) (c : Client.t) (opts : option ScreenshotOptions.t)
    : outcome string :=
  match ValidateScreenshotOptions opts, opts with
  | Some err, _ => (c, Returned None (Some err), [])
  | None, None => (c, Panicked, [])
  | None, Some opts =>
      if webhookMissing (ScreenshotOptions.Webhook opts) then (c, Returned None (Some webhookRequired), [])
      else
        let reqBody := buildScreenshotRequest opts in
        sendAndParse env c screenshotEndpoint reqBody parseAsync
  end.

Definition PDF (env : nat -> Attempt) (c : Client.t) (opts : option PDFOptions.t)
    : outcome PDFResult.t :=
  match ValidatePDFOptions opts, opts with
  | Some err, _ => (c, Returned None (Some err), [])
  | None, None => (c, Panicked, [])
  | None, Some opts =>
      let reqBody := buildPDFRequest opts in
      sendAndParse env c pdfEndpoint reqBody
        (fun resp => parsePDFResponse resp (PDFOptions.URL opts))
  end.

Definition PDFAsync (env : nat -> Attempt) (c : Client.t) (opts : option PDFOptions.t)
    : outcome string :=
  match ValidatePDFOptions opts, opts with
  | Some err, _ => (c, Returned None (Some err), [])
  | None, None => (c, Panicked, [])
  | None, Some opts =>
      if webhookMissing (PDFOptions.Webhook opts) then (c, Returned None (Some webhookRequired), [])
      else
        let reqBody := buildPDFRequest opts in
        sendAndParse env c pdfEndpoint reqBody parseAsync
  end.

(** ** The error factory of the Node SDK ([nodejs/src/errors.ts]) *)

Module NodeSDK.

Record ErrorResponse : Type := mkErrorResponse {
  code : string;
  message : string;
  details : option (list (string * JSON))
}.

Record RateLimitInfo : Type := mkRateLimitInfo { limit : Z; remaining : Z; reset : Z }.

(** The eight subclasses of [ScreenCraftError]. *)
Inductive ErrorClass : Type :=
| AuthenticationError | ValidationError | RateLimitError | CaptureError
| NetworkError | TimeoutError | ServerError | UnknownError.

Record ScreenCraftError : Type := mkError {
  name : ErrorClass;
  errMessage : string;
  errCode : string;
  statusCode : option Z;
  errDetails : option (list (string * JSON));
  rateLimitInfo : option RateLimitInfo
}.

(** [createErrorFromResponse]. *)
Definition createErrorFromResponse (status : Z) (errorResponse : option ErrorResponse)
    (rl : option RateLimitInfo) : ScreenCraftError :=
  let message :=
    match errorResponse with
    | Some r => if String.eqb (message r) "" then "An unknown error occurred" else message r
    | None => "An unknown error occurred"
    end in
  let details := errorResponse ≫= details in
  if (status =? 401) || (status =? 403) then
    mkError AuthenticationError message "AUTHENTICATION_ERROR" (Some 401) details None
  else if status =? 400 then
    mkError ValidationError message "VALIDATION_ERROR" (Some 400) details None
  else if status =? 429 then
    mkError RateLimitError message "RATE_LIMIT_ERROR" (Some 429) details rl
  else if status =? 408 then
    mkError TimeoutError message "TIMEOUT_ERROR" (Some 408) details None
  else if (status =? 500) || (status =? 502) || (status =? 503) || (status =? 504) then
    mkError ServerError message "SERVER_ERROR" (Some status) details None
  else if (400 <=? status) && (status <? 500) then
    mkError CaptureError message "CAPTURE_ERROR" (Some status) details None
  else mkError UnknownError message "UNKNOWN_ERROR" None details None.

End NodeSDK.

(** ** The client of the Node SDK (the file stored after [nodejs/verify-setup.js]) *)

Module NodeClient.

(** A JavaScript number, as far as the comparisons of the client read it. *)
Inductive number : Type :=
| Num (q : Q)
| NotANumber
| Infinity
| NegInfinity.

(** [attempt >= m] for the attempt counter, which is a natural number; false
    when [m] is NaN. *)
Definition geNumber (attempt : nat) (m : number) : bool :=
  match m with
  | Num q => Qle_bool q (inject_Z (Z.of_nat attempt))
  | NegInfinity => true
  | Infinity | NotANumber => false
  end.

(** What [fn()] was rejected with, as far as [shouldRetry] reads it: an Axios
    error, with the status of its response when it has one and with its
    [code], or any other value. *)
Inductive Caught : Type :=
| AxiosError (response : option Z) (code : option string)
| OtherValue.

(** [shouldRetry(error, attempt)], for the configured [maxRetries]. *)
Definition shouldRetry (maxRetries : number) (error : Caught) (attempt : nat) : bool :=
  if geNumber attempt maxRetries then false
  else
    match error with
    | AxiosError response code =>
        let clientError :=
          match response with
          | Some status =>
              negb (status =? 0) && (400 <=? status) && (status <? 500) && negb (status =? 429)
          | None => false
          end in
        if clientError then false
        else
          bool_decide (response = None)
          || bool_decide (code = Some "ECONNABORTED")
          || match response with
             | Some status => 500 <=? status
             | None => false
             end
          || match response with
             | Some status => status =? 429
             | None => false
             end
    | OtherValue => false
    end.

(** What a method of the client does before any request: a validation
    method throws an [Error] with a message, which rejects the promise of
    the [async] method, or the method calls [executeWithRetry] with a
    function that posts its options to [path], with [async: true] added when
    [async] is set.  Only that function sends requests. *)
Inductive Call : Type :=
| Throws (message : string)
| ExecuteWithRetry (path : string) (async : bool).

Section Runtime.

(** Whether [new URL(s)] returns; it throws a [TypeError] when it does not. *)
Variable URL_parses : string -> bool.

(** [validateUrl] and [validateWebhook]: the message of the [Error] thrown,
    [None] when the method returns. *)
Definition validateUrl (url : string) : option string :=
  if URL_parses url then None else Some "Invalid URL provided".

Definition validateWebhook (webhookUrl : string) : option string :=
  if URL_parses webhookUrl then None else Some "Invalid webhook URL provided".

(** The four methods, on the [url] of the options and, for the asynchronous
    ones, the [url] of their [webhook]; no other field is read. *)
Definition screenshot (url : string) : Call :=
  match validateUrl url with
  | Some message => Throws message
  | None => ExecuteWithRetry "/screenshots" false
  end.

Definition screenshotAsync (url webhookUrl : string) : Call :=
  match validateUrl url with
  | Some message => Throws message
  | None =>
      match validateWebhook webhookUrl with
      | Some message => Throws message
      | None => ExecuteWithRetry "/screenshots" true
      end
  end.

Definition pdf (url : string) : Call :=
  match validateUrl url with
  | Some message => Throws message
  | None => ExecuteWithRetry "/pdfs" false
  end.

Definition pdfAsync (url webhookUrl : string) : Call :=
  match validateUrl url with
  | Some message => Throws message
  | None =>
      match validateWebhook webhookUrl with
      | Some message => Throws message
      | None => ExecuteWithRetry "/pdfs" true
      end
  end.

End Runtime.

End NodeClient.

(** ** The JSON form of a request body *)

(** [encoding/json] writes the keys of a map in sorted order and the fields of
    a struct in declaration order, leaving out the [omitempty] fields that
    hold their zero value.  A [*time.Time] is written as its RFC 3339 text.
    The values [json.Marshal] refuses (see [marshalError]) have no JSON form;
    these definitions leave such a cookie field out and write such a number
    as [null]. *)
Definition sortFields {A} (l : list (string * A)) : list (string * A) :=
  merge_sort (fun a b => Is_true (String.leb (fst a) (fst b))) l.

Definition optField (cond : bool) (k : string) (v : JSON) : list (string * JSON) :=
  if cond then [(k, v)] else [].

Definition cookieJSON (c : Cookie.t) : JSON :=
  JObject
    ([("name", JString (Cookie.Name c)); ("value", JString (Cookie.Value c))]
     ++ optField (nonempty (Cookie.Domain c)) "domain" (JString (Cookie.Domain c))
     ++ optField (nonempty (Cookie.Path c)) "path" (JString (Cookie.Path c))
     ++ optField (Cookie.Secure c) "secure" (JBool true)
     ++ optField (Cookie.HTTPOnly c) "httpOnly" (JBool true)
     ++ optField (nonempty (Cookie.SameSite c)) "sameSite" (JString (Cookie.SameSite c))
     ++ match Cookie.Expires c with
        | Some (InRange t) => [("expires", JString t)]
        | Some OutOfRange | None => []
        end).

Definition headerJSON (h : Header.t) : JSON :=
  JObject [("name", JString (Header.Name h)); ("value", JString (Header.Value h))].

Definition scalarJSON (v : scalar) : JSON :=
  match v with
  | VString s => JString s
  | VInt z => JNumber (inject_Z z)
  | VFloat64 (Finite q) => JNumber q
  | VFloat64 _ => JNull
  | VBool b => JBool b
  | VStringMap m => JObject (sortFields (prod_map id JString <$> map_to_list m))
  | VCookies l => JArray (cookieJSON <$> l)
  | VHeaders l => JArray (headerJSON <$> l)
  end.

Definition valueJSON (v : value) : JSON :=
  match v with
  | Scalar s => scalarJSON s
  | VMap m => JObject (sortFields (prod_map id scalarJSON <$> map_to_list m))
  end.

(** [json.Marshal(body)] for a request body that it accepts
    ([marshalError body = None]), as a JSON value. *)
Definition Marshal (body : gmap string value) : JSON :=
  JObject (sortFields (prod_map id valueJSON <$> map_to_list body)).

(** The keys of a JSON object, and whether one of its members is [null]. *)
Definition keysOf (j : JSON) : list string :=
  match j with
  | JObject fields => fst <$> fields
  | _ => []
  end.

Definition isNull (j : JSON) : bool :=
  match j with
  | JNull => true
  | _ => false
  end.

Definition hasNullMember (j : JSON) : bool :=
  match j with
  | JObject fields => existsb (fun kv => isNull (snd kv)) fields
  | _ => false
  end.

(** *** Decoding a body into the option structs

    [json.Unmarshal] into [ScreenshotOptions] or [PDFOptions], following the
    [json] tags of the fields: a key that is absent or [null] leaves the
    zero value, a value of the wrong JSON type is an error ([None]), keys
    without a field are skipped. *)

Fixpoint jfield (k : string) (fields : list (string * JSON)) : option JSON :=
  match fields with
  | [] => None
  | (k', v) :: rest => if String.eqb k k' then Some v else jfield k rest
  end.

Definition dec_string (j : option JSON) : option string :=
  match j with
  | None | Some JNull => Some ""
  | Some (JString s) => Some s
  | Some _ => None
  end.

Definition dec_int (j : option JSON) : option Z :=
  match j with
  | None | Some JNull => Some 0
  | Some (JNumber q) =>
      if Pos.eqb (Qden (Qred q)) 1 then Some (Qnum (Qred q)) else None
  | Some _ => None
  end.

Definition dec_float (j : option JSON) : option float64 :=
  match j with
  | None | Some JNull => Some (Finite (0 # 1))
  | Some (JNumber q) => Some (Finite q)
  | Some _ => None
  end.

Definition dec_bool (j : option JSON) : option bool :=
  match j with
  | None | Some JNull => Some false
  | Some (JBool b) => Some b
  | Some _ => None
  end.

(** A pointer field: nil unless the key holds a value. *)
Definition dec_ptr {A} (dec : JSON -> option A) (j : option JSON) : option (option A) :=
  match j with
  | None | Some JNull => Some None
  | Some v => Some <$> dec v
  end.

Definition dec_list {A} (dec : JSON -> option A) (j : option JSON) : option (list A) :=
  match j with
  | None | Some JNull => Some []
  | Some (JArray l) => mapM dec l
  | Some _ => None
  end.

Definition dec_object {A} (dec : list (string * JSON) -> option A) (j : JSON) : option A :=
  match j with
  | JObject fields => dec fields
  | _ => None
  end.

Definition dec_Viewport : JSON -> option Viewport.t :=
  dec_object (fun fs =>
    w ← dec_int (jfield "width" fs);
    h ← dec_int (jfield "height" fs);
    Some (Viewport.mk w h)).

Definition dec_ScrollPosition : JSON -> option ScrollPosition.t :=
  dec_object (fun fs =>
    x ← dec_int (jfield "x" fs);
    y ← dec_int (jfield "y" fs);
    Some (ScrollPosition.mk x y)).

Definition dec_Clip : JSON -> option Clip.t :=
  dec_object (fun fs =>
    x ← dec_int (jfield "x" fs);
    y ← dec_int (jfield "y" fs);
    w ← dec_int (jfield "width" fs);
    h ← dec_int (jfield "height" fs);
    Some (Clip.mk x y w h)).

Definition dec_Cookie : JSON -> option Cookie.t :=
  dec_object (fun fs =>
    name ← dec_string (jfield "name" fs);
    val ← dec_string (jfield "value" fs);
    domain ← dec_string (jfield "domain" fs);
    path ← dec_string (jfield "path" fs);
    secure ← dec_bool (jfield "secure" fs);
    httpOnly ← dec_bool (jfield "httpOnly" fs);
    sameSite ← dec_string (jfield "sameSite" fs);
    expires ← dec_ptr (fun j => InRange <$> dec_string (Some j)) (jfield "expires" fs);
    Some (Cookie.mk name val domain path secure httpOnly sameSite expires)).

Definition dec_Header : JSON -> option Header.t :=
  dec_object (fun fs =>
    name ← dec_string (jfield "name" fs);
    val ← dec_string (jfield "value" fs);
    Some (Header.mk name val)).

Definition dec_stringMap (j : option JSON) : option (gmap string string) :=
  match j with
  | None | Some JNull => Some ∅
  | Some (JObject fs) =>
      list_to_map <$> mapM (fun kv => pair (fst kv) <$> dec_string (Some (snd kv))) fs
  | Some _ => None
  end.

Definition dec_WebhookConfig : JSON -> option WebhookConfig.t :=
  dec_object (fun fs =>
    url ← dec_string (jfield "url" fs);
    headers ← dec_stringMap (jfield "headers" fs);
    secret ← dec_string (jfield "secret" fs);
    Some (WebhookConfig.mk url headers secret)).

Definition dec_PDFMargin : JSON -> option PDFMargin.t :=
  dec_object (fun fs =>
    top ← dec_string (jfield "top" fs);
    right ← dec_string (jfield "right" fs);
    bottom ← dec_string (jfield "bottom" fs);
    left ← dec_string (jfield "left" fs);
    Some (PDFMargin.mk top right bottom left)).

Definition UnmarshalScreenshotOptions : JSON -> option ScreenshotOptions.t :=
  dec_object (fun fs =>
    url ← dec_string (jfield "url" fs);
    format ← dec_string (jfield "format" fs);
    quality ← dec_int (jfield "quality" fs);
    fullPage ← dec_bool (jfield "fullPage" fs);
    viewport ← dec_ptr dec_Viewport (jfield "viewport" fs);
    scrollPosition ← dec_ptr dec_ScrollPosition (jfield "scrollPosition" fs);
    clip ← dec_ptr dec_Clip (jfield "clip" fs);
    acceptCookies ← dec_bool (jfield "acceptCookies" fs);
    delay ← dec_int (jfield "delay" fs);
    waitUntil ← dec_string (jfield "waitUntil" fs);
    waitForSelector ← dec_string (jfield "waitForSelector" fs);
    waitForTimeout ← dec_int (jfield "waitForTimeout" fs);
    cookies ← dec_list dec_Cookie (jfield "cookies" fs);
    headers ← dec_list dec_Header (jfield "headers" fs);
    userAgent ← dec_string (jfield "userAgent" fs);
    deviceScaleFactor ← dec_float (jfield "deviceScaleFactor" fs);
    isMobile ← dec_bool (jfield "isMobile" fs);
    hasTouch ← dec_bool (jfield "hasTouch" fs);
    isLandscape ← dec_bool (jfield "isLandscape" fs);
    darkMode ← dec_bool (jfield "darkMode" fs);
    blockAds ← dec_bool (jfield "blockAds" fs);
    blockTrackers ← dec_bool (jfield "blockTrackers" fs);
    bypassCSP ← dec_bool (jfield "bypassCSP" fs);
    javascript ← dec_ptr (fun j => dec_bool (Some j)) (jfield "javascript" fs);
    webhook ← dec_ptr dec_WebhookConfig (jfield "webhook" fs);
    Some (ScreenshotOptions.mk url format quality fullPage viewport scrollPosition clip
            acceptCookies delay waitUntil waitForSelector waitForTimeout cookies headers
            userAgent deviceScaleFactor isMobile hasTouch isLandscape darkMode blockAds
            blockTrackers bypassCSP javascript webhook)).

Definition UnmarshalPDFOptions : JSON -> option PDFOptions.t :=
  dec_object (fun fs =>
    url ← dec_string (jfield "url" fs);
    format ← dec_string (jfield "format" fs);
    orientation ← dec_string (jfield "orientation" fs);
    width ← dec_string (jfield "width" fs);
    height ← dec_string (jfield "height" fs);
    scale ← dec_float (jfield "scale" fs);
    displayHeaderFooter ← dec_bool (jfield "displayHeaderFooter" fs);
    headerTemplate ← dec_string (jfield "headerTemplate" fs);
    footerTemplate ← dec_string (jfield "footerTemplate" fs);
    printBackground ← dec_bool (jfield "printBackground" fs);
    preferCSSPageSize ← dec_bool (jfield "preferCSSPageSize" fs);
    pageRanges ← dec_string (jfield "pageRanges" fs);
    margin ← dec_ptr dec_PDFMargin (jfield "margin" fs);
    viewport ← dec_ptr dec_Viewport (jfield "viewport" fs);
    acceptCookies ← dec_bool (jfield "acceptCookies" fs);
    delay ← dec_int (jfield "delay" fs);
    waitUntil ← dec_string (jfield "waitUntil" fs);
    waitForSelector ← dec_string (jfield "waitForSelector" fs);
    waitForTimeout ← dec_int (jfield "waitForTimeout" fs);
    cookies ← dec_list dec_Cookie (jfield "cookies" fs);
    headers ← dec_list dec_Header (jfield "headers" fs);
    userAgent ← dec_string (jfield "userAgent" fs);
    darkMode ← dec_bool (jfield "darkMode" fs);
    blockAds ← dec_bool (jfield "blockAds" fs);
    blockTrackers ← dec_bool (jfield "blockTrackers" fs);
    bypassCSP ← dec_bool (jfield "bypassCSP" fs);
    javascript ← dec_ptr (fun j => dec_bool (Some j)) (jfield "javascript" fs);
    webhook ← dec_ptr dec_WebhookConfig (jfield "webhook" fs);
    Some (PDFOptions.mk url format orientation width height scale displayHeaderFooter
            headerTemplate footerTemplate printBackground preferCSSPageSize pageRanges margin
            viewport acceptCookies delay waitUntil waitForSelector waitForTimeout cookies headers
            userAgent darkMode blockAds blockTrackers bypassCSP javascript webhook)).

(** The composite literals [&ScreenshotOptions{URL: url}] and
    [&PDFOptions{URL: url}]: every other field has its zero value. *)
Definition screenshotURLOnly (url : string) : ScreenshotOptions.t :=
  ScreenshotOptions.mk url "" 0 false None None None false 0 "" "" 0 [] [] "" (0 # 1)
    false false false false false false false None None.

Definition pdfURLOnly (url : string) : PDFOptions.t :=
  PDFOptions.mk url "" "" "" "" (0 # 1) false "" "" false false "" None None false 0 "" "" 0
    [] [] "" false false false false None None.

(** ** Predicates used in the statements *)

(** The parsed rate-limit headers of a response hold a positive value. *)
Definition rateLimitSeen (resp : Response.t) : bool :=
  (0 <? fst (Atoi (Header_Get (Response.Header resp) "X-RateLimit-Limit")))
  || (0 <? fst (Atoi (Header_Get (Response.Header resp) "X-RateLimit-Remaining")))
  || (0 <? fst (ParseInt (Header_Get (Response.Header resp) "X-RateLimit-Reset"))).

(** A rate-limit header is absent or holds the text of zero. *)
Definition absentOrZero (h : gmap string string) (key : string) : Prop :=
  h !! key = None \/ h !! key = Some "0".

(** The status codes of [parseErrorResponse]'s last [case]. *)
Definition isServerStatus (status : Z) : bool :=
  (status =? 500) || (status =? 502) || (status =? 503) || (status =? 504).

(** The status codes for which [IsRetryable] of [Error] answers yes. *)
Definition isRetryableStatus (status : Z) : bool :=
  (status =? 429) || (status =? 503) || (status =? 502) || (status =? 504) || (status =? 500).

(** The body of the response was read and decodes as an [APIResponse]. *)
Definition decodes (resp : Response.t) : bool :=
  match Response.Body resp with
  | ReadBytes _ (Some _) => true
  | _ => false
  end.

(** The status codes for which [parseErrorResponse], given a body that
    decodes, returns a pointer to a typed struct. *)
Definition isTypedStatus (status : Z) : bool :=
  (status =? 401) || (status =? 429) || (status =? 400) || isServerStatus status.

(** The call gets as far as the request of its first attempt: the key is
    set, the body can be marshalled, the loop runs at least once and the
    request can be built. *)
Definition sendsFirst (env : nat -> Attempt) (c : Client.t) (body : gmap string value) : Prop :=
  String.eqb (Client.apiKey c) "" = false /\ marshalError body = None /\
  0 <= Client.maxRetries c /\ newRequest (env 0%nat) = None.

(** The scale values [ValidatePDFOptions] lets through: zero, a value from
    the [float64] nearest to 0.1 up to 2, and NaN, which is neither equal to
    zero nor below or above anything. *)
Definition scaleAccepted (s : float64) : Prop :=
  match s with
  | Finite q => (q == 0 \/ tenth <= q <= 2 # 1)%Q
  | NaN => True
  | PosInf | NegInf => False
  end.

(** The option values [json.Marshal] refuses once they are in a body: a
    device scale factor of plus infinity (the builder leaves out NaN and
    what is not positive), a scale that is NaN or infinite, a cookie whose
    expiry cannot be marshalled. *)
Definition screenshotUnmarshallable (opts : ScreenshotOptions.t) : Prop :=
  ScreenshotOptions.DeviceScaleFactor opts = PosInf \/
  Exists (fun ck => Cookie.Expires ck = Some OutOfRange) (ScreenshotOptions.Cookies opts).

Definition pdfUnmarshallable (opts : PDFOptions.t) : Prop :=
  isFinite (PDFOptions.Scale opts) = false \/
  Exists (fun ck => Cookie.Expires ck = Some OutOfRange) (PDFOptions.Cookies opts).

(** A call that returns gives exactly one of a result and an error; the
    result satisfies [P]. *)
Definition returnsOne {R} (P : R -> Prop) (e : ending R) : Prop :=
  match e with
  | Returned (Some x) None => P x
  | Returned None (Some _) => True
  | Returned _ _ => False
  | Panicked | IllTyped _ => True
  end.

(** ** Format constants and convenience methods *)

Definition FormatPNG : string := "png".
Definition FormatJPEG : string := "jpeg".
Definition FormatWebP : string := "webp".
Definition A4 : string := "A4".
Definition A3 : string := "A3".
Definition A5 : string := "A5".
Definition Letter : string := "Letter".
Definition Legal : string := "Legal".
Definition Tabloid : string := "Tabloid".
Definition Portrait : string := "portrait".
Definition Landscape : string := "landscape".

Definition ScreenshotURL (env : nat -> Attempt) (c : Client.t) (url : string)
    : outcome ScreenshotResult.t :=
  Screenshot env c
    (Some (ScreenshotOptions.mk url FormatPNG 0 false None None None false 0 "" "" 0 [] [] ""
             (0 # 1) false false false false false false false None None)).

Definition ScreenshotFullPage (env : nat -> Attempt) (c : Client.t) (url format : string)
    : outcome ScreenshotResult.t :=
  Screenshot env c
    (Some (ScreenshotOptions.mk url format 0 true None None None false 0 "" "" 0 [] [] ""
             (0 # 1) false false false false false false false None None)).

Definition ScreenshotMobile (env : nat -> Attempt) (c : Client.t) (url : string)
    : outcome ScreenshotResult.t :=
  Screenshot env c
    (Some (ScreenshotOptions.mk url FormatPNG 0 false (Some (Viewport.mk 375 812)) None None
             false 0 "" "" 0 [] [] "" (3 # 1) true true false false false false false None None)).

Definition ScreenshotDesktop (env : nat -> Attempt) (c : Client.t) (url : string)
    : outcome ScreenshotResult.t :=
  Screenshot env c
    (Some (ScreenshotOptions.mk url FormatPNG 0 false (Some (Viewport.mk 1920 1080)) None None
             false 0 "" "" 0 [] [] "" (0 # 1) false false false false false false false None
             None)).

Definition ScreenshotWithDelay (env : nat -> Attempt) (c : Client.t) (url : string) (delayMs : Z)
    : outcome ScreenshotResult.t :=
  Screenshot env c
    (Some (ScreenshotOptions.mk url FormatPNG 0 false None None None false delayMs "" "" 0 [] []
             "" (0 # 1) false false false false false false false None None)).

Definition ScreenshotWithCookieConsent (env : nat -> Attempt) (c : Client.t) (url : string)
    : outcome ScreenshotResult.t :=
  Screenshot env c
    (Some (ScreenshotOptions.mk url FormatPNG 0 false None None None true 0 "" "" 0 [] [] ""
             (0 # 1) false false false false false false false None None)).

Definition PDFURL (env : nat -> Attempt) (c : Client.t) (url : string) : outcome PDFResult.t :=
  PDF env c
    (Some (PDFOptions.mk url A4 "" "" "" (0 # 1) false "" "" false false "" None None false 0
             "" "" 0 [] [] "" false false false false None None)).

Definition PDFA4 (env : nat -> Attempt) (c : Client.t) (url : string) : outcome PDFResult.t :=
  PDF env c
    (Some (PDFOptions.mk url A4 "" "" "" (0 # 1) false "" "" true false "" None None false 0
             "" "" 0 [] [] "" false false false false None None)).

Definition PDFLetter (env : nat -> Attempt) (c : Client.t) (url : string) : outcome PDFResult.t :=
  PDF env c
    (Some (PDFOptions.mk url Letter "" "" "" (0 # 1) false "" "" true false "" None None false 0
             "" "" 0 [] [] "" false false false false None None)).

Definition PDFLandscape (env : nat -> Attempt) (c : Client.t) (url format : string)
    : outcome PDFResult.t :=
  PDF env c
    (Some (PDFOptions.mk url format Landscape "" "" (0 # 1) false "" "" true false "" None None
             false 0 "" "" 0 [] [] "" false false false false None None)).

Definition PDFWithMargins (env : nat -> Attempt) (c : Client.t) (url : string)
    (margins : option PDFMargin.t) : outcome PDFResult.t :=
  PDF env c
    (Some (PDFOptions.mk url A4 "" "" "" (0 # 1) false "" "" true false "" margins None false 0
             "" "" 0 [] [] "" false false false false None None)).

Definition PDFWithHeaderFooter (env : nat -> Attempt) (c : Client.t)
    (url headerHTML footerHTML : string) : outcome PDFResult.t :=
  PDF env c
    (Some (PDFOptions.mk url A4 "" "" "" (0 # 1) true headerHTML footerHTML true false ""
             (Some (PDFMargin.mk "100px" "" "100px" "")) None false 0 "" "" 0 [] [] "" false
             false false false None None)).

Definition PDFPageRange (env : nat -> Attempt) (c : Client.t) (url pageRanges : string)
    : outcome PDFResult.t :=
  PDF env c
    (Some (PDFOptions.mk url A4 "" "" "" (0 # 1) false "" "" true false pageRanges None None
             false 0 "" "" 0 [] [] "" false false false false None None)).

Definition PDFWithCookieConsent (env : nat -> Attempt) (c : Client.t) (url : string)
    : outcome PDFResult.t :=
  PDF env c
    (Some (PDFOptions.mk url A4 "" "" "" (0 # 1) false "" "" true false "" None None true 0
             "" "" 0 [] [] "" false false false false None None)).

(** ** Further predicates used in the statements *)

(** A [Sent] event carries the given endpoint and body. *)
Definition sentTo (endpoint : string) (body : gmap string value) (ev : Event) : Prop :=
  match ev with
  | Sent _ ep b => ep = endpoint /\ b = body
  | _ => True
  end.

(** The attempt number of an event lies below [bound]. *)
Definition attemptBelow (bound : Z) (ev : Event) : Prop :=
  match ev with
  | Slept a _ | Cancelled a _ | Sent a _ _ => Z.of_nat a < bound
  end.

(** A wait, run to its end or interrupted. *)
Definition isWait (ev : Event) : bool :=
  match ev with
  | Slept _ _ | Cancelled _ _ => true
  | Sent _ _ _ => false
  end.

Definition waitCount (tr : list Event) : nat := length (List.filter isWait tr).

(** The JSON tags of the fields of [ScreenshotOptions] and of [PDFOptions], in
    the order of the declarations. *)
Definition screenshotKeys : list string :=
  ["url"; "format"; "quality"; "fullPage"; "viewport"; "scrollPosition"; "clip";
   "acceptCookies"; "delay"; "waitUntil"; "waitForSelector"; "waitForTimeout"; "cookies";
   "headers"; "userAgent"; "deviceScaleFactor"; "isMobile"; "hasTouch"; "isLandscape";
   "darkMode"; "blockAds"; "blockTrackers"; "bypassCSP"; "javascript"; "webhook"].

Definition pdfKeys : list string :=
  ["url"; "format"; "orientation"; "width"; "height"; "scale"; "displayHeaderFooter";
   "headerTemplate"; "footerTemplate"; "printBackground"; "preferCSSPageSize"; "pageRanges";
   "margin"; "viewport"; "acceptCookies"; "delay"; "waitUntil"; "waitForSelector";
   "waitForTimeout"; "cookies"; "headers"; "userAgent"; "darkMode"; "blockAds";
   "blockTrackers"; "bypassCSP"; "javascript"; "webhook"].

(** A value that carries nothing: the empty string, a number that is not
    positive (for a float, zero), [false], an empty list or object. *)
Definition emptyValue (v : value) : bool :=
  match v with
  | Scalar (VString s) => String.eqb s ""
  | Scalar (VInt z) => z <=? 0
  | Scalar (VFloat64 f) => f64_eqb f 0%Q
  | Scalar (VBool b) => negb b
  | Scalar (VStringMap m) => (size m =? 0)%nat
  | Scalar (VCookies l) => (length l =? 0)%nat
  | Scalar (VHeaders l) => (length l =? 0)%nat
  | VMap m => (size m =? 0)%nat
  end.

(** An entry of a request body is under one of [tags] and, unless its key is
    [url] or [javascript], carries something. *)
Definition entryOK (tags : list string) (k : string) (v : value) : Prop :=
  In k tags /\ (k <> "url" -> k <> "javascript" -> emptyValue v = false).

(** A [Sent] event goes to [endpoint] with a body whose [url] is the
    non-empty [url]. *)
Definition carriesURL (endpoint url : string) (ev : Event) : Prop :=
  match ev with
  | Sent _ ep b => ep = endpoint /\ b !! "url" = Some (Scalar (VString url)) /\ url <> ""
  | _ => True
  end.

(** The body of a [Sent] event names a webhook with a non-empty URL. *)
Definition carriesWebhook (ev : Event) : Prop :=
  match ev with
  | Sent _ _ b =>
      exists m u, b !! "webhook" = Some (VMap m) /\ m !! "url" = Some (VString u) /\ u <> ""
  | _ => True
  end.

(** The retry settings an option carries, if it is one of the two that set
    them. *)
Definition maxRetriesOf (opt : Option) : option Z :=
  match opt with
  | WithMaxRetries n => Some n
  | _ => None
  end.

Definition retryWaitOf (opt : Option) : option (Z * Z) :=
  match opt with
  | WithRetryWait min max => Some (min, max)
  | _ => None
  end.

(** The client [c] with the rate-limit snapshot [rl]. *)
Definition withSnapshot (c : Client.t) (rl : option RateLimitInfo.t) : Client.t :=
  let '(Client.mk k b t r wmin wmax ua d l _) := c in
  Client.mk k b t r wmin wmax ua d l rl.

(** The values [parseRateLimitHeaders] reads from a response. *)
Definition snapshotOf (resp : Response.t) : RateLimitInfo.t :=
  RateLimitInfo.mk
    (fst (Atoi (Header_Get (Response.Header resp) "X-RateLimit-Limit")))
    (fst (Atoi (Header_Get (Response.Header resp) "X-RateLimit-Remaining")))
    (fst (ParseInt (Header_Get (Response.Header resp) "X-RateLimit-Reset"))).

(** [c'] is [c] up to the rate-limit snapshot, and the snapshot is the one of
    [c] or was read from a response of [env] that carries a positive value. *)
Definition snapshotOnly (env : nat -> Attempt) (c c' : Client.t) : Prop :=
  exists rl,
    c' = withSnapshot c rl /\
    (rl = GetRateLimitInfo c \/
     exists a resp,
       roundTrip (env a) = DoResponse resp /\ rateLimitSeen resp = true /\
       rl = Some (snapshotOf resp)).

(** ** Sample inputs *)

Module Sample.

Definition client : Client.t := New "key" [].

Definition apiError : APIResponse.t :=
  APIResponse.mk false "" "" (Some (APIErrorDetails.mk "E" "failed" None)).

Definition jsonResponse (status : Z) : Response.t :=
  Response.mk status ∅ (ReadBytes "{}" (Some apiError)).

Definition textResponse (status : Z) : Response.t :=
  Response.mk status ∅ (ReadBytes "upstream failure" None).

Definition retryAfter5 (body : ReadAll) : Response.t :=
  Response.mk 429 {[ "Retry-After" := "5" ]} body.

Definition ok : Response.t :=
  Response.mk 200 {[ "Content-Type" := "image/png" ]} (ReadBytes "PNG" None).

(** Every attempt receives [resp]; no wait is interrupted; the
    exponential wait is one second. *)
Definition always (resp : Response.t) : nat -> Attempt :=
  fun _ => mkAttempt timerFired Second None (DoResponse resp).


(** An asynchronous request that the server accepts. *)
Definition accepted : Response.t :=
  Response.mk 200 {[ "Content-Type" := "application/json" ]}
    (ReadBytes "{}" (Some (APIResponse.mk true "" "job-1" None))).

(** Screenshot options in which only the fields local validation reads, and
    the webhook, are set. *)
Definition shot (url : string) (quality : Z) (vp : option Viewport.t)
    (wh : option WebhookConfig.t) : ScreenshotOptions.t :=
  ScreenshotOptions.mk url "" quality false vp None None false 0 "" "" 0 [] [] "" (0 # 1)
    false false false false false false false None wh.

Definition pdf (url : string) (scale : float64) (vp : option Viewport.t)
    (wh : option WebhookConfig.t) : PDFOptions.t :=
  PDFOptions.mk url "" "" "" "" scale false "" "" false false "" None vp false 0 "" "" 0
    [] [] "" false false false false None wh.

Definition webhook (url : string) : WebhookConfig.t := WebhookConfig.mk url ∅ "".

End Sample.

(** ** Further sample inputs *)

Module Scenario.

(** Every attempt fails in the transport. *)
Definition unreachable : nat -> Attempt :=
  fun _ => mkAttempt timerFired Second None (DoError (errorString "connection refused")).

Definition image : Response.t :=
  Response.mk 200
    {[ "Content-Type" := "image/png"; "X-Image-Width" := "800"; "X-Image-Height" := "wide" ]}
    (ReadBytes "PNG" None).

Definition rejected : Response.t :=
  Response.mk 200 {[ "Content-Type" := "application/json" ]}
    (ReadBytes "{}" (Some (APIResponse.mk false "quota exhausted" "" None))).

Definition noKey : Client.t := New "" [].

End Scenario.

(** * Theorems *)

(** ** The type tests and [IsRetryable] *)

Lemma typeTest_nil (k : Kind) : typeTest k None = Ok false.
Proof. reflexivity. Qed.

Lemma typeTest_panics (k : Kind) (e : error) : typeTest k (Some e) = Panic.
Proof. reflexivity. Qed.

Lemma IsRetryable_PError (e : Error.t error) :
  IsRetryable (Some (PError e)) = Ok (Error_IsRetryable e).
Proof. reflexivity. Qed.

Lemma IsRetryable_Foreign (f : foreign) : IsRetryable (Some (Foreign f)) = Panic.
Proof. reflexivity. Qed.

Lemma GetRetryAfter_panics (e : error) : GetRetryAfter (Some e) = Panic.
Proof. reflexivity. Qed.

Lemma calculateBackoff_panics c attempt (e : error) x :
  calculateBackoff c attempt (Some e) x = Panic.
Proof. reflexivity. Qed.

Lemma Error_IsRetryable_status {E} (e : Error.t E) :
  Error_IsRetryable e = isRetryableStatus (Error.StatusCode e).
Proof. reflexivity. Qed.

(** ** What [parseErrorResponse] returns *)

(** An [error] it returns is a [*Error] that carries the status of the
    response. *)
Lemma parseErrorResponse_error (resp : Response.t) (e : error) :
  parseErrorResponse resp = ReturnsError e ->
  exists sc, e = PError sc /\ Error.StatusCode sc = Response.StatusCode resp.
Proof.
  unfold parseErrorResponse.
  destruct (Response.Body resp) as [err|raw [apiResp|]];
    try (intros [= <-]; eexists; split; reflexivity).
  destruct (APIResponse.Error apiResp);
    repeat match goal with |- context [if ?b then _ else _] => destruct b end;
    intros [= <-]; eexists; split; reflexivity.
Qed.

(** It returns a pointer to a typed struct exactly when the body decodes and
    the status is one of 401, 429, 400, 500, 502, 503 and 504. *)
Lemma parseErrorResponse_typed (resp : Response.t) :
  (exists t, parseErrorResponse resp = ReturnsTyped t) <->
  decodes resp = true /\ isTypedStatus (Response.StatusCode resp) = true.
Proof.
  unfold parseErrorResponse, decodes, isTypedStatus, isServerStatus, StatusUnauthorized,
    StatusTooManyRequests, StatusBadRequest, StatusInternalServerError, StatusBadGateway,
    StatusServiceUnavailable, StatusGatewayTimeout.
  destruct (Response.Body resp) as [err|raw [apiResp|]].
  - split; [intros [t [=]]|intros [[=] _]].
  - destruct (Response.StatusCode resp =? 401); [split; [split; reflexivity|eexists; reflexivity]|].
    destruct (Response.StatusCode resp =? 429); [split; [split; reflexivity|eexists; reflexivity]|].
    destruct (Response.StatusCode resp =? 400); [split; [split; reflexivity|eexists; reflexivity]|].
    cbn [orb].
    destruct (_ || _); [split; [split; reflexivity|eexists; reflexivity]|].
    split; [intros [t [=]]|intros [_ [=]]].
  - split; [intros [t [=]]|intros [[=] _]].
Qed.

(** ** One call of the loop *)

Lemma maxRetries_parseRateLimitHeaders (c : Client.t) (resp : Response.t) :
  Client.maxRetries (parseRateLimitHeaders c resp) = Client.maxRetries c.
Proof.
  unfold parseRateLimitHeaders. destruct (_ || _); [|reflexivity]. destruct c. reflexivity.
Qed.

Lemma traceOf_emit {R} (ev : Event) (o : outcome R) : traceOf (emit ev o) = ev :: traceOf o.
Proof. destruct o as [[c res] tr]. reflexivity. Qed.

Lemma resultOf_emit {R} (ev : Event) (o : outcome R) : resultOf (emit ev o) = resultOf o.
Proof. destruct o as [[c res] tr]. reflexivity. Qed.

Lemma clientOf_emit {R} (ev : Event) (o : outcome R) : clientOf (emit ev o) = clientOf o.
Proof. destruct o as [[c res] tr]. reflexivity. Qed.

(** An iteration after the first finds a non-nil [lastErr]:
    [calculateBackoff] hands it to [GetRetryAfter], which panics.  Nothing is
    waited for and nothing is sent. *)
Lemma attemptLoop_retry env endpoint body n c attempt (e : error) :
  (0 < attempt)%nat ->
  attemptLoop env endpoint body (S n) c attempt (Some e) = (c, Panicked, []).
Proof.
  intros Hpos. cbn [attemptLoop]. destruct attempt as [|attempt]; [lia|]. reflexivity.
Qed.

(** The first iteration, with what the rest of the loop comes to. *)
Lemma attemptLoop_first env endpoint body n c :
  attemptLoop env endpoint body (S n) c 0%nat None =
    match newRequest (env 0%nat) with
    | Some err =>
        (c, Returned None (Some (Foreign (wrapError "screencraft: failed to create request" err))),
         [])
    | None =>
        emit (Sent 0 endpoint body)
          match roundTrip (env 0%nat) with
          | DoError err => (c, IllTyped (NewNetworkError (Foreign err)), [])
          | DoResponse resp =>
              let c' := parseRateLimitHeaders c resp in
              if 400 <=? Response.StatusCode resp then
                match parseErrorResponse resp with
                | ReturnsTyped t => (c', IllTyped t, [])
                | ReturnsError e =>
                    match IsRetryable (Some e) with
                    | Panic => (c', Panicked, [])
                    | Ok retryable =>
                        if negb retryable || (0 =? Client.maxRetries c)
                        then (c', Returned None (Some e), [])
                        else
                          match n with
                          | O => (c', Returned None (Some e), [])
                          | S _ => (c', Panicked, [])
                          end
                    end
                end
              else (c', Returned (Some resp) None, [])
          end
    end.
Proof.
  cbn [attemptLoop Nat.ltb Nat.leb].
  destruct (newRequest (env 0%nat)); [reflexivity|]. f_equal.
  destruct (roundTrip (env 0%nat)) as [err|resp]; [reflexivity|].
  cbn zeta. rewrite maxRetries_parseRateLimitHeaders.
  destruct (400 <=? _); [|reflexivity].
  destruct (parseErrorResponse resp) as [e|t]; [|reflexivity].
  destruct (IsRetryable (Some e)) as [retryable|]; [|reflexivity].
  change (Z.of_nat 0) with 0.
  destruct (negb retryable || (0 =? Client.maxRetries c)); [reflexivity|].
  destruct n; [reflexivity|]. apply attemptLoop_retry. lia.
Qed.

(** A call that gets as far as its first request, spelled out. *)
Lemma doRequest_first env c endpoint body :
  sendsFirst env c body ->
  doRequest env c endpoint body =
    emit (Sent 0 endpoint body)
      match roundTrip (env 0%nat) with
      | DoError err => (c, IllTyped (NewNetworkError (Foreign err)), [])
      | DoResponse resp =>
          let c' := parseRateLimitHeaders c resp in
          if 400 <=? Response.StatusCode resp then
            match parseErrorResponse resp with
            | ReturnsTyped t => (c', IllTyped t, [])
            | ReturnsError e =>
                match IsRetryable (Some e) with
                | Panic => (c', Panicked, [])
                | Ok retryable =>
                    if negb retryable || (0 =? Client.maxRetries c)
                    then (c', Returned None (Some e), [])
                    else (c', Panicked, [])
                end
            end
          else (c', Returned (Some resp) None, [])
      end.
Proof.
  intros (Hkey & Hm & Hmax & Hreq). unfold doRequest. rewrite Hkey, Hm.
  replace (Z.to_nat (Client.maxRetries c + 1)) with (S (Z.to_nat (Client.maxRetries c))) by lia.
  rewrite attemptLoop_first, Hreq. f_equal.
  destruct (roundTrip (env 0%nat)) as [err|resp]; [reflexivity|]. cbn zeta.
  destruct (400 <=? _); [|reflexivity].
  destruct (parseErrorResponse resp) as [e|t]; [|reflexivity].
  destruct (IsRetryable (Some e)) as [retryable|]; [|reflexivity].
  destruct (0 =? Client.maxRetries c) eqn:E0.
  - rewrite orb_true_r. reflexivity.
  - rewrite orb_false_r. destruct (negb retryable); [reflexivity|].
    apply Z.eqb_neq in E0. destruct (Z.to_nat (Client.maxRetries c)) eqn:En; [lia|reflexivity].
Qed.

(** Whatever happens, a call sends nothing or the one request of attempt 0,
    and it leaves the client alone or stores the rate-limit headers of the
    response to that request. *)
Lemma doRequest_cases env c endpoint body :
  let o := doRequest env c endpoint body in
  (traceOf o = [] /\ clientOf o = c) \/
  (traceOf o = [Sent 0 endpoint body] /\
   (clientOf o = c \/
    exists resp, roundTrip (env 0%nat) = DoResponse resp /\
                 clientOf o = parseRateLimitHeaders c resp)).
Proof.
  cbn zeta. unfold doRequest.
  destruct (String.eqb _ _); [left; split; reflexivity|].
  destruct (marshalError body); [left; split; reflexivity|].
  destruct (Z.to_nat (Client.maxRetries c + 1)) as [|n]; [left; split; reflexivity|].
  rewrite attemptLoop_first.
  destruct (newRequest (env 0%nat)); [left; split; reflexivity|].
  right. rewrite traceOf_emit, clientOf_emit.
  destruct (roundTrip (env 0%nat)) as [err|resp]; [split; [reflexivity|left; reflexivity]|].
  cbn zeta.
  assert (Hc : forall (e : ending Response.t),
            clientOf (parseRateLimitHeaders c resp, e, @nil Event) = c \/
            exists resp', DoResponse resp = DoResponse resp' /\
              clientOf (parseRateLimitHeaders c resp, e, @nil Event)
              = parseRateLimitHeaders c resp').
  { intros e. right. exists resp. split; reflexivity. }
  destruct (400 <=? _); [|split; [reflexivity|apply Hc]].
  destruct (parseErrorResponse resp) as [e|t]; [|split; [reflexivity|apply Hc]].
  destruct (IsRetryable (Some e)) as [retryable|]; [|split; [reflexivity|apply Hc]].
  destruct (negb retryable || _); [split; [reflexivity|apply Hc]|].
  destruct n; split; try reflexivity; apply Hc.
Qed.

Lemma traceOf_sendAndParse {R} env c endpoint body (parse : Response.t -> option R * option error) :
  traceOf (sendAndParse env c endpoint body parse) = traceOf (doRequest env c endpoint body).
Proof.
  unfold sendAndParse. destruct (doRequest env c endpoint body) as [[c' e] tr].
  destruct e as [[resp|] [err|]| |t]; reflexivity.
Qed.

Lemma clientOf_sendAndParse {R} env c endpoint body (parse : Response.t -> option R * option error) :
  clientOf (sendAndParse env c endpoint body parse) = clientOf (doRequest env c endpoint body).
Proof.
  unfold sendAndParse. destruct (doRequest env c endpoint body) as [[c' e] tr].
  destruct e as [[resp|] [err|]| |t]; reflexivity.
Qed.

Lemma resultOf_sendAndParse {R} env c endpoint body (parse : Response.t -> option R * option error) :
  resultOf (sendAndParse env c endpoint body parse) =
    match resultOf (doRequest env c endpoint body) with
    | Returned _ (Some err) => Returned None (Some err)
    | Returned (Some resp) None => Returned (fst (parse resp)) (snd (parse resp))
    | Returned None None => Panicked
    | Panicked => Panicked
    | IllTyped t => IllTyped t
    end.
Proof.
  unfold sendAndParse. destruct (doRequest env c endpoint body) as [[c' e] tr].
  destruct e as [[resp|] [err|]| |t]; reflexivity.
Qed.

(** The four entry points run local validation and then [sendAndParse], or
    return the error of validation. *)
Ltac entry_cases opts :=
  unfold Screenshot, ScreenshotAsync, PDF, PDFAsync;
  repeat match goal with
         | |- context [match ?x with _ => _ end] =>
             match x with
             | ValidateScreenshotOptions _ => destruct x
             | ValidatePDFOptions _ => destruct x
             | webhookMissing _ => destruct x
             | opts => destruct opts
             end
         end.

(** ** Request bodies, key by key *)

Lemma map_Forall_put_if {V} (P : string -> V -> Prop) (cond : bool) (k : string) (v : V)
    (req : gmap string V) :
  (cond = true -> P k v) -> map_Forall P req -> map_Forall P (put_if cond k v req).
Proof.
  intros Hkv Hreq. unfold put_if. destruct cond; [|exact Hreq].
  apply map_Forall_insert_2; [apply Hkv; reflexivity|exact Hreq].
Qed.

(** ** Local validation: helper facts *)

Lemma viewportNegative_false (vp : option Viewport.t) :
  viewportNegative vp = false <->
  (forall v, vp = Some v -> 0 <= Viewport.Width v /\ 0 <= Viewport.Height v).
Proof.
  destruct vp as [v|]; cbn.
  - rewrite orb_false_iff, !Z.ltb_ge. split.
    + intros H v' [= <-]. exact H.
    + intros H. exact (H v eq_refl).
  - split; [intros _ v [=]|reflexivity].
Qed.

Lemma eqb_empty_false (s : string) : String.eqb s "" = false <-> s <> "".
Proof. apply String.eqb_neq. Qed.



(** ** The body of a request that sets only the URL *)

(** C7.  When only the URL of a screenshot or PDF request is set, the body
    the builder returns has the single key "url"; its JSON form is the object
    with that one member, none of whose members is null; and decoding that
    object by the [json] tags of the option struct gives back the request
    with only the URL set. *)
Theorem url_only_body (url : string) :
  buildScreenshotRequest (screenshotURLOnly url) = {[ "url" := Scalar (VString url) ]} /\
  buildPDFRequest (pdfURLOnly url) = {[ "url" := Scalar (VString url) ]} /\
  Marshal (buildScreenshotRequest (screenshotURLOnly url)) = JObject [("url", JString url)] /\
  Marshal (buildPDFRequest (pdfURLOnly url)) = JObject [("url", JString url)] /\
  keysOf (Marshal (buildScreenshotRequest (screenshotURLOnly url))) = ["url"] /\
  keysOf (Marshal (buildPDFRequest (pdfURLOnly url))) = ["url"] /\
  hasNullMember (Marshal (buildScreenshotRequest (screenshotURLOnly url))) = false /\
  hasNullMember (Marshal (buildPDFRequest (pdfURLOnly url))) = false /\
  UnmarshalScreenshotOptions (Marshal (buildScreenshotRequest (screenshotURLOnly url)))
  = Some (screenshotURLOnly url) /\
  UnmarshalPDFOptions (Marshal (buildPDFRequest (pdfURLOnly url))) = Some (pdfURLOnly url).
Proof. repeat split. Qed.

Lemma lookup_put_if_ne {V} (cond : bool) (k k' : string) (v : V) (req : gmap string V) :
  k <> k' -> put_if cond k v req !! k' = req !! k'.
Proof. intros Hne. unfold put_if. destruct cond; [apply lookup_insert_ne; exact Hne|reflexivity]. Qed.

Lemma lookup_put_viewport_ne (vp : option Viewport.t) (k' : string) (req : gmap string value) :
  "viewport" <> k' -> put_viewport vp req !! k' = req !! k'.
Proof. intros Hne. destruct vp; [apply lookup_put_if_ne; exact Hne|reflexivity]. Qed.

Lemma lookup_put_javascript_ne (js : option bool) (k' : string) (req : gmap string value) :
  "javascript" <> k' -> put_javascript js req !! k' = req !! k'.
Proof. intros Hne. destruct js; [apply lookup_insert_ne; exact Hne|reflexivity]. Qed.

Lemma lookup_put_webhook_ne (wh : option WebhookConfig.t) (k' : string) (req : gmap string value) :
  "webhook" <> k' -> put_webhook wh req !! k' = req !! k'.
Proof. intros Hne. destruct wh; [apply lookup_insert_ne; exact Hne|reflexivity]. Qed.

(** Whatever else is set, the key "url" holds the target URL: no later
    assignment of a builder overwrites it. *)
Lemma url_always_present :
  (forall opts, buildScreenshotRequest opts !! "url"
                = Some (Scalar (VString (ScreenshotOptions.URL opts)))) /\
  (forall opts, buildPDFRequest opts !! "url" = Some (Scalar (VString (PDFOptions.URL opts)))).
Proof.
  split; intros opts.
  - unfold buildScreenshotRequest. cbv zeta.
    rewrite lookup_put_webhook_ne, lookup_put_javascript_ne by discriminate.
    rewrite !lookup_put_if_ne by discriminate.
    destruct (ScreenshotOptions.Clip opts), (ScreenshotOptions.ScrollPosition opts);
      rewrite ?lookup_insert_ne by discriminate;
      rewrite lookup_put_viewport_ne by discriminate;
      rewrite !lookup_put_if_ne by discriminate; apply lookup_singleton_eq.
  - unfold buildPDFRequest. cbv zeta.
    rewrite lookup_put_webhook_ne, lookup_put_javascript_ne by discriminate.
    rewrite !lookup_put_if_ne by discriminate.
    rewrite lookup_put_viewport_ne by discriminate.
    destruct (PDFOptions.Margin opts);
      rewrite !lookup_put_if_ne by discriminate; apply lookup_singleton_eq.
Qed.

(** An optional field that is set does reach the body: the builder is not the
    constant single-key map. *)
Lemma quality_reaches_body (url : string) :
  buildScreenshotRequest (Sample.shot url 80 None None)
  = <["quality" := Scalar (VInt 80)]> {[ "url" := Scalar (VString url) ]}.
Proof. reflexivity. Qed.

(** ** The last rate-limit snapshot *)

Lemma lastRateLimit_applyOption (c : Client.t) (opt : Option) :
  Client.lastRateLimit (applyOption c opt) = Client.lastRateLimit c.
Proof. destruct c, opt; reflexivity. Qed.

Lemma GetRateLimitInfo_New (apiKey : string) (opts : list Option) :
  GetRateLimitInfo (New apiKey opts) = None.
Proof.
  unfold New, GetRateLimitInfo.
  set (c0 := Client.mk _ _ _ _ _ _ _ _ _ _).
  assert (H : Client.lastRateLimit c0 = None) by reflexivity.
  revert H. generalize c0. clear c0.
  induction opts as [|opt opts IH]; intros c Hc; cbn [fold_left]; [exact Hc|].
  apply IH. rewrite lastRateLimit_applyOption. exact Hc.
Qed.

Lemma parseRateLimitHeaders_unseen (c : Client.t) (resp : Response.t) :
  rateLimitSeen resp = false -> parseRateLimitHeaders c resp = c.
Proof. unfold parseRateLimitHeaders, rateLimitSeen. intros ->. reflexivity. Qed.

Lemma parseRateLimitHeaders_seen (c : Client.t) (resp : Response.t) :
  rateLimitSeen resp = true ->
  GetRateLimitInfo (parseRateLimitHeaders c resp) =
    Some (RateLimitInfo.mk
            (fst (Atoi (Header_Get (Response.Header resp) "X-RateLimit-Limit")))
            (fst (Atoi (Header_Get (Response.Header resp) "X-RateLimit-Remaining")))
            (fst (ParseInt (Header_Get (Response.Header resp) "X-RateLimit-Reset")))).
Proof.
  unfold parseRateLimitHeaders, rateLimitSeen. intros ->. destruct c. reflexivity.
Qed.

Lemma absentOrZero_parse (h : gmap string string) (key : string) :
  absentOrZero h key -> fst (ParseInt (Header_Get h key)) = 0.
Proof. unfold absentOrZero, Header_Get. intros [-> | ->]; reflexivity. Qed.

Lemma rateLimitSeen_absentOrZero (resp : Response.t) :
  absentOrZero (Response.Header resp) "X-RateLimit-Limit" ->
  absentOrZero (Response.Header resp) "X-RateLimit-Remaining" ->
  absentOrZero (Response.Header resp) "X-RateLimit-Reset" ->
  rateLimitSeen resp = false.
Proof.
  intros H1 H2 H3. unfold rateLimitSeen, Atoi.
  rewrite (absentOrZero_parse _ _ H1), (absentOrZero_parse _ _ H2), (absentOrZero_parse _ _ H3).
  reflexivity.
Qed.


(** A call leaves the client as it found it when no response shows a
    positive rate-limit value. *)
Lemma clientOf_doRequest_unseen env c endpoint body :
  (forall a resp, roundTrip (env a) = DoResponse resp -> rateLimitSeen resp = false) ->
  clientOf (doRequest env c endpoint body) = c.
Proof.
  intros Hunseen.
  destruct (doRequest_cases env c endpoint body) as [[_ Hc]|[_ [Hc|(resp & Hrt & Hc)]]];
    try exact Hc.
  rewrite Hc. apply parseRateLimitHeaders_unseen. exact (Hunseen _ _ Hrt).
Qed.

(** C10.  A new client has no rate-limit snapshot.  A response none of whose
    three rate-limit headers parses to a positive number, in particular one
    in which each is absent or zero, leaves the client and so the stored
    snapshot untouched, in a single response and over a whole call; a
    response with a positive value stores the parsed values.  Hence the
    accessor returns nil until such a response has been seen. *)
Theorem rate_limit_snapshot :
  (forall apiKey opts, GetRateLimitInfo (New apiKey opts) = None) /\
  (forall c resp,
     absentOrZero (Response.Header resp) "X-RateLimit-Limit" ->
     absentOrZero (Response.Header resp) "X-RateLimit-Remaining" ->
     absentOrZero (Response.Header resp) "X-RateLimit-Reset" ->
     rateLimitSeen resp = false /\
     GetRateLimitInfo (parseRateLimitHeaders c resp) = GetRateLimitInfo c) /\
  (forall c resp,
     rateLimitSeen resp = false ->
     GetRateLimitInfo (parseRateLimitHeaders c resp) = GetRateLimitInfo c) /\
  (forall c resp,
     GetRateLimitInfo (parseRateLimitHeaders c resp) <> GetRateLimitInfo c ->
     rateLimitSeen resp = true) /\
  (forall env c endpoint body,
     (forall a resp, roundTrip (env a) = DoResponse resp -> rateLimitSeen resp = false) ->
     GetRateLimitInfo (clientOf (doRequest env c endpoint body)) = GetRateLimitInfo c) /\
  (forall env c,
     (forall a resp, roundTrip (env a) = DoResponse resp -> rateLimitSeen resp = false) ->
     (forall opts, GetRateLimitInfo (clientOf (Screenshot env c opts)) = GetRateLimitInfo c) /\
     (forall opts, GetRateLimitInfo (clientOf (ScreenshotAsync env c opts)) = GetRateLimitInfo c) /\
     (forall opts, GetRateLimitInfo (clientOf (PDF env c opts)) = GetRateLimitInfo c) /\
     (forall opts, GetRateLimitInfo (clientOf (PDFAsync env c opts)) = GetRateLimitInfo c)).
Proof.
  split; [exact GetRateLimitInfo_New|].
  split; [|split; [|split; [|split]]].
  - intros c resp H1 H2 H3.
    pose proof (rateLimitSeen_absentOrZero resp H1 H2 H3) as Hunseen.
    split; [exact Hunseen|]. rewrite parseRateLimitHeaders_unseen by exact Hunseen. reflexivity.
  - intros c resp Hunseen. rewrite parseRateLimitHeaders_unseen by exact Hunseen. reflexivity.
  - intros c resp Hdiff. destruct (rateLimitSeen resp) eqn:Hseen; [reflexivity|].
    exfalso. apply Hdiff. rewrite parseRateLimitHeaders_unseen by exact Hseen. reflexivity.
  - intros env c endpoint body Hunseen.
    rewrite clientOf_doRequest_unseen by exact Hunseen. reflexivity.
  - intros env c Hunseen.
    repeat split; intros opts; entry_cases opts;
      rewrite ?clientOf_sendAndParse, ?clientOf_doRequest_unseen by exact Hunseen; reflexivity.
Qed.

Lemma rate_limit_snapshot_witness :
  let quiet := Response.mk 200 {[ "X-RateLimit-Limit" := "0" ]} (ReadBytes "PNG" None) in
  let c := clientOf (doRequest (Sample.always quiet) Sample.client screenshotEndpoint ∅) in
  rateLimitSeen quiet = false /\
  GetRateLimitInfo (parseRateLimitHeaders Sample.client quiet) = GetRateLimitInfo Sample.client /\
  GetRateLimitInfo c = None.
Proof.
  destruct rate_limit_snapshot as (Hnew & Hzero & _ & _ & Hcall & _).
  destruct (Hzero Sample.client
              (Response.mk 200 {[ "X-RateLimit-Limit" := "0" ]} (ReadBytes "PNG" None)))
    as [Hunseen Hkeep]; [right; reflexivity|left; reflexivity|left; reflexivity|].
  split; [exact Hunseen|]. split; [exact Hkeep|].
  cbv zeta. rewrite Hcall; [exact (Hnew "key" [])|].
  intros a resp [= <-]. exact Hunseen.
Defined.

(** A response with a positive value does replace the snapshot. *)
Lemma snapshot_stored :
  let resp := Response.mk 200 {[ "X-RateLimit-Limit" := "100"; "X-RateLimit-Remaining" := "50" ]}
                (ReadBytes "PNG" None) in
  GetRateLimitInfo (clientOf (doRequest (Sample.always resp) Sample.client screenshotEndpoint ∅))
  = Some (RateLimitInfo.mk 100 50 0).
Proof. reflexivity. Qed.

(** ** What a call comes to after its first request *)

Lemma sentCount_doRequest env c endpoint body :
  (sentCount (traceOf (doRequest env c endpoint body)) <= 1)%nat.
Proof.
  destruct (doRequest_cases env c endpoint body) as [[-> _]|[-> _]]; cbn; lia.
Qed.


(** The first response is an error that [parseErrorResponse] returns as a
    [*Error]: its status decides.  A status that is not retryable, or
    [maxRetries = 0], ends the call with that error; otherwise the loop goes
    on to [calculateBackoff], which panics. *)
Lemma doRequest_error env c endpoint body resp e :
  sendsFirst env c body ->
  roundTrip (env 0%nat) = DoResponse resp ->
  400 <= Response.StatusCode resp ->
  parseErrorResponse resp = ReturnsError e ->
  IsRetryable (Some e) = Ok (isRetryableStatus (Response.StatusCode resp)) /\
  doRequest env c endpoint body =
    (parseRateLimitHeaders c resp,
     if isRetryableStatus (Response.StatusCode resp) && negb (0 =? Client.maxRetries c)
     then Panicked else Returned None (Some e),
     [Sent 0 endpoint body]).
Proof.
  intros Hsends Hrt Hst Hparse.
  destruct (parseErrorResponse_error resp e Hparse) as (sc & -> & Hsc).
  assert (Hre : IsRetryable (Some (PError sc)) = Ok (isRetryableStatus (Response.StatusCode resp))).
  { rewrite IsRetryable_PError, Error_IsRetryable_status, Hsc. reflexivity. }
  split; [exact Hre|].
  rewrite (doRequest_first env c endpoint body Hsends), Hrt. cbn zeta.
  apply Z.leb_le in Hst. rewrite Hst, Hparse, Hre.
  destruct (isRetryableStatus _), (0 =? Client.maxRetries c); reflexivity.
Qed.

Lemma doRequest_transport env c endpoint body err :
  sendsFirst env c body ->
  roundTrip (env 0%nat) = DoError err ->
  doRequest env c endpoint body =
    (c, IllTyped (NewNetworkError (Foreign err)), [Sent 0 endpoint body]).
Proof.
  intros Hsends Hrt. rewrite (doRequest_first env c endpoint body Hsends), Hrt. reflexivity.
Qed.

Lemma doRequest_typed env c endpoint body resp t :
  sendsFirst env c body ->
  roundTrip (env 0%nat) = DoResponse resp ->
  400 <= Response.StatusCode resp ->
  parseErrorResponse resp = ReturnsTyped t ->
  doRequest env c endpoint body = (parseRateLimitHeaders c resp, IllTyped t, [Sent 0 endpoint body]).
Proof.
  intros Hsends Hrt Hst Hparse.
  rewrite (doRequest_first env c endpoint body Hsends), Hrt. cbn zeta.
  apply Z.leb_le in Hst. rewrite Hst, Hparse. reflexivity.
Qed.

Lemma doRequest_response env c endpoint body resp :
  sendsFirst env c body ->
  roundTrip (env 0%nat) = DoResponse resp ->
  Response.StatusCode resp < 400 ->
  doRequest env c endpoint body =
    (parseRateLimitHeaders c resp, Returned (Some resp) None, [Sent 0 endpoint body]).
Proof.
  intros Hsends Hrt Hst.
  rewrite (doRequest_first env c endpoint body Hsends), Hrt. cbn zeta.
  apply Z.leb_gt in Hst. rewrite Hst. reflexivity.
Qed.

(** [sendAndParse] when [doRequest] returned an error. *)
Lemma sendAndParse_error {R} env c endpoint body (parse : Response.t -> option R * option error)
    c' e tr :
  doRequest env c endpoint body = (c', Returned None (Some e), tr) ->
  sendAndParse env c endpoint body parse = (c', Returned None (Some e), tr).
Proof. intros H. unfold sendAndParse. rewrite H. reflexivity. Qed.

Lemma sendAndParse_panic {R} env c endpoint body (parse : Response.t -> option R * option error)
    c' tr :
  doRequest env c endpoint body = (c', Panicked, tr) ->
  sendAndParse env c endpoint body parse = (c', Panicked, tr).
Proof. intros H. unfold sendAndParse. rewrite H. reflexivity. Qed.

Lemma sendAndParse_response {R} env c endpoint body
    (parse : Response.t -> option R * option error) c' resp tr :
  doRequest env c endpoint body = (c', Returned (Some resp) None, tr) ->
  sendAndParse env c endpoint body parse
  = (c', Returned (fst (parse resp)) (snd (parse resp)), tr).
Proof. intros H. unfold sendAndParse. rewrite H. reflexivity. Qed.

Ltac sends_first := repeat split; try reflexivity; vm_compute; discriminate.

(** ** Which failures are retried *)

(** C1.  The retry decision of the code as it is.  The six typed errors are
    no [error] values, so every test with a typed target ([IsServerError]
    and the like, [GetRetryAfter]) panics on every non-nil error, and
    [IsRetryable] answers only for a [*Error], by its status code (429, 500,
    502, 503, 504), and panics on any other error.  In a call that sends its
    first request: a response that [parseErrorResponse] returns as a
    [*Error] ends the call with that error when its status is not one of the
    five or [maxRetries] is 0; when it is one of the five and a retry is
    left, the loop panics in [calculateBackoff] before any wait or second
    request.  A transport failure and a response that [parseErrorResponse]
    turns into a typed struct come to a statement that does not type-check.
    So no call sends more than one request. *)
Theorem retry_decision env c endpoint body :
  sendsFirst env c body ->
  (forall e : error,
     IsAuthenticationError (Some e) = Panic /\ IsRateLimitError (Some e) = Panic /\
     IsValidationError (Some e) = Panic /\ IsTimeoutError (Some e) = Panic /\
     IsNetworkError (Some e) = Panic /\ IsServerError (Some e) = Panic /\
     GetRetryAfter (Some e) = Panic) /\
  (forall e : Error.t error,
     IsRetryable (Some (PError e)) = Ok (isRetryableStatus (Error.StatusCode e))) /\
  (forall f : foreign, IsRetryable (Some (Foreign f)) = Panic) /\
  (forall resp e,
     roundTrip (env 0%nat) = DoResponse resp ->
     400 <= Response.StatusCode resp ->
     parseErrorResponse resp = ReturnsError e ->
     doRequest env c endpoint body =
       (parseRateLimitHeaders c resp,
        if isRetryableStatus (Response.StatusCode resp) && negb (0 =? Client.maxRetries c)
        then Panicked else Returned None (Some e),
        [Sent 0 endpoint body])) /\
  (forall err,
     roundTrip (env 0%nat) = DoError err ->
     doRequest env c endpoint body =
       (c, IllTyped (NewNetworkError (Foreign err)), [Sent 0 endpoint body])) /\
  (forall resp t,
     roundTrip (env 0%nat) = DoResponse resp ->
     400 <= Response.StatusCode resp ->
     parseErrorResponse resp = ReturnsTyped t ->
     doRequest env c endpoint body
     = (parseRateLimitHeaders c resp, IllTyped t, [Sent 0 endpoint body])) /\
  sentCount (traceOf (doRequest env c endpoint body)) = 1%nat.
Proof.
  intros Hsends. split; [|split; [|split; [|split; [|split; [|split]]]]].
  - intros e. repeat split.
  - intros e. apply IsRetryable_PError.
  - intros f. reflexivity.
  - intros resp e Hrt Hst Hparse.
    exact (proj2 (doRequest_error env c endpoint body resp e Hsends Hrt Hst Hparse)).
  - intros err. apply doRequest_transport. exact Hsends.
  - intros resp t. apply doRequest_typed. exact Hsends.
  - rewrite (doRequest_first env c endpoint body Hsends), traceOf_emit.
    destruct (roundTrip (env 0%nat)) as [err|resp]; [reflexivity|]. cbn zeta.
    destruct (400 <=? _); [|reflexivity].
    destruct (parseErrorResponse resp) as [e|t]; [|reflexivity].
    destruct (IsRetryable (Some e)) as [retryable|]; [|reflexivity].
    destruct (negb retryable || _); reflexivity.
Qed.

(** A 503 with a body that is no JSON, on a client with three retries left:
    the call panics after one request. *)
Lemma retry_decision_witness :
  doRequest (Sample.always (Sample.textResponse 503)) Sample.client screenshotEndpoint ∅
  = (Sample.client, Panicked, [Sent 0 screenshotEndpoint ∅]).
Proof.
  destruct (retry_decision (Sample.always (Sample.textResponse 503)) Sample.client
              screenshotEndpoint ∅) as (_ & _ & _ & H & _); [sends_first|].
  exact (H (Sample.textResponse 503) _ eq_refl ltac:(cbn; lia) eq_refl).
Defined.

Lemma doRequest_events env c endpoint body (ev : Event) :
  In ev (traceOf (doRequest env c endpoint body)) -> ev = Sent 0 endpoint body.
Proof.
  destruct (doRequest_cases env c endpoint body) as [[-> _]|[-> _]]; cbn; [tauto|].
  intros [<-|[]]. reflexivity.
Qed.

Lemma undecoded_error (resp : Response.t) :
  decodes resp = false -> exists e, parseErrorResponse resp = ReturnsError e.
Proof.
  intros Hd. destruct (parseErrorResponse resp) as [e|t] eqn:E; [exists e; reflexivity|].
  destruct (proj1 (parseErrorResponse_typed resp) (ex_intro _ t E)) as [Hd' _]. congruence.
Qed.

Lemma untyped_status_error (resp : Response.t) :
  isTypedStatus (Response.StatusCode resp) = false ->
  exists e, parseErrorResponse resp = ReturnsError e.
Proof.
  intros Hs. destruct (parseErrorResponse resp) as [e|t] eqn:E; [exists e; reflexivity|].
  destruct (proj1 (parseErrorResponse_typed resp) (ex_intro _ t E)) as [_ Hs']. congruence.
Qed.

Lemma wrap64_small (z : Z) : minInt64 <= z <= maxInt64 -> wrap64 z = z.
Proof.
  unfold wrap64, minInt64, maxInt64. intros H.
  rewrite Z.mod_small by lia. lia.
Qed.

(** ** The wait before a retry *)

(** C2.  The wait before a retry, in the code as it is.  [calculateBackoff]
    first asks [GetRetryAfter] for the wait of a rate-limit error, and that
    call panics on every non-nil error, so no wait is ever computed for a
    retry: neither the [Retry-After] of the server nor the exponential
    schedule.  Only for a nil error (which the loop never passes) does it
    return the exponential wait.  [parseErrorResponse] does read the header:
    a 429 whose body decodes and whose [Retry-After] is a number of seconds
    becomes a [RateLimitError] with that many seconds in [RetryAfter].  No
    call of [doRequest] waits. *)
Theorem backoff_never_computed c attempt x :
  (forall e : error, calculateBackoff c attempt (Some e) x = Panic) /\
  calculateBackoff c attempt None x = Ok x /\
  (forall resp seconds,
     decodes resp = true -> Response.StatusCode resp = 429 ->
     Atoi (Header_Get (Response.Header resp) "Retry-After") = (seconds, true) ->
     -9223372036 <= seconds <= 9223372036 ->
     exists e limit remaining resetAt,
       parseErrorResponse resp
       = ReturnsTyped (PRateLimitError e limit remaining resetAt (seconds * Second))) /\
  (forall env endpoint body,
     Forall (fun ev => isWait ev = false) (traceOf (doRequest env c endpoint body))).
Proof.
  split; [reflexivity|]. split; [reflexivity|]. split.
  - intros resp seconds Hd Hst Hra Hrange. unfold parseErrorResponse, decodes in *.
    destruct (Response.Body resp) as [err|raw [apiResp|]]; try discriminate Hd.
    rewrite Hst. cbn [Z.eqb StatusUnauthorized StatusTooManyRequests Pos.eqb]. cbv zeta.
    rewrite Hra.
    destruct (nonempty (Header_Get (Response.Header resp) "Retry-After")) eqn:Hne.
    + rewrite wrap64_small by (unfold Second, minInt64, maxInt64; lia).
      eexists _, _, _, _. reflexivity.
    + apply negb_false_iff, String.eqb_eq in Hne. rewrite Hne in Hra. discriminate Hra.
  - intros env endpoint body. apply List.Forall_forall. intros ev Hev.
    rewrite (doRequest_events env c endpoint body ev Hev). reflexivity.
Qed.

(** A 429 with [Retry-After: 5] on the first attempt: the five seconds are
    read, and the call stops at the ill-typed return of the
    [RateLimitError]; the same status with a body that is no JSON is
    retryable, and the retry panics instead of waiting. *)
Lemma retry_after_example :
  parseErrorResponse (Sample.retryAfter5 (ReadBytes "{}" (Some Sample.apiError)))
  = ReturnsTyped
      (PRateLimitError (Error.mk 429 "E" "failed" None "" None) 0 0 0 (5 * Second)) /\
  resultOf (doRequest (Sample.always (Sample.retryAfter5 (ReadBytes "slow down" None)))
              Sample.client screenshotEndpoint ∅) = Panicked /\
  calculateBackoff Sample.client 1
    (Some (PError (Error.mk 429 "" "slow down" None "" None))) Second = Panic.
Proof. repeat split. Qed.

(** ** The number of attempts *)

(** C3 (as amended).  With [maxRetries >= 0] a call sends at most
    [maxRetries + 1] requests, through [doRequest] and through each entry
    point.  With [maxRetries = 0], a first response of status 500 whose body
    does not decode ends the call after that one request with a plain
    [*Error] that carries the status 500. *)
Theorem attempts_bounded env c :
  0 <= Client.maxRetries c ->
  (forall endpoint body,
     Z.of_nat (sentCount (traceOf (doRequest env c endpoint body))) <= Client.maxRetries c + 1) /\
  (forall opts,
     Z.of_nat (sentCount (traceOf (Screenshot env c opts))) <= Client.maxRetries c + 1) /\
  (forall opts,
     Z.of_nat (sentCount (traceOf (ScreenshotAsync env c opts))) <= Client.maxRetries c + 1) /\
  (forall opts,
     Z.of_nat (sentCount (traceOf (PDF env c opts))) <= Client.maxRetries c + 1) /\
  (forall opts,
     Z.of_nat (sentCount (traceOf (PDFAsync env c opts))) <= Client.maxRetries c + 1) /\
  (forall endpoint body resp,
     Client.maxRetries c = 0 -> sendsFirst env c body ->
     roundTrip (env 0%nat) = DoResponse resp ->
     Response.StatusCode resp = 500 -> decodes resp = false ->
     exists e,
       doRequest env c endpoint body
       = (parseRateLimitHeaders c resp, Returned None (Some (PError e)), [Sent 0 endpoint body]) /\
       Error.StatusCode e = 500 /\
       sentCount (traceOf (doRequest env c endpoint body)) = 1%nat).
Proof.
  intros Hmax.
  assert (Hreq : forall endpoint body,
            Z.of_nat (sentCount (traceOf (doRequest env c endpoint body)))
            <= Client.maxRetries c + 1).
  { intros endpoint body. pose proof (sentCount_doRequest env c endpoint body). lia. }
  split; [exact Hreq|].
  split; [|split; [|split; [|split]]];
    try (intros opts; entry_cases opts; rewrite ?traceOf_sendAndParse;
         first [apply Hreq | cbn; lia]).
  intros endpoint body resp Hzero Hsends Hrt Hst Hd.
  destruct (undecoded_error resp Hd) as (e & Hparse).
  destruct (parseErrorResponse_error resp e Hparse) as (sc & -> & Hsc).
  destruct (doRequest_error env c endpoint body resp (PError sc) Hsends Hrt ltac:(lia) Hparse)
    as [_ Hdo].
  rewrite Hzero in Hdo. cbn [Z.eqb negb] in Hdo. rewrite andb_false_r in Hdo.
  exists sc. rewrite Hdo. split; [reflexivity|]. split; [congruence|reflexivity].
Qed.

Lemma attempts_bounded_witness :
  Z.of_nat (sentCount (traceOf (doRequest (Sample.always (Sample.textResponse 500))
                                  (New "key" [WithMaxRetries 0]) pdfEndpoint ∅))) <= 0 + 1.
Proof.
  destruct (attempts_bounded (Sample.always (Sample.textResponse 500))
              (New "key" [WithMaxRetries 0])) as (H & _); [vm_compute; discriminate|].
  apply H.
Defined.

(** C3, as stated, fails: with [maxRetries = 0], a 500 whose body is no JSON
    ends the call with a plain [*Error]; [parseErrorResponse] does not make a
    [ServerError] of it, and [IsServerError] does not answer yes. *)
Lemma attempts_bounded_counterexample :
  doRequest (Sample.always (Sample.textResponse 500)) (New "key" [WithMaxRetries 0])
    pdfEndpoint ∅
  = (New "key" [WithMaxRetries 0],
     Returned None (Some (PError (Error.mk 500 "" "upstream failure" None "" None))),
     [Sent 0 pdfEndpoint ∅]) /\
  (forall e, parseErrorResponse (Sample.textResponse 500) <> ReturnsTyped (PServerError e)) /\
  IsServerError (Some (PError (Error.mk 500 "" "upstream failure" None "" None))) <> Ok true.
Proof. repeat split; discriminate. Qed.

(** ** Status 408 *)

Lemma not_typed_408 : isTypedStatus 408 = false.
Proof. reflexivity. Qed.

(** C4 (as amended).  Neither SDK retries a 408.  In the Go client only the
    first attempt receives a response; when its status is 408,
    [parseErrorResponse] returns a plain [*Error] with that status, whether
    the body decodes or not, [IsRetryable] answers no, and the call ends with
    that error after the one request, whatever [maxRetries] is.  In the Node
    SDK the error factory makes a [TimeoutError] of a 408, and [shouldRetry]
    answers no for it at every attempt and every [maxRetries]. *)
Theorem request_timeout_status env c endpoint body resp :
  sendsFirst env c body ->
  roundTrip (env 0%nat) = DoResponse resp ->
  Response.StatusCode resp = 408 ->
  (exists e,
     parseErrorResponse resp = ReturnsError (PError e) /\
     Error.StatusCode e = 408 /\
     IsRetryable (Some (PError e)) = Ok false /\
     doRequest env c endpoint body
     = (parseRateLimitHeaders c resp, Returned None (Some (PError e)), [Sent 0 endpoint body])) /\
  (forall ev, In ev (traceOf (doRequest env c endpoint body)) -> ev = Sent 0 endpoint body) /\
  (forall r rl,
     NodeSDK.name (NodeSDK.createErrorFromResponse 408 r rl) = NodeSDK.TimeoutError) /\
  (forall maxRetries code attempt,
     NodeClient.shouldRetry maxRetries (NodeClient.AxiosError (Some 408) code) attempt = false).
Proof.
  intros Hsends Hrt Hst. split; [|split; [|split]].
  - destruct (untyped_status_error resp) as (e & Hparse); [rewrite Hst; reflexivity|].
    destruct (parseErrorResponse_error resp e Hparse) as (sc & -> & Hsc).
    destruct (doRequest_error env c endpoint body resp (PError sc) Hsends Hrt ltac:(lia) Hparse)
      as [Hre Hdo].
    rewrite Hst in Hre, Hdo. exists sc.
    split; [exact Hparse|]. split; [congruence|]. split; [exact Hre|exact Hdo].
  - intros ev. apply doRequest_events.
  - intros r rl. reflexivity.
  - intros maxRetries code attempt. unfold NodeClient.shouldRetry.
    destruct (NodeClient.geNumber attempt maxRetries); reflexivity.
Qed.

Lemma request_timeout_status_witness :
  doRequest (Sample.always (Sample.jsonResponse 408)) Sample.client screenshotEndpoint ∅
  = (Sample.client, Returned None (Some (PError (Error.mk 408 "E" "failed" None "" None))),
     [Sent 0 screenshotEndpoint ∅]).
Proof.
  destruct (request_timeout_status (Sample.always (Sample.jsonResponse 408)) Sample.client
              screenshotEndpoint ∅ (Sample.jsonResponse 408))
    as ((e & Hparse & _ & _ & Hdo) & _); [sends_first|reflexivity|reflexivity|].
  injection Hparse as <-. exact Hdo.
Defined.

(** C4, as stated, fails: with three retries left, a 408 ends the call of the
    Go client after one request, with an error that [IsRetryable] reports as
    not retryable and that is no [TimeoutError]; the Node client does not
    retry it either. *)
Lemma request_timeout_status_counterexample :
  Client.maxRetries Sample.client = 3 /\
  doRequest (Sample.always (Sample.textResponse 408)) Sample.client screenshotEndpoint ∅
  = (Sample.client,
     Returned None (Some (PError (Error.mk 408 "" "upstream failure" None "" None))),
     [Sent 0 screenshotEndpoint ∅]) /\
  IsRetryable (Some (PError (Error.mk 408 "" "upstream failure" None "" None))) = Ok false /\
  IsTimeoutError (Some (PError (Error.mk 408 "" "upstream failure" None "" None))) <> Ok true /\
  NodeClient.shouldRetry (NodeClient.Num (3 # 1)) (NodeClient.AxiosError (Some 408) None) 0
  = false.
Proof. repeat split; discriminate. Qed.

(** ** Status 401 and 403 *)

(** C6 (as amended).  Neither SDK retries a 401 or a 403.  In the Node SDK
    the error factory makes an [AuthenticationError] of both, and
    [shouldRetry] answers no.  In the Go client a 403, and a 401 whose body
    does not decode, end the call after the one request with a plain
    [*Error] of that status, which [IsRetryable] reports as not retryable,
    whatever [maxRetries] is. *)
Theorem unauthorized_not_retried env c endpoint body resp :
  sendsFirst env c body ->
  roundTrip (env 0%nat) = DoResponse resp ->
  Response.StatusCode resp = 403 \/ (Response.StatusCode resp = 401 /\ decodes resp = false) ->
  (exists e,
     parseErrorResponse resp = ReturnsError (PError e) /\
     Error.StatusCode e = Response.StatusCode resp /\
     IsRetryable (Some (PError e)) = Ok false /\
     doRequest env c endpoint body
     = (parseRateLimitHeaders c resp, Returned None (Some (PError e)), [Sent 0 endpoint body])) /\
  (forall status r rl,
     status = 401 \/ status = 403 ->
     NodeSDK.name (NodeSDK.createErrorFromResponse status r rl) = NodeSDK.AuthenticationError) /\
  (forall status maxRetries code attempt,
     status = 401 \/ status = 403 ->
     NodeClient.shouldRetry maxRetries (NodeClient.AxiosError (Some status) code) attempt = false).
Proof.
  intros Hsends Hrt Hst. split; [|split].
  - assert (Hparse : exists e, parseErrorResponse resp = ReturnsError e).
    { destruct Hst as [Hst|[_ Hd]]; [|apply undecoded_error; exact Hd].
      apply untyped_status_error. rewrite Hst. reflexivity. }
    destruct Hparse as (e & Hparse).
    destruct (parseErrorResponse_error resp e Hparse) as (sc & -> & Hsc).
    assert (Hno : isRetryableStatus (Response.StatusCode resp) = false).
    { destruct Hst as [->|[-> _]]; reflexivity. }
    assert (H400 : 400 <= Response.StatusCode resp) by (destruct Hst as [->|[-> _]]; lia).
    destruct (doRequest_error env c endpoint body resp (PError sc) Hsends Hrt H400 Hparse)
      as [Hre Hdo].
    rewrite Hno in Hre, Hdo. exists sc.
    split; [exact Hparse|]. split; [exact Hsc|]. split; [exact Hre|exact Hdo].
  - intros status r rl [->| ->]; reflexivity.
  - intros status maxRetries code attempt [->| ->]; unfold NodeClient.shouldRetry;
      destruct (NodeClient.geNumber attempt maxRetries); reflexivity.
Qed.

Lemma unauthorized_not_retried_witness :
  doRequest (Sample.always (Sample.jsonResponse 403)) Sample.client screenshotEndpoint ∅
  = (Sample.client, Returned None (Some (PError (Error.mk 403 "E" "failed" None "" None))),
     [Sent 0 screenshotEndpoint ∅]).
Proof.
  destruct (unauthorized_not_retried (Sample.always (Sample.jsonResponse 403)) Sample.client
              screenshotEndpoint ∅ (Sample.jsonResponse 403))
    as ((e & Hparse & _ & _ & Hdo) & _); [sends_first|reflexivity|left; reflexivity|].
  injection Hparse as <-. exact Hdo.
Defined.

(** C6, as stated, fails: the Go client makes a plain [*Error] of a 403, also
    when the body decodes, not an [AuthenticationError]. *)
Lemma unauthorized_not_retried_counterexample :
  parseErrorResponse (Sample.jsonResponse 403)
  = ReturnsError (PError (Error.mk 403 "E" "failed" None "" None)) /\
  (forall e, parseErrorResponse (Sample.jsonResponse 403) <> ReturnsTyped (PAuthenticationError e)) /\
  IsAuthenticationError (Some (PError (Error.mk 403 "E" "failed" None "" None))) <> Ok true /\
  resultOf (doRequest (Sample.always (Sample.jsonResponse 403)) Sample.client
              screenshotEndpoint ∅)
  = Returned None (Some (PError (Error.mk 403 "E" "failed" None "" None))).
Proof. repeat split; discriminate. Qed.

(** ** Cancellation during the wait before a retry *)



(** ** Missing and malformed URLs *)

(** C5 (as amended).  What the two SDKs check of the URLs before a request.
    The Go client tests presence only: a request without options or with an
    empty target URL fails with [ErrMissingURL], an asynchronous request
    without a webhook or with an empty webhook URL fails with a [*Error] of
    code VALIDATION_ERROR and status 400, and nothing is sent; every
    non-empty target URL passes, and a request whose options pass is sent as
    it is, whatever its URLs look like.  The Node client hands the target URL
    and, for an asynchronous call, the webhook URL to [new URL]; when that
    throws, the method fails with "Invalid URL provided" or "Invalid webhook
    URL provided" before [executeWithRetry] is called, so without a
    request. *)
Theorem missing_url_fails_locally env c (URL_parses : string -> bool) :
  (forall opts,
     opts = None \/ (exists o, opts = Some o /\ ScreenshotOptions.URL o = "") ->
     Screenshot env c opts = (c, Returned None (Some ErrMissingURL), []) /\
     ScreenshotAsync env c opts = (c, Returned None (Some ErrMissingURL), [])) /\
  (forall opts,
     opts = None \/ (exists o, opts = Some o /\ PDFOptions.URL o = "") ->
     PDF env c opts = (c, Returned None (Some ErrMissingURL), []) /\
     PDFAsync env c opts = (c, Returned None (Some ErrMissingURL), [])) /\
  (forall opts,
     webhookMissing (ScreenshotOptions.Webhook opts) = true ->
     exists e, ScreenshotAsync env c (Some opts) = (c, Returned None (Some e), []) /\
               (ValidateScreenshotOptions (Some opts) = None -> e = webhookRequired)) /\
  (forall opts,
     webhookMissing (PDFOptions.Webhook opts) = true ->
     exists e, PDFAsync env c (Some opts) = (c, Returned None (Some e), []) /\
               (ValidatePDFOptions (Some opts) = None -> e = webhookRequired)) /\
  (exists e, webhookRequired = PError e /\
             Error.Code e = "VALIDATION_ERROR" /\ Error.StatusCode e = 400) /\
  (forall url, url <> "" ->
     ValidateScreenshotOptions (Some (screenshotURLOnly url)) = None /\
     ValidatePDFOptions (Some (pdfURLOnly url)) = None) /\
  (forall opts,
     ValidateScreenshotOptions (Some opts) = None ->
     sendsFirst env c (buildScreenshotRequest opts) ->
     traceOf (Screenshot env c (Some opts))
     = [Sent 0 screenshotEndpoint (buildScreenshotRequest opts)] /\
     (webhookMissing (ScreenshotOptions.Webhook opts) = false ->
      traceOf (ScreenshotAsync env c (Some opts))
      = [Sent 0 screenshotEndpoint (buildScreenshotRequest opts)])) /\
  (forall opts,
     ValidatePDFOptions (Some opts) = None ->
     sendsFirst env c (buildPDFRequest opts) ->
     traceOf (PDF env c (Some opts)) = [Sent 0 pdfEndpoint (buildPDFRequest opts)] /\
     (webhookMissing (PDFOptions.Webhook opts) = false ->
      traceOf (PDFAsync env c (Some opts)) = [Sent 0 pdfEndpoint (buildPDFRequest opts)])) /\
  (forall url webhookUrl,
     URL_parses url = false ->
     NodeClient.screenshot URL_parses url = NodeClient.Throws "Invalid URL provided" /\
     NodeClient.pdf URL_parses url = NodeClient.Throws "Invalid URL provided" /\
     NodeClient.screenshotAsync URL_parses url webhookUrl
     = NodeClient.Throws "Invalid URL provided" /\
     NodeClient.pdfAsync URL_parses url webhookUrl = NodeClient.Throws "Invalid URL provided") /\
  (forall url webhookUrl,
     URL_parses url = true -> URL_parses webhookUrl = false ->
     NodeClient.screenshotAsync URL_parses url webhookUrl
     = NodeClient.Throws "Invalid webhook URL provided" /\
     NodeClient.pdfAsync URL_parses url webhookUrl
     = NodeClient.Throws "Invalid webhook URL provided") /\
  (forall url webhookUrl,
     URL_parses url = true ->
     NodeClient.screenshot URL_parses url = NodeClient.ExecuteWithRetry "/screenshots" false /\
     NodeClient.pdf URL_parses url = NodeClient.ExecuteWithRetry "/pdfs" false /\
     (URL_parses webhookUrl = true ->
      NodeClient.screenshotAsync URL_parses url webhookUrl
      = NodeClient.ExecuteWithRetry "/screenshots" true /\
      NodeClient.pdfAsync URL_parses url webhookUrl = NodeClient.ExecuteWithRetry "/pdfs" true)).
Proof.
  assert (Htrace : forall endpoint body, sendsFirst env c body ->
            traceOf (doRequest env c endpoint body) = [Sent 0 endpoint body]).
  { intros endpoint body Hsends.
    destruct (doRequest_cases env c endpoint body) as [[Hnil _]|[Hone _]]; [|exact Hone].
    rewrite (doRequest_first env c endpoint body Hsends), traceOf_emit in Hnil.
    discriminate Hnil. }
  split; [|split; [|split; [|split; [|split; [|split; [|split; [|split; [|split; [|split]]]]]]]]].
  - intros opts [-> | (o & -> & Hurl)]; [split; reflexivity|].
    unfold Screenshot, ScreenshotAsync, ValidateScreenshotOptions. rewrite Hurl.
    split; reflexivity.
  - intros opts [-> | (o & -> & Hurl)]; [split; reflexivity|].
    unfold PDF, PDFAsync, ValidatePDFOptions. rewrite Hurl. split; reflexivity.
  - intros opts Hw. unfold ScreenshotAsync.
    destruct (ValidateScreenshotOptions (Some opts)) as [err|].
    + exists err. split; [reflexivity|discriminate].
    + rewrite Hw. exists webhookRequired. split; reflexivity.
  - intros opts Hw. unfold PDFAsync.
    destruct (ValidatePDFOptions (Some opts)) as [err|].
    + exists err. split; [reflexivity|discriminate].
    + rewrite Hw. exists webhookRequired. split; reflexivity.
  - eexists. repeat split.
  - intros url Hurl. apply eqb_empty_false in Hurl.
    unfold ValidateScreenshotOptions, ValidatePDFOptions, screenshotURLOnly, pdfURLOnly.
    cbn. rewrite Hurl. split; reflexivity.
  - intros opts Hv Hsends. unfold Screenshot, ScreenshotAsync. rewrite Hv.
    split; [rewrite traceOf_sendAndParse; apply Htrace; exact Hsends|].
    intros ->. rewrite traceOf_sendAndParse. apply Htrace. exact Hsends.
  - intros opts Hv Hsends. unfold PDF, PDFAsync. rewrite Hv.
    split; [rewrite traceOf_sendAndParse; apply Htrace; exact Hsends|].
    intros ->. rewrite traceOf_sendAndParse. apply Htrace. exact Hsends.
  - intros url webhookUrl Hurl.
    unfold NodeClient.screenshot, NodeClient.pdf, NodeClient.screenshotAsync,
      NodeClient.pdfAsync, NodeClient.validateUrl.
    rewrite Hurl. repeat split.
  - intros url webhookUrl Hurl Hwh.
    unfold NodeClient.screenshotAsync, NodeClient.pdfAsync, NodeClient.validateUrl,
      NodeClient.validateWebhook.
    rewrite Hurl, Hwh. split; reflexivity.
  - intros url webhookUrl Hurl.
    unfold NodeClient.screenshot, NodeClient.pdf, NodeClient.screenshotAsync,
      NodeClient.pdfAsync, NodeClient.validateUrl, NodeClient.validateWebhook.
    rewrite Hurl. split; [reflexivity|]. split; [reflexivity|].
    intros ->. split; reflexivity.
Qed.

Lemma missing_url_fails_locally_witness :
  Screenshot (Sample.always Sample.ok) Sample.client (Some (Sample.shot "" 0 None None))
  = (Sample.client, Returned None (Some ErrMissingURL), []) /\
  PDF (Sample.always Sample.ok) Sample.client None
  = (Sample.client, Returned None (Some ErrMissingURL), []) /\
  (exists e,
     ScreenshotAsync (Sample.always Sample.ok) Sample.client
       (Some (Sample.shot "https://example.com" 0 None (Some (Sample.webhook ""))))
     = (Sample.client, Returned None (Some e), []) /\ e = webhookRequired) /\
  NodeClient.screenshot (String.eqb "https://example.com") "invalid-url"
  = NodeClient.Throws "Invalid URL provided" /\
  NodeClient.pdfAsync (String.eqb "https://example.com") "https://example.com"
    "invalid-webhook-url"
  = NodeClient.Throws "Invalid webhook URL provided".
Proof.
  destruct (missing_url_fails_locally (Sample.always Sample.ok) Sample.client
              (String.eqb "https://example.com"))
    as (Hshot & Hpdf & Hhook & _ & _ & _ & _ & _ & Hnode & Hnodehook & _).
  split; [|split; [|split; [|split]]].
  - apply Hshot. right. eexists. split; reflexivity.
  - apply Hpdf. left. reflexivity.
  - destruct (Hhook (Sample.shot "https://example.com" 0 None (Some (Sample.webhook ""))) eq_refl)
      as (e & Hcall & He).
    exists e. split; [exact Hcall|]. apply He. reflexivity.
  - apply (Hnode "invalid-url" ""). reflexivity.
  - apply (Hnodehook "https://example.com" "invalid-webhook-url"); reflexivity.
Defined.

(** C5, as stated, fails for the Go client: a target URL and a webhook URL
    that no URL parser accepts pass the local checks, and the request is
    sent. *)
Lemma missing_url_fails_locally_counterexample :
  ValidateScreenshotOptions (Some (screenshotURLOnly "://")) = None /\
  Screenshot (Sample.always Sample.ok) Sample.client (Some (screenshotURLOnly "://"))
  = (Sample.client,
     Returned (Some (ScreenshotResult.mk "PNG" "image/png" "://" 0 0 "")) None,
     [Sent 0 screenshotEndpoint {[ "url" := Scalar (VString "://") ]}]) /\
  sentCount (traceOf (ScreenshotAsync (Sample.always Sample.accepted) Sample.client
                        (Some (Sample.shot "https://example.com" 0 None
                                 (Some (Sample.webhook "://")))))) = 1%nat /\
  resultOf (ScreenshotAsync (Sample.always Sample.accepted) Sample.client
              (Some (Sample.shot "https://example.com" 0 None (Some (Sample.webhook "://")))))
  = Returned (Some "job-1") None.
Proof. repeat split. Qed.

(** ** What is checked before a request *)

(** What [json.Marshal] refuses, key by key. *)
Lemma marshalFails_lookup (body : gmap string value) :
  marshalFails body = true <-> exists k v, body !! k = Some v /\ valueFails v = true.
Proof.
  unfold marshalFails. rewrite existsb_exists. split.
  - intros ([k v] & Hin & Hv). exists k, v. split; [|exact Hv].
    apply elem_of_map_to_list, list_elem_of_In. exact Hin.
  - intros (k & v & Hk & Hv). exists (k, v). split; [|exact Hv].
    apply list_elem_of_In, elem_of_map_to_list. exact Hk.
Qed.

Lemma marshalError_fails (body : gmap string value) :
  marshalError body <> None <-> marshalFails body = true.
Proof.
  unfold marshalError. destruct (marshalFails body); split; try discriminate; try reflexivity.
  intros H. exfalso. apply H. reflexivity.
Qed.

Lemma scalarMap_marshals (m : gmap string scalar) :
  map_Forall (fun _ s => scalarFails s = false) m -> valueFails (VMap m) = false.
Proof.
  intros H. cbn. apply not_true_is_false. rewrite existsb_exists.
  intros ([k s] & Hin & Hs). apply list_elem_of_In, elem_of_map_to_list in Hin.
  cbn in Hs. rewrite (H k s Hin) in Hs. discriminate Hs.
Qed.

Lemma cookies_fail (l : list Cookie.t) :
  existsb cookieFails l = true <-> Exists (fun ck => Cookie.Expires ck = Some OutOfRange) l.
Proof.
  rewrite existsb_exists, List.Exists_exists. unfold cookieFails.
  split; intros (ck & Hin & Hck); exists ck; (split; [exact Hin|]).
  - destruct (Cookie.Expires ck) as [[t|]|]; try discriminate Hck. reflexivity.
  - rewrite Hck. reflexivity.
Qed.

Ltac scalars :=
  repeat first
    [ apply map_Forall_put_if; [intros _; reflexivity|]
    | apply map_Forall_insert_2; [reflexivity|]
    | apply map_Forall_empty ].

Lemma viewportMap_marshals (vp : Viewport.t) : valueFails (VMap (viewportMap vp)) = false.
Proof. apply scalarMap_marshals. unfold viewportMap. cbv zeta. scalars. Qed.

Lemma webhookMap_marshals (wh : WebhookConfig.t) : valueFails (VMap (webhookMap wh)) = false.
Proof. apply scalarMap_marshals. unfold webhookMap. cbv zeta. scalars. Qed.

Lemma marginMap_marshals (mg : PDFMargin.t) : valueFails (VMap (marginMap mg)) = false.
Proof. apply scalarMap_marshals. unfold marginMap. cbv zeta. scalars. Qed.

Ltac refused opts :=
  first
    [ rewrite viewportMap_marshals; discriminate
    | rewrite webhookMap_marshals; discriminate
    | rewrite marginMap_marshals; discriminate
    | rewrite scalarMap_marshals by scalars; discriminate
    | cbn [valueFails scalarFails];
      first
        [ discriminate
        | match goal with
          | Hc : f64_ltb _ ?f = true |- negb (isFinite ?f) = true -> _ =>
              let H := fresh in
              intros H; destruct f; try discriminate Hc; try discriminate H; left; reflexivity
          | |- negb (isFinite ?f) = true -> _ =>
              let H := fresh in intros H; left; apply negb_true_iff in H; exact H
          | |- existsb cookieFails _ = true -> _ =>
              let H := fresh in intros H; right; apply cookies_fail; exact H
          end ] ].

Ltac refusals opts :=
  repeat first
    [ apply map_Forall_put_if; [intros ?; refused opts|]
    | apply map_Forall_insert_2; [refused opts|]
    | apply map_Forall_empty
    | match goal with
      | |- map_Forall _ (match ?x with Some _ => _ | None => _ end) => destruct x
      end ].

Lemma buildScreenshotRequest_refused (opts : ScreenshotOptions.t) :
  map_Forall (fun _ v => valueFails v = true -> screenshotUnmarshallable opts)
    (buildScreenshotRequest opts).
Proof.
  unfold buildScreenshotRequest, put_webhook, put_javascript, put_viewport, screenshotUnmarshallable.
  cbv zeta. refusals opts.
Qed.

Lemma buildPDFRequest_refused (opts : PDFOptions.t) :
  map_Forall (fun _ v => valueFails v = true -> pdfUnmarshallable opts) (buildPDFRequest opts).
Proof.
  unfold buildPDFRequest, put_webhook, put_javascript, put_viewport, pdfUnmarshallable.
  cbv zeta. refusals opts.
Qed.

Lemma lookup_put_if_eq {V} (k : string) (v : V) (req : gmap string V) :
  put_if true k v req !! k = Some v.
Proof. apply lookup_insert_eq. Qed.

Lemma Exists_nonempty {A} (P : A -> Prop) (l : list A) : Exists P l -> (0 <? length l)%nat = true.
Proof. intros [x l' _|x l' _]; reflexivity. Qed.

Lemma screenshot_marshal (opts : ScreenshotOptions.t) :
  marshalError (buildScreenshotRequest opts) <> None <-> screenshotUnmarshallable opts.
Proof.
  rewrite marshalError_fails, marshalFails_lookup. split.
  - intros (k & v & Hk & Hv). exact (buildScreenshotRequest_refused opts k v Hk Hv).
  - intros [Hdsf|Hck].
    + exists "deviceScaleFactor", (Scalar (VFloat64 PosInf)). split; [|reflexivity].
      unfold buildScreenshotRequest. cbv zeta.
      rewrite lookup_put_webhook_ne, lookup_put_javascript_ne by discriminate.
      rewrite !lookup_put_if_ne by discriminate.
      rewrite Hdsf. apply lookup_put_if_eq.
    + exists "cookies", (Scalar (VCookies (ScreenshotOptions.Cookies opts))).
      split; [|apply cookies_fail; exact Hck].
      unfold buildScreenshotRequest. cbv zeta.
      rewrite lookup_put_webhook_ne, lookup_put_javascript_ne by discriminate.
      rewrite !lookup_put_if_ne by discriminate.
      rewrite (Exists_nonempty _ _ Hck). apply lookup_put_if_eq.
Qed.

Lemma pdf_marshal (opts : PDFOptions.t) :
  marshalError (buildPDFRequest opts) <> None <-> pdfUnmarshallable opts.
Proof.
  rewrite marshalError_fails, marshalFails_lookup. split.
  - intros (k & v & Hk & Hv). exact (buildPDFRequest_refused opts k v Hk Hv).
  - intros [Hs|Hck].
    + exists "scale", (Scalar (VFloat64 (PDFOptions.Scale opts))).
      split; [|cbn; rewrite Hs; reflexivity].
      unfold buildPDFRequest. cbv zeta.
      rewrite lookup_put_webhook_ne, lookup_put_javascript_ne by discriminate.
      rewrite !lookup_put_if_ne by discriminate.
      rewrite lookup_put_viewport_ne by discriminate.
      destruct (PDFOptions.Margin opts); rewrite !lookup_put_if_ne by discriminate;
        (replace (negb (f64_eqb (PDFOptions.Scale opts) 0%Q)) with true
           by (destruct (PDFOptions.Scale opts); try discriminate Hs; reflexivity));
        apply lookup_put_if_eq.
    + exists "cookies", (Scalar (VCookies (PDFOptions.Cookies opts))).
      split; [|apply cookies_fail; exact Hck].
      unfold buildPDFRequest. cbv zeta.
      rewrite lookup_put_webhook_ne, lookup_put_javascript_ne by discriminate.
      rewrite !lookup_put_if_ne by discriminate.
      rewrite (Exists_nonempty _ _ Hck). apply lookup_put_if_eq.
Qed.

Lemma scale_guard (s : float64) :
  negb (f64_eqb s 0%Q) && (f64_ltb s tenth || f64_ltb (2 # 1)%Q s) = false <-> scaleAccepted s.
Proof.
  destruct s as [q| | |]; cbn; try (split; [discriminate|intros []]); [|split; reflexivity].
  rewrite andb_false_iff, negb_false_iff, orb_false_iff, !negb_false_iff.
  rewrite Qeq_bool_iff, !Qle_bool_iff. reflexivity.
Qed.

(** C9 (as amended).  What the Go client checks of the options before a
    request.  Local validation of a screenshot request accepts the options
    exactly when the URL is present, the quality lies in 0..100 and the
    viewport, if any, has no negative side; local validation of a PDF
    request accepts them exactly when the URL is present, the scale is zero,
    NaN or a value from 0.1 to 2.0, and the viewport has no negative side.
    The asynchronous entry points add the presence of the webhook URL and
    nothing else.  Of options that pass, [json.Marshal] refuses the body
    exactly when it holds a device scale factor of plus infinity, a scale
    that is not finite (NaN, for options that pass), or a cookie whose expiry
    cannot be marshalled; the call then returns that error without a
    request.  No other field of the
    options is read. *)
Theorem local_validation_checks :
  ValidateScreenshotOptions None = Some ErrMissingURL /\
  ValidatePDFOptions None = Some ErrMissingURL /\
  (forall opts,
     ValidateScreenshotOptions (Some opts) = None <->
     ScreenshotOptions.URL opts <> "" /\
     0 <= ScreenshotOptions.Quality opts <= 100 /\
     (forall v, ScreenshotOptions.Viewport opts = Some v ->
                0 <= Viewport.Width v /\ 0 <= Viewport.Height v)) /\
  (forall opts,
     ValidatePDFOptions (Some opts) = None <->
     PDFOptions.URL opts <> "" /\
     scaleAccepted (PDFOptions.Scale opts) /\
     (forall v, PDFOptions.Viewport opts = Some v ->
                0 <= Viewport.Width v /\ 0 <= Viewport.Height v)) /\
  (forall env c opts,
     ValidateScreenshotOptions (Some opts) = None ->
     webhookMissing (ScreenshotOptions.Webhook opts) = false ->
     traceOf (ScreenshotAsync env c (Some opts))
     = traceOf (doRequest env c screenshotEndpoint (buildScreenshotRequest opts))) /\
  (forall env c opts,
     ValidatePDFOptions (Some opts) = None ->
     webhookMissing (PDFOptions.Webhook opts) = false ->
     traceOf (PDFAsync env c (Some opts))
     = traceOf (doRequest env c pdfEndpoint (buildPDFRequest opts))) /\
  (forall opts,
     marshalError (buildScreenshotRequest opts) <> None <-> screenshotUnmarshallable opts) /\
  (forall opts, marshalError (buildPDFRequest opts) <> None <-> pdfUnmarshallable opts) /\
  (forall env c opts,
     String.eqb (Client.apiKey c) "" = false ->
     ValidateScreenshotOptions (Some opts) = None -> screenshotUnmarshallable opts ->
     Screenshot env c (Some opts)
     = (c, Returned None
             (Some (Foreign (wrapError "screencraft: failed to marshal request body"
                               jsonUnsupported))), [])) /\
  (forall env c opts,
     String.eqb (Client.apiKey c) "" = false ->
     ValidatePDFOptions (Some opts) = None -> pdfUnmarshallable opts ->
     PDF env c (Some opts)
     = (c, Returned None
             (Some (Foreign (wrapError "screencraft: failed to marshal request body"
                               jsonUnsupported))), [])).
Proof.
  assert (Hfail : forall {R} env c endpoint body (parse : Response.t -> option R * option error),
            String.eqb (Client.apiKey c) "" = false -> marshalError body <> None ->
            sendAndParse env c endpoint body parse
            = (c, Returned None
                    (Some (Foreign (wrapError "screencraft: failed to marshal request body"
                                      jsonUnsupported))), [])).
  { intros R env c endpoint body parse Hkey Hm. apply sendAndParse_error.
    unfold doRequest. rewrite Hkey. unfold marshalError in *.
    destruct (marshalFails body); [reflexivity|]. exfalso. apply Hm. reflexivity. }
  split; [reflexivity|]. split; [reflexivity|].
  split; [|split; [|split; [|split; [|split; [|split; [|split]]]]]].
  - intros opts. unfold ValidateScreenshotOptions.
    rewrite <- viewportNegative_false, <- eqb_empty_false.
    destruct (String.eqb _ _); [split; [discriminate|intros [[=] _]]|].
    destruct (_ || _) eqn:Hq.
    + split; [discriminate|]. intros (_ & Hrange & _).
      apply orb_true_iff in Hq. destruct Hq as [Hq|Hq]; apply Z.ltb_lt in Hq; lia.
    + apply orb_false_iff in Hq. destruct Hq as [Hlo Hhi].
      apply Z.ltb_ge in Hlo, Hhi.
      destruct (viewportNegative _); [split; [discriminate|intros (_ & _ & [=])]|].
      split; [intros _; repeat split; lia|reflexivity].
  - intros opts. unfold ValidatePDFOptions.
    rewrite <- viewportNegative_false, <- eqb_empty_false, <- scale_guard.
    destruct (String.eqb _ _); [split; [discriminate|intros [[=] _]]|].
    destruct (negb _ && _).
    + split; [discriminate|]. intros (_ & [=] & _).
    + destruct (viewportNegative _); [split; [discriminate|intros (_ & _ & [=])]|].
      split; [|reflexivity]. intros _. repeat split; discriminate.
  - intros env c opts Hv Hw. unfold ScreenshotAsync. rewrite Hv, Hw.
    apply traceOf_sendAndParse.
  - intros env c opts Hv Hw. unfold PDFAsync. rewrite Hv, Hw.
    apply traceOf_sendAndParse.
  - exact screenshot_marshal.
  - exact pdf_marshal.
  - intros env c opts Hkey Hv Hu. unfold Screenshot. rewrite Hv.
    apply Hfail; [exact Hkey|]. apply screenshot_marshal. exact Hu.
  - intros env c opts Hkey Hv Hu. unfold PDF. rewrite Hv.
    apply Hfail; [exact Hkey|]. apply pdf_marshal. exact Hu.
Qed.

(** C9, as stated, fails: with the URL present, a quality of 101, a negative
    viewport side and a PDF scale of 3 are each rejected locally, before any
    request is sent. *)
Lemma local_validation_checks_counterexample :
  Screenshot (Sample.always Sample.ok) Sample.client
    (Some (Sample.shot "https://example.com" 101 None None))
  = (Sample.client, Returned None (Some ErrInvalidQuality), []) /\
  Screenshot (Sample.always Sample.ok) Sample.client
    (Some (Sample.shot "https://example.com" 80 (Some (Viewport.mk (-1) 600)) None))
  = (Sample.client, Returned None (Some ErrInvalidViewport), []) /\
  PDF (Sample.always Sample.ok) Sample.client
    (Some (Sample.pdf "https://example.com" (3 # 1)%Q None None))
  = (Sample.client,
     Returned None
       (Some (dotError (NewValidationError "scale" "scale must be between 0.1 and 2.0" "range"))),
     []).
Proof. repeat split. Qed.

Lemma local_validation_checks_witness :
  ValidateScreenshotOptions
    (Some (Sample.shot "https://example.com" 80 (Some (Viewport.mk 800 600))
             (Some (Sample.webhook "https://example.com/hook")))) = None /\
  ValidatePDFOptions (Some (Sample.pdf "https://example.com" NaN None None)) = None /\
  PDF (Sample.always Sample.ok) Sample.client
    (Some (Sample.pdf "https://example.com" NaN None None))
  = (Sample.client,
     Returned None
       (Some (Foreign (wrapError "screencraft: failed to marshal request body" jsonUnsupported))),
     []).
Proof.
  destruct local_validation_checks as (_ & _ & Hshot & Hpdf & _ & _ & _ & _ & _ & Hnan).
  assert (Hv : ValidatePDFOptions (Some (Sample.pdf "https://example.com" NaN None None)) = None).
  { apply Hpdf. cbn. split; [discriminate|]. split; [exact I|]. intros v [=]. }
  split; [|split; [exact Hv|]].
  - apply Hshot. cbn. split; [discriminate|]. split; [lia|].
    intros v [= <-]. cbn. lia.
  - apply Hnan; [reflexivity|exact Hv|]. left. reflexivity.
Defined.

(** * Further properties of the code *)

(** ** Calls that send nothing *)

(** X3.  With an empty API key nothing is sent: [doRequest], and each entry
    point once the options have passed local validation, returns
    [ErrMissingAPIKey] and leaves the client as it was.  [SetAPIKey] with the
    empty string puts a client into that state. *)
Theorem missing_api_key env c :
  Client.apiKey c = "" ->
  (forall endpoint body,
     doRequest env c endpoint body = (c, Returned None (Some ErrMissingAPIKey), [])) /\
  (forall opts, ValidateScreenshotOptions (Some opts) = None ->
     Screenshot env c (Some opts) = (c, Returned None (Some ErrMissingAPIKey), []) /\
     (webhookMissing (ScreenshotOptions.Webhook opts) = false ->
      ScreenshotAsync env c (Some opts) = (c, Returned None (Some ErrMissingAPIKey), []))) /\
  (forall opts, ValidatePDFOptions (Some opts) = None ->
     PDF env c (Some opts) = (c, Returned None (Some ErrMissingAPIKey), []) /\
     (webhookMissing (PDFOptions.Webhook opts) = false ->
      PDFAsync env c (Some opts) = (c, Returned None (Some ErrMissingAPIKey), []))) /\
  (forall c', Client.apiKey (SetAPIKey c' "") = "").
Proof.
  intros Hkey.
  assert (Hreq : forall endpoint body,
            doRequest env c endpoint body = (c, Returned None (Some ErrMissingAPIKey), [])).
  { intros endpoint body. unfold doRequest. rewrite Hkey. reflexivity. }
  split; [exact Hreq|]. split; [|split].
  - intros opts Hv. unfold Screenshot, ScreenshotAsync, sendAndParse. rewrite Hv, !Hreq.
    split; [reflexivity|]. intros ->. reflexivity.
  - intros opts Hv. unfold PDF, PDFAsync, sendAndParse. rewrite Hv, !Hreq.
    split; [reflexivity|]. intros ->. reflexivity.
  - intros c'. destruct c'. reflexivity.
Qed.

Lemma missing_api_key_witness :
  Screenshot (Sample.always Sample.ok) Scenario.noKey
    (Some (Sample.shot "https://example.com" 80 None None))
  = (Scenario.noKey, Returned None (Some ErrMissingAPIKey), []).
Proof.
  destruct (missing_api_key (Sample.always Sample.ok) Scenario.noKey eq_refl)
    as (_ & Hshot & _).
  apply Hshot. reflexivity.
Defined.

(** X4.  With a negative [maxRetries] the loop body never runs: [doRequest]
    sends nothing and, unless the body cannot be marshalled, returns neither
    a response nor an error. *)
Theorem negative_max_retries env c endpoint body :
  String.eqb (Client.apiKey c) "" = false ->
  Client.maxRetries c < 0 ->
  doRequest env c endpoint body =
    (c, match marshalError body with
        | Some err => Returned None (Some err)
        | None => Returned None None
        end, []).
Proof.
  intros Hkey Hneg. unfold doRequest. rewrite Hkey.
  destruct (marshalError body); [reflexivity|].
  replace (Z.to_nat (Client.maxRetries c + 1)) with 0%nat by lia. reflexivity.
Qed.

Lemma negative_max_retries_witness :
  doRequest (Sample.always Sample.ok) (New "key" [WithMaxRetries (-1)]) screenshotEndpoint ∅
  = (New "key" [WithMaxRetries (-1)], Returned None None, []).
Proof.
  rewrite (negative_max_retries (Sample.always Sample.ok) (New "key" [WithMaxRetries (-1)])
             screenshotEndpoint ∅); [reflexivity|reflexivity|vm_compute; reflexivity].
Defined.

(** ** The shape of a trace *)

(** X11.  In the trace of any call of [doRequest] with [maxRetries >= 0],
    every request carries the endpoint and the body of the call, the same at
    each attempt; every attempt is numbered below [maxRetries + 1]; the first
    event, if there is one, is a request and not a wait; and the waits are no
    more than the requests. *)
Theorem trace_shape env c endpoint body :
  0 <= Client.maxRetries c ->
  let tr := traceOf (doRequest env c endpoint body) in
  Forall (sentTo endpoint body) tr /\
  Forall (attemptBelow (Client.maxRetries c + 1)) tr /\
  (waitCount tr <= sentCount tr)%nat /\
  (forall ev, head tr = Some ev -> isWait ev = false).
Proof.
  intros Hmax. cbn zeta.
  destruct (doRequest_cases env c endpoint body) as [[-> _]|[-> _]].
  - repeat split; try constructor. intros ev [=].
  - split; [|split; [|split]].
    + constructor; [split; reflexivity|constructor].
    + constructor; [cbn; lia|constructor].
    + cbn. lia.
    + intros ev [= <-]. reflexivity.
Qed.

Lemma trace_shape_witness :
  let tr := traceOf (doRequest (Sample.always (Sample.textResponse 503)) Sample.client
                       pdfEndpoint ∅) in
  Forall (sentTo pdfEndpoint ∅) tr /\ Forall (attemptBelow (3 + 1)) tr /\
  (waitCount tr <= sentCount tr)%nat /\
  (forall ev, head tr = Some ev -> isWait ev = false).
Proof.
  apply (trace_shape (Sample.always (Sample.textResponse 503)) Sample.client pdfEndpoint ∅).
  vm_compute. discriminate.
Defined.

(** ** What the builders write *)

Lemma size_pos_nonzero {V} (m : gmap string V) : (0 <? size m)%nat = true -> (size m =? 0)%nat = false.
Proof. intros H. apply Nat.ltb_lt in H. apply Nat.eqb_neq. lia. Qed.

Lemma f64_positive_nonzero (f : float64) : f64_ltb 0%Q f = true -> f64_eqb f 0%Q = false.
Proof.
  destruct f as [q| | |]; cbn; try reflexivity; try discriminate.
  intros H. destruct (Qeq_bool q 0) eqn:E; [|reflexivity].
  apply Qeq_bool_iff in E. exfalso. revert H. rewrite E. vm_compute. discriminate.
Qed.

Lemma size_insert_nonzero {V} (k : string) (v : V) (m : gmap string V) :
  (size (<[k := v]> m) =? 0)%nat = false.
Proof.
  apply Nat.eqb_neq, (map_size_ne_0_lookup_2 _ k). rewrite lookup_insert_eq. eexists. reflexivity.
Qed.

Lemma webhookMap_url (wh : WebhookConfig.t) :
  webhookMap wh !! "url" = Some (VString (WebhookConfig.URL wh)).
Proof.
  unfold webhookMap. cbv zeta. rewrite !lookup_put_if_ne by discriminate.
  apply lookup_singleton_eq.
Qed.

Lemma size_webhookMap (wh : WebhookConfig.t) : (size (webhookMap wh) =? 0)%nat = false.
Proof.
  apply Nat.eqb_neq, (map_size_ne_0_lookup_2 _ "url"). rewrite webhookMap_url.
  eexists. reflexivity.
Qed.

Ltac in_tags := cbn; repeat first [left; reflexivity | right].

Ltac carries :=
  intros Hurl Hjs; cbn;
  first
    [ exfalso; apply Hurl; reflexivity
    | exfalso; apply Hjs; reflexivity
    | reflexivity
    | match goal with H : nonempty _ = true |- _ => apply negb_true_iff in H; exact H end
    | match goal with H : negb _ = true |- _ => apply negb_true_iff in H; exact H end
    | match goal with H : (0 <? _) = true |- _ => apply Z.ltb_lt in H; apply Z.leb_gt; exact H end
    | match goal with H : (0 <? _)%nat = true |- _ =>
        apply Nat.ltb_lt in H; apply Nat.eqb_neq; lia end
    | match goal with H : f64_ltb _ _ = true |- _ => apply f64_positive_nonzero; exact H end
    | apply size_insert_nonzero
    | apply size_webhookMap ].

Ltac entries :=
  repeat first
    [ apply map_Forall_put_if; [intros ?; split; [in_tags|carries]|]
    | apply map_Forall_insert_2; [split; [in_tags|carries]|]
    | apply map_Forall_empty
    | match goal with
      | |- map_Forall _ (match ?x with Some _ => _ | None => _ end) => destruct x
      end ].

Lemma buildScreenshotRequest_entries (opts : ScreenshotOptions.t) :
  map_Forall (entryOK screenshotKeys) (buildScreenshotRequest opts).
Proof.
  unfold buildScreenshotRequest, put_webhook, put_javascript, put_viewport. cbv zeta.
  entries.
Qed.

Lemma buildPDFRequest_entries (opts : PDFOptions.t) :
  map_Forall (entryOK pdfKeys) (buildPDFRequest opts).
Proof.
  unfold buildPDFRequest, put_webhook, put_javascript, put_viewport. cbv zeta.
  entries.
Qed.

(** X12.  Every key a builder writes is the JSON tag of a field of the options
    struct it reads, and the key [url] always holds the target URL. *)
Theorem body_keys_are_tags (sopts : ScreenshotOptions.t) (popts : PDFOptions.t) :
  (forall k v, buildScreenshotRequest sopts !! k = Some v -> In k screenshotKeys) /\
  (forall k v, buildPDFRequest popts !! k = Some v -> In k pdfKeys) /\
  buildScreenshotRequest sopts !! "url" = Some (Scalar (VString (ScreenshotOptions.URL sopts))) /\
  buildPDFRequest popts !! "url" = Some (Scalar (VString (PDFOptions.URL popts))).
Proof.
  split; [|split; [|split]].
  - intros k v Hk. exact (proj1 (buildScreenshotRequest_entries sopts k v Hk)).
  - intros k v Hk. exact (proj1 (buildPDFRequest_entries popts k v Hk)).
  - apply url_always_present.
  - apply url_always_present.
Qed.

(** X13.  A builder leaves out what carries nothing: apart from [url] (always
    written) and [javascript] (written whenever the pointer is set, also for
    [false]), no entry of a body is an empty string, a number that is not
    positive, [false], or an empty list or object.  So a flag cannot be sent
    as [false], and a quality, delay or timeout of zero is the same as none. *)
Theorem bodies_omit_empty_values (sopts : ScreenshotOptions.t) (popts : PDFOptions.t) :
  forall k v,
    buildScreenshotRequest sopts !! k = Some v \/ buildPDFRequest popts !! k = Some v ->
    k <> "url" -> k <> "javascript" -> emptyValue v = false.
Proof.
  intros k v [Hk | Hk].
  - exact (proj2 (buildScreenshotRequest_entries sopts k v Hk)).
  - exact (proj2 (buildPDFRequest_entries popts k v Hk)).
Qed.

Lemma bodies_omit_empty_values_witness :
  let opts := Sample.shot "https://example.com" 80 None None in
  buildScreenshotRequest opts !! "quality" = Some (Scalar (VInt 80)) /\
  emptyValue (Scalar (VInt 80)) = false.
Proof.
  split; [reflexivity|].
  apply (bodies_omit_empty_values (Sample.shot "https://example.com" 80 None None)
           (Sample.pdf "https://example.com" (0 # 1) None None) "quality" (Scalar (VInt 80))).
  - left. reflexivity.
  - discriminate.
  - discriminate.
Defined.

(** ** What the entry points send *)

Lemma doRequest_sentTo env c endpoint body :
  Forall (sentTo endpoint body) (traceOf (doRequest env c endpoint body)).
Proof.
  destruct (doRequest_cases env c endpoint body) as [[-> _]|[-> _]]; [constructor|].
  constructor; [split; reflexivity|constructor].
Qed.

Lemma validated_screenshot_url (opts : ScreenshotOptions.t) :
  ValidateScreenshotOptions (Some opts) = None -> ScreenshotOptions.URL opts <> "".
Proof.
  cbn. destruct (String.eqb _ _) eqn:E; [discriminate|]. intros _. apply eqb_empty_false. exact E.
Qed.

Lemma validated_pdf_url (opts : PDFOptions.t) :
  ValidatePDFOptions (Some opts) = None -> PDFOptions.URL opts <> "".
Proof.
  cbn. destruct (String.eqb _ _) eqn:E; [discriminate|]. intros _. apply eqb_empty_false. exact E.
Qed.

Lemma webhook_reaches_body (wh : option WebhookConfig.t) (req : gmap string value) :
  webhookMissing wh = false ->
  exists m u, put_webhook wh req !! "webhook" = Some (VMap m) /\
              m !! "url" = Some (VString u) /\ u <> "".
Proof.
  destruct wh as [wh|]; [|discriminate]. cbn. intros Hurl.
  exists (webhookMap wh), (WebhookConfig.URL wh).
  split; [apply lookup_insert_eq|]. split; [apply webhookMap_url|].
  apply eqb_empty_false. exact Hurl.
Qed.

(** X14.  Whatever the server answers and however often the loop retries,
    every request of a capture call goes to the endpoint of the call
    ([/screenshot] or [/pdf]) with a body whose [url] is the non-empty target
    URL of the options; every request of an asynchronous call names, besides,
    a webhook with a non-empty URL. *)
Theorem requests_carry_target env c :
  (forall opts,
     Forall (carriesURL screenshotEndpoint (ScreenshotOptions.URL opts))
       (traceOf (Screenshot env c (Some opts)))) /\
  (forall opts,
     Forall (carriesURL pdfEndpoint (PDFOptions.URL opts)) (traceOf (PDF env c (Some opts)))) /\
  (forall opts,
     let tr := traceOf (ScreenshotAsync env c (Some opts)) in
     Forall (carriesURL screenshotEndpoint (ScreenshotOptions.URL opts)) tr /\
     Forall carriesWebhook tr) /\
  (forall opts,
     let tr := traceOf (PDFAsync env c (Some opts)) in
     Forall (carriesURL pdfEndpoint (PDFOptions.URL opts)) tr /\ Forall carriesWebhook tr).
Proof.
  assert (Hs : forall opts, ValidateScreenshotOptions (Some opts) = None ->
            Forall (carriesURL screenshotEndpoint (ScreenshotOptions.URL opts))
              (traceOf (doRequest env c screenshotEndpoint (buildScreenshotRequest opts)))).
  { intros opts Hv. eapply Forall_impl; [apply doRequest_sentTo|].
    intros [a w|a w|a ep b]; cbn; try exact (fun _ => I). intros [-> ->].
    split; [reflexivity|]. split; [apply url_always_present|].
    apply validated_screenshot_url. exact Hv. }
  assert (Hp : forall opts, ValidatePDFOptions (Some opts) = None ->
            Forall (carriesURL pdfEndpoint (PDFOptions.URL opts))
              (traceOf (doRequest env c pdfEndpoint (buildPDFRequest opts)))).
  { intros opts Hv. eapply Forall_impl; [apply doRequest_sentTo|].
    intros [a w|a w|a ep b]; cbn; try exact (fun _ => I). intros [-> ->].
    split; [reflexivity|]. split; [apply url_always_present|].
    apply validated_pdf_url. exact Hv. }
  split; [|split; [|split]]; intros opts; cbn zeta.
  - unfold Screenshot. destruct (ValidateScreenshotOptions (Some opts)) eqn:Hv; [constructor|].
    rewrite traceOf_sendAndParse. apply Hs. exact Hv.
  - unfold PDF. destruct (ValidatePDFOptions (Some opts)) eqn:Hv; [constructor|].
    rewrite traceOf_sendAndParse. apply Hp. exact Hv.
  - unfold ScreenshotAsync.
    destruct (ValidateScreenshotOptions (Some opts)) eqn:Hv; [split; constructor|].
    destruct (webhookMissing _) eqn:Hw; [split; constructor|].
    rewrite traceOf_sendAndParse. split; [apply Hs; exact Hv|].
    eapply Forall_impl; [apply doRequest_sentTo|].
    intros [a w|a w|a ep b]; cbn; try exact (fun _ => I). intros [_ ->].
    unfold buildScreenshotRequest. cbv zeta. apply webhook_reaches_body. exact Hw.
  - unfold PDFAsync.
    destruct (ValidatePDFOptions (Some opts)) eqn:Hv; [split; constructor|].
    destruct (webhookMissing _) eqn:Hw; [split; constructor|].
    rewrite traceOf_sendAndParse. split; [apply Hp; exact Hv|].
    eapply Forall_impl; [apply doRequest_sentTo|].
    intros [a w|a w|a ep b]; cbn; try exact (fun _ => I). intros [_ ->].
    unfold buildPDFRequest. cbv zeta. apply webhook_reaches_body. exact Hw.
Qed.

(** ** The error factory of the Node SDK *)

Ltac status_cases status :=
  repeat match goal with
         | |- context [status =? ?n] => destruct (Z.eqb_spec status n); try (exfalso; lia)
         | |- context [?n <=? status] => destruct (Z.leb_spec n status); try (exfalso; lia)
         | |- context [status <? ?n] => destruct (Z.ltb_spec status n); try (exfalso; lia)
         end.

(** X19.  What [createErrorFromResponse] makes of a status.  The class and
    the code depend on the status alone (the code of the server's error
    response is never used).  A [ServerError] is made of 500, 502, 503 and
    504 only: any other status outside 400..499, for instance 501, gives an
    [UnknownError], the one class without a status code.  The status code of
    the error is the status of the response, except that 403 is reported as
    401.  The rate-limit information is attached to a 429 only, and the
    message is never empty. *)
Theorem node_error_factory (status : Z) (r : option NodeSDK.ErrorResponse)
    (rl : option NodeSDK.RateLimitInfo) :
  let e := NodeSDK.createErrorFromResponse status r rl in
  (forall r' rl',
     NodeSDK.name (NodeSDK.createErrorFromResponse status r' rl') = NodeSDK.name e /\
     NodeSDK.errCode (NodeSDK.createErrorFromResponse status r' rl') = NodeSDK.errCode e) /\
  (NodeSDK.name e = NodeSDK.ServerError <-> isServerStatus status = true) /\
  (NodeSDK.name e = NodeSDK.UnknownError <->
     (status < 400 \/ 500 <= status) /\ isServerStatus status = false) /\
  (NodeSDK.name e = NodeSDK.UnknownError <-> NodeSDK.statusCode e = None) /\
  (forall s, NodeSDK.statusCode e = Some s -> s = status \/ (status = 403 /\ s = 401)) /\
  NodeSDK.rateLimitInfo e = (if status =? 429 then rl else None) /\
  NodeSDK.errMessage e <> "".
Proof.
  cbn zeta. unfold NodeSDK.createErrorFromResponse, isServerStatus.
  split; [|split; [|split; [|split; [|split; [|split]]]]].
  - intros r' rl'. status_cases status; cbn; split; reflexivity.
  - status_cases status; cbn; split; intros Hx; try discriminate Hx; try reflexivity; lia.
  - status_cases status; cbn; split; intros Hx; try discriminate Hx; try reflexivity;
      try (match type of Hx with
           | _ /\ _ => destruct Hx as [Hx1 Hx2]; first [discriminate Hx2 | lia]
           end);
      try (split; [lia|reflexivity]).
  - status_cases status; cbn; split; intros Hx; try discriminate Hx; reflexivity.
  - intros s. status_cases status; cbn; intros [= <-]; try (left; congruence); auto.
  - status_cases status; cbn; reflexivity.
  - assert (Hmsg : forall m : string,
              (if String.eqb m "" then "An unknown error occurred" else m) <> "").
    { intros m. destruct (String.eqb_spec m ""); [discriminate|assumption]. }
    destruct r as [r|]; status_cases status; cbn; try apply Hmsg; discriminate.
Qed.

(** ** The options of [New] *)

Lemma fold_applyOption (opts : list Option) :
  forall c,
    let c' := fold_left applyOption opts c in
    Client.apiKey c' = Client.apiKey c /\
    Client.maxRetries c' = default (Client.maxRetries c) (last (omap maxRetriesOf opts)) /\
    (Client.retryWaitMin c', Client.retryWaitMax c')
    = default (Client.retryWaitMin c, Client.retryWaitMax c) (last (omap retryWaitOf opts)).
Proof.
  induction opts as [|opt opts IH]; intros c; cbn zeta; [repeat split|].
  cbn [fold_left]. destruct (IH (applyOption c opt)) as (Hk & Hm & Hw).
  cbn zeta in Hk, Hm, Hw. rewrite Hk, Hm, Hw.
  destruct c, opt; cbn; rewrite ?last_cons;
    repeat match goal with |- context [last ?l] => destruct (last l) end; repeat split.
Qed.

(** X21.  [New] applies its options in order, so of several options that set
    the same field the last one counts: [maxRetries] is the argument of the
    last [WithMaxRetries], or 3 without one, and the two waits are those of
    the last [WithRetryWait], or one and thirty seconds.  The values are
    taken as given, negative ones too, and no option changes the API key. *)
Theorem options_in_order (apiKey : string) (opts : list Option) :
  let c := New apiKey opts in
  Client.apiKey c = apiKey /\
  Client.maxRetries c = default DefaultMaxRetries (last (omap maxRetriesOf opts)) /\
  (Client.retryWaitMin c, Client.retryWaitMax c)
  = default (DefaultRetryWaitMin, DefaultRetryWaitMax) (last (omap retryWaitOf opts)).
Proof. cbn zeta. unfold New. apply fold_applyOption. Qed.


(** ** The client after a call *)

Lemma withSnapshot_same (c : Client.t) : withSnapshot c (Client.lastRateLimit c) = c.
Proof. destruct c. reflexivity. Qed.

Lemma parseRateLimitHeaders_withSnapshot (c : Client.t) (resp : Response.t) :
  parseRateLimitHeaders c resp
  = withSnapshot c (if rateLimitSeen resp then Some (snapshotOf resp) else Client.lastRateLimit c).
Proof.
  unfold parseRateLimitHeaders, rateLimitSeen, snapshotOf.
  destruct (_ || _); destruct c; reflexivity.
Qed.

Lemma snapshotOnly_refl env c : snapshotOnly env c c.
Proof. exists (Client.lastRateLimit c). split; [symmetry; apply withSnapshot_same|left; reflexivity]. Qed.

Lemma snapshotOnly_step env c a resp c' :
  roundTrip (env a) = DoResponse resp ->
  snapshotOnly env (parseRateLimitHeaders c resp) c' -> snapshotOnly env c c'.
Proof.
  intros Hrt Hc'. unfold snapshotOnly, GetRateLimitInfo in *.
  rewrite parseRateLimitHeaders_withSnapshot in Hc'. destruct Hc' as (rl & -> & Hrl).
  exists rl. split; [destruct c; reflexivity|].
  destruct Hrl as [-> | Hrl]; [|right; exact Hrl].
  destruct (rateLimitSeen resp) eqn:Hseen.
  - right. exists a, resp. split; [exact Hrt|]. split; [exact Hseen|]. destruct c. reflexivity.
  - left. destruct c. reflexivity.
Qed.

Lemma doRequest_snapshotOnly env c endpoint body :
  snapshotOnly env c (clientOf (doRequest env c endpoint body)).
Proof.
  destruct (doRequest_cases env c endpoint body) as [[_ ->]|[_ [->|(resp & Hrt & ->)]]];
    try apply snapshotOnly_refl.
  apply (snapshotOnly_step env c 0%nat resp _ Hrt). apply snapshotOnly_refl.
Qed.

(** X23.  A call changes nothing of the client but the rate-limit snapshot:
    the key, the base URL, the timeout, the retry settings, the user agent
    and the logging settings are after the call what they were before, for
    [doRequest] and for the four entry points, however the call ends.  The
    snapshot is the old one, or the values read from one of the responses of
    the call that carried a positive value. *)
Theorem call_changes_only_snapshot env c :
  (forall endpoint body, snapshotOnly env c (clientOf (doRequest env c endpoint body))) /\
  (forall opts, snapshotOnly env c (clientOf (Screenshot env c opts))) /\
  (forall opts, snapshotOnly env c (clientOf (ScreenshotAsync env c opts))) /\
  (forall opts, snapshotOnly env c (clientOf (PDF env c opts))) /\
  (forall opts, snapshotOnly env c (clientOf (PDFAsync env c opts))).
Proof.
  split; [intros endpoint body; apply doRequest_snapshotOnly|].
  repeat split; intros opts; entry_cases opts;
    rewrite ?clientOf_sendAndParse;
    first [apply doRequest_snapshotOnly | apply snapshotOnly_refl].
Qed.

(** ** The convenience methods *)

Lemma put_if_false {V} (cond : bool) (k : string) (v : V) (req : gmap string V) :
  cond = false -> put_if cond k v req = req.
Proof. intros ->. reflexivity. Qed.

(** X25.  The parameters of the convenience methods are not checked, and one
    that carries nothing is dropped without notice: a delay that is not
    positive makes [ScreenshotWithDelay] the same call as [ScreenshotURL];
    nil margins, or margins whose four sides are empty, make
    [PDFWithMargins] the same call as [PDFA4], and so does an empty page
    range for [PDFPageRange].  Only the URL is checked: with an empty one
    every convenience method fails with [ErrMissingURL] before any request. *)
Theorem convenience_methods env c :
  (forall url delayMs, delayMs <= 0 ->
     ScreenshotWithDelay env c url delayMs = ScreenshotURL env c url) /\
  (forall url,
     PDFWithMargins env c url None = PDFA4 env c url /\
     PDFWithMargins env c url (Some (PDFMargin.mk "" "" "" "")) = PDFA4 env c url /\
     PDFPageRange env c url "" = PDFA4 env c url) /\
  (forall format delayMs,
     let failed R : outcome R := (c, Returned None (Some ErrMissingURL), []) in
     ScreenshotURL env c "" = failed _ /\ ScreenshotFullPage env c "" format = failed _ /\
     ScreenshotMobile env c "" = failed _ /\ ScreenshotDesktop env c "" = failed _ /\
     ScreenshotWithDelay env c "" delayMs = failed _ /\
     ScreenshotWithCookieConsent env c "" = failed _) /\
  (forall format margins headerHTML footerHTML pageRanges,
     let failed R : outcome R := (c, Returned None (Some ErrMissingURL), []) in
     PDFURL env c "" = failed _ /\ PDFA4 env c "" = failed _ /\ PDFLetter env c "" = failed _ /\
     PDFLandscape env c "" format = failed _ /\ PDFWithMargins env c "" margins = failed _ /\
     PDFWithHeaderFooter env c "" headerHTML footerHTML = failed _ /\
     PDFPageRange env c "" pageRanges = failed _ /\ PDFWithCookieConsent env c "" = failed _).
Proof.
  split; [|split; [|split]].
  - intros url delayMs Hd. unfold ScreenshotWithDelay, ScreenshotURL, Screenshot.
    cbn [ValidateScreenshotOptions ScreenshotOptions.URL ScreenshotOptions.Quality
         ScreenshotOptions.Viewport viewportNegative Z.ltb Z.compare orb].
    destruct (String.eqb url ""); [reflexivity|].
    unfold buildScreenshotRequest. cbn.
    rewrite (put_if_false (0 <? delayMs)) by (apply Z.ltb_ge; exact Hd). reflexivity.
  - intros url. repeat split; reflexivity.
  - intros format delayMs. repeat split; reflexivity.
  - intros format margins headerHTML footerHTML pageRanges. repeat split; reflexivity.
Qed.

Lemma convenience_methods_witness :
  ScreenshotWithDelay Scenario.unreachable Sample.client "https://example.com" (-250)
  = ScreenshotURL Scenario.unreachable Sample.client "https://example.com".
Proof.
  destruct (convenience_methods Scenario.unreachable Sample.client) as (H & _).
  apply H. lia.
Defined.
(** ** Classification of responses and errors *)

(** X5.  What [parseErrorResponse] makes of a response.  It returns a pointer
    to a typed struct exactly when the body decodes and the status is 401,
    429, 400, 500, 502, 503 or 504: an [AuthenticationError], a
    [RateLimitError], a [ValidationError] and a [ServerError] in that order
    (never a [TimeoutError] or a [NetworkError]).  In every other case it
    returns a plain [*Error]; the [*Error] returned or embedded carries the
    status of the response, and [IsRetryable] answers for a returned [*Error]
    by that status: yes for 429, 500, 502, 503 and 504. *)
Theorem retry_by_status (resp : Response.t) :
  ((exists t, parseErrorResponse resp = ReturnsTyped t) <->
   decodes resp = true /\ isTypedStatus (Response.StatusCode resp) = true) /\
  match parseErrorResponse resp with
  | ReturnsError e =>
      exists sc, e = PError sc /\ Error.StatusCode sc = Response.StatusCode resp /\
                 IsRetryable (Some e) = Ok (isRetryableStatus (Response.StatusCode resp))
  | ReturnsTyped t =>
      Error.StatusCode (embedded t) = Response.StatusCode resp /\
      match t with
      | PAuthenticationError _ => Response.StatusCode resp = 401
      | PRateLimitError _ _ _ _ _ => Response.StatusCode resp = 429
      | PValidationError _ _ _ => Response.StatusCode resp = 400
      | PServerError _ => isServerStatus (Response.StatusCode resp) = true
      | PTimeoutError _ _ | PNetworkError _ => False
      end
  end.
Proof.
  split; [apply parseErrorResponse_typed|].
  destruct (parseErrorResponse resp) as [e|t] eqn:E.
  - destruct (parseErrorResponse_error resp e E) as (sc & -> & Hsc).
    exists sc. split; [reflexivity|]. split; [exact Hsc|].
    rewrite IsRetryable_PError, Error_IsRetryable_status, Hsc. reflexivity.
  - revert E. unfold parseErrorResponse, isServerStatus, StatusUnauthorized,
      StatusTooManyRequests, StatusBadRequest, StatusInternalServerError, StatusBadGateway,
      StatusServiceUnavailable, StatusGatewayTimeout.
    destruct (Response.Body resp) as [err|raw [apiResp|]]; try discriminate.
    destruct (Z.eqb_spec (Response.StatusCode resp) 401);
      [intros [= <-]; split; [destruct (APIResponse.Error apiResp); reflexivity|assumption]|].
    destruct (Z.eqb_spec (Response.StatusCode resp) 429);
      [intros [= <-]; split; [destruct (APIResponse.Error apiResp); reflexivity|assumption]|].
    destruct (Z.eqb_spec (Response.StatusCode resp) 400);
      [intros [= <-]; split; [destruct (APIResponse.Error apiResp); reflexivity|assumption]|].
    destruct (_ || _) eqn:Hs; [|discriminate].
    intros [= <-]. split; [destruct (APIResponse.Error apiResp); reflexivity|reflexivity].
Qed.

(** X6.  A first response with a status of 400 or more that
    [parseErrorResponse] returns as a [*Error] and whose status is not one of
    429, 500, 502, 503 and 504 ends the call at once, whatever [maxRetries]
    is: [doRequest] and the four entry points return that error after the one
    request. *)
Theorem other_status_ends_call env c resp e :
  roundTrip (env 0%nat) = DoResponse resp ->
  400 <= Response.StatusCode resp ->
  isRetryableStatus (Response.StatusCode resp) = false ->
  parseErrorResponse resp = ReturnsError e ->
  (forall endpoint body, sendsFirst env c body ->
     doRequest env c endpoint body
     = (parseRateLimitHeaders c resp, Returned None (Some e), [Sent 0 endpoint body])) /\
  (forall opts,
     ValidateScreenshotOptions (Some opts) = None ->
     sendsFirst env c (buildScreenshotRequest opts) ->
     Screenshot env c (Some opts)
     = (parseRateLimitHeaders c resp, Returned None (Some e),
        [Sent 0 screenshotEndpoint (buildScreenshotRequest opts)]) /\
     (webhookMissing (ScreenshotOptions.Webhook opts) = false ->
      ScreenshotAsync env c (Some opts)
      = (parseRateLimitHeaders c resp, Returned None (Some e),
         [Sent 0 screenshotEndpoint (buildScreenshotRequest opts)]))) /\
  (forall opts,
     ValidatePDFOptions (Some opts) = None ->
     sendsFirst env c (buildPDFRequest opts) ->
     PDF env c (Some opts)
     = (parseRateLimitHeaders c resp, Returned None (Some e),
        [Sent 0 pdfEndpoint (buildPDFRequest opts)]) /\
     (webhookMissing (PDFOptions.Webhook opts) = false ->
      PDFAsync env c (Some opts)
      = (parseRateLimitHeaders c resp, Returned None (Some e),
         [Sent 0 pdfEndpoint (buildPDFRequest opts)]))).
Proof.
  intros Hrt Hst Hno Hparse.
  assert (Hdo : forall endpoint body, sendsFirst env c body ->
            doRequest env c endpoint body
            = (parseRateLimitHeaders c resp, Returned None (Some e), [Sent 0 endpoint body])).
  { intros endpoint body Hsends.
    destruct (doRequest_error env c endpoint body resp e Hsends Hrt Hst Hparse) as [_ H].
    rewrite Hno in H. exact H. }
  split; [exact Hdo|]. split.
  - intros opts Hv Hsends. unfold Screenshot, ScreenshotAsync. rewrite Hv.
    split; [apply sendAndParse_error, Hdo; exact Hsends|].
    intros ->. apply sendAndParse_error, Hdo. exact Hsends.
  - intros opts Hv Hsends. unfold PDF, PDFAsync. rewrite Hv.
    split; [apply sendAndParse_error, Hdo; exact Hsends|].
    intros ->. apply sendAndParse_error, Hdo. exact Hsends.
Qed.

Lemma other_status_ends_call_witness :
  Screenshot (Sample.always (Sample.jsonResponse 404)) Sample.client
    (Some (Sample.shot "https://example.com" 80 None None))
  = (Sample.client, Returned None (Some (PError (Error.mk 404 "E" "failed" None "" None))),
     [Sent 0 screenshotEndpoint
        (buildScreenshotRequest (Sample.shot "https://example.com" 80 None None))]).
Proof.
  destruct (other_status_ends_call (Sample.always (Sample.jsonResponse 404)) Sample.client
              (Sample.jsonResponse 404) (PError (Error.mk 404 "E" "failed" None "" None)))
    as (_ & H & _); [reflexivity|cbn; lia|reflexivity|reflexivity|].
  apply H; [reflexivity|sends_first].
Defined.

(** X8.  The errors of local validation and the helpers.  A validator returns
    one of the sentinel errors or, for a PDF scale out of range, the [*Error]
    embedded in a [ValidationError]; the asynchronous entry points return
    such a [*Error] for a missing webhook.  [IsValidationError] panics on
    each of them, as on every non-nil error.  [IsRetryable] panics on the
    sentinels and answers no for the two [*Error] values, whose status is
    400. *)
Theorem local_errors_untyped :
  (forall opts e,
     ValidateScreenshotOptions opts = Some e ->
     (e = ErrMissingURL \/ e = ErrInvalidQuality \/ e = ErrInvalidViewport) /\
     IsRetryable (Some e) = Panic /\ IsValidationError (Some e) = Panic) /\
  (forall opts e,
     ValidatePDFOptions opts = Some e ->
     IsValidationError (Some e) = Panic /\
     (((e = ErrMissingURL \/ e = ErrInvalidViewport) /\ IsRetryable (Some e) = Panic) \/
      (e = dotError (NewValidationError "scale" "scale must be between 0.1 and 2.0" "range") /\
       IsRetryable (Some e) = Ok false))) /\
  IsValidationError (Some webhookRequired) = Panic /\
  IsRetryable (Some webhookRequired) = Ok false /\
  (exists sc, webhookRequired = PError sc /\ Error.StatusCode sc = 400).
Proof.
  split; [|split; [|split; [|split]]].
  - intros [opts|] e; cbn.
    + destruct (String.eqb _ _); [intros [= <-]; repeat split; auto|].
      destruct (_ || _); [intros [= <-]; repeat split; auto|].
      destruct (viewportNegative _); [intros [= <-]; repeat split; auto|discriminate].
    + intros [= <-]. repeat split; auto.
  - intros [opts|] e; cbn.
    + destruct (String.eqb _ _); [intros [= <-]; split; [reflexivity|left; auto]|].
      destruct (negb _ && _); [intros [= <-]; split; [reflexivity|right; split; reflexivity]|].
      destruct (viewportNegative _); [intros [= <-]; split; [reflexivity|left; auto]|discriminate].
    + intros [= <-]. split; [reflexivity|left; auto].
  - reflexivity.
  - reflexivity.
  - eexists. split; reflexivity.
Qed.

Lemma local_errors_untyped_witness :
  IsRetryable (Some ErrInvalidQuality) = Panic /\
  IsValidationError (Some ErrInvalidQuality) = Panic.
Proof.
  destruct local_errors_untyped as (H & _).
  destruct (H (Some (Sample.shot "https://example.com" 101 None None)) ErrInvalidQuality eq_refl)
    as (_ & Hr & Hv).
  split; [exact Hr|exact Hv].
Defined.

Lemma doRequest_endings env c endpoint body :
  0 <= Client.maxRetries c ->
  match resultOf (doRequest env c endpoint body) with
  | Returned (Some resp) None =>
      roundTrip (env 0%nat) = DoResponse resp /\ Response.StatusCode resp < 400
  | Returned None (Some e) =>
      (exists f, e = Foreign f) \/
      (exists resp, roundTrip (env 0%nat) = DoResponse resp /\
                    400 <= Response.StatusCode resp /\ parseErrorResponse resp = ReturnsError e)
  | Returned _ _ => False
  | Panicked =>
      exists resp e, roundTrip (env 0%nat) = DoResponse resp /\
                     parseErrorResponse resp = ReturnsError e /\
                     isRetryableStatus (Response.StatusCode resp) = true /\
                     1 <= Client.maxRetries c
  | IllTyped t =>
      (exists err, roundTrip (env 0%nat) = DoError err /\ t = NewNetworkError (Foreign err)) \/
      (exists resp, roundTrip (env 0%nat) = DoResponse resp /\
                    400 <= Response.StatusCode resp /\ parseErrorResponse resp = ReturnsTyped t)
  end.
Proof.
  intros Hmax. unfold doRequest.
  destruct (String.eqb _ _); [left; eexists; reflexivity|].
  unfold marshalError. destruct (marshalFails body); [left; eexists; reflexivity|].
  replace (Z.to_nat (Client.maxRetries c + 1)) with (S (Z.to_nat (Client.maxRetries c))) by lia.
  rewrite attemptLoop_first.
  destruct (newRequest (env 0%nat)); [left; eexists; reflexivity|].
  rewrite resultOf_emit.
  destruct (roundTrip (env 0%nat)) as [err|resp]; [left; eexists; split; reflexivity|].
  cbn zeta. destruct (Z.leb_spec 400 (Response.StatusCode resp)) as [Hst|Hst];
    [|split; [reflexivity|exact Hst]].
  destruct (parseErrorResponse resp) as [e|t] eqn:Hparse;
    [|right; exists resp; repeat split; assumption].
  destruct (parseErrorResponse_error resp e Hparse) as (sc & -> & Hsc).
  rewrite IsRetryable_PError, Error_IsRetryable_status, Hsc.
  assert (Herr : (exists f, PError sc = Foreign f) \/
                 (exists resp', DoResponse resp = DoResponse resp' /\
                    400 <= Response.StatusCode resp' /\
                    parseErrorResponse resp' = ReturnsError (PError sc))).
  { right. exists resp. repeat split; assumption. }
  destruct (isRetryableStatus (Response.StatusCode resp)) eqn:Hre; [|exact Herr].
  destruct (Z.eqb_spec 0 (Client.maxRetries c)) as [Hz|Hz]; [exact Herr|].
  cbn [negb orb]. destruct (Z.to_nat (Client.maxRetries c)) eqn:Hn; [lia|].
  exists resp, (PError sc). repeat split; try assumption. lia.
Qed.

(** X10.  How a call of [doRequest] with [maxRetries >= 0] ends.  It returns
    a response of status below 400 and no error, the response to its first
    request; or an error and no response: a foreign error (the missing key,
    the failure to marshal the body or to build the request) or the [*Error]
    parsed from the first response; or it panics, which happens only on
    the way to a retry, after a first response that is a retryable [*Error];
    or it comes to one of the two statements that do not type-check, after a
    transport failure or a response that [parseErrorResponse] turns into a
    typed struct.  It never returns both or neither. *)
Theorem response_or_error env c endpoint body :
  0 <= Client.maxRetries c ->
  match resultOf (doRequest env c endpoint body) with
  | Returned (Some resp) None =>
      roundTrip (env 0%nat) = DoResponse resp /\ Response.StatusCode resp < 400
  | Returned None (Some e) =>
      (exists f, e = Foreign f) \/
      (exists resp, roundTrip (env 0%nat) = DoResponse resp /\
                    400 <= Response.StatusCode resp /\ parseErrorResponse resp = ReturnsError e)
  | Returned _ _ => False
  | Panicked =>
      exists resp e, roundTrip (env 0%nat) = DoResponse resp /\
                     parseErrorResponse resp = ReturnsError e /\
                     isRetryableStatus (Response.StatusCode resp) = true /\
                     1 <= Client.maxRetries c
  | IllTyped t =>
      (exists err, roundTrip (env 0%nat) = DoError err /\ t = NewNetworkError (Foreign err)) \/
      (exists resp, roundTrip (env 0%nat) = DoResponse resp /\
                    400 <= Response.StatusCode resp /\ parseErrorResponse resp = ReturnsTyped t)
  end.
Proof. apply doRequest_endings. Qed.

Lemma response_or_error_witness :
  resultOf (doRequest (Sample.always Sample.ok) Sample.client screenshotEndpoint ∅)
  = Returned (Some Sample.ok) None /\
  roundTrip (Sample.always Sample.ok 0%nat) = DoResponse Sample.ok /\
  Response.StatusCode Sample.ok < 400.
Proof.
  pose proof (response_or_error (Sample.always Sample.ok) Sample.client screenshotEndpoint ∅
                ltac:(vm_compute; discriminate)) as H.
  split; [reflexivity|]. exact H.
Defined.

(** ** What the entry points return *)

Lemma returnsOne_readAPIResponse {R} (P : R -> Prop) (f : APIResponse.t -> R) (resp : Response.t) :
  (forall a, P (f a)) ->
  let parsed := match readAPIResponse resp with
                | inl apiResp => (Some (f apiResp), None)
                | inr err => (None, Some err)
                end in
  returnsOne P (Returned (fst parsed) (snd parsed)).
Proof. intros HP. cbn zeta. destruct (readAPIResponse resp) as [a|e]; [apply HP|exact I]. Qed.

Lemma returnsOne_sendAndParse {R} (P : R -> Prop) env c endpoint body
    (parse : Response.t -> option R * option error) :
  0 <= Client.maxRetries c ->
  (forall resp, returnsOne P (Returned (fst (parse resp)) (snd (parse resp)))) ->
  returnsOne P (resultOf (sendAndParse env c endpoint body parse)).
Proof.
  intros Hmax Hparse. rewrite resultOf_sendAndParse.
  pose proof (doRequest_endings env c endpoint body Hmax) as H.
  destruct (resultOf (doRequest env c endpoint body)) as [[resp|] [e|]| |t];
    try exact I; try contradiction.
  apply Hparse.
Qed.

(** X15.  What the entry points return.  With [maxRetries >= 0] each of them,
    for all options (also nil) and whatever the server does, returns exactly
    one of a result and an error, unless it panics or comes to a statement
    that does not type-check; a result of a synchronous call names the URL of
    the options.  The parsers fix the rest of a result.  A response whose
    content type is not [application/json] and whose body can be read gives
    that body as data, with the content type of the response and the
    dimensions or page count of its headers (zero for an absent or malformed
    header) and no job identifier.  A JSON response with [success] set gives
    a result without data and content type, with the job identifier of the
    response, which may be empty; for an asynchronous call it gives that
    identifier. *)
Theorem capture_returns env c :
  0 <= Client.maxRetries c ->
  (forall opts,
     returnsOne
       (fun res => exists o, opts = Some o /\ ScreenshotResult.URL res = ScreenshotOptions.URL o)
       (resultOf (Screenshot env c opts))) /\
  (forall opts,
     returnsOne
       (fun res => exists o, opts = Some o /\ PDFResult.URL res = PDFOptions.URL o)
       (resultOf (PDF env c opts))) /\
  (forall opts, returnsOne (fun _ => True) (resultOf (ScreenshotAsync env c opts))) /\
  (forall opts, returnsOne (fun _ => True) (resultOf (PDFAsync env c opts))) /\
  (forall resp url data d,
     Header_Get (Response.Header resp) "Content-Type" <> "application/json" ->
     Response.Body resp = ReadBytes data d ->
     parseScreenshotResponse resp url
     = (Some (ScreenshotResult.mk data (Header_Get (Response.Header resp) "Content-Type") url
                (headerInt resp "X-Image-Width") (headerInt resp "X-Image-Height") ""), None) /\
     parsePDFResponse resp url
     = (Some (PDFResult.mk data (Header_Get (Response.Header resp) "Content-Type") url
                (headerInt resp "X-PDF-Pages") ""), None)) /\
  (forall resp url raw a,
     Response.Body resp = ReadBytes raw (Some a) -> APIResponse.Success a = true ->
     parseAsync resp = (Some (APIResponse.JobID a), None) /\
     (Header_Get (Response.Header resp) "Content-Type" = "application/json" ->
      parseScreenshotResponse resp url
      = (Some (ScreenshotResult.mk "" "" url 0 0 (APIResponse.JobID a)), None) /\
      parsePDFResponse resp url = (Some (PDFResult.mk "" "" url 0 (APIResponse.JobID a)), None))) /\
  (forall resp key,
     headerInt resp key
     = match Response.Header resp !! key with
       | Some h => if snd (Atoi h) then fst (Atoi h) else 0
       | None => 0
       end).
Proof.
  intros Hmax.
  split; [|split; [|split; [|split; [|split; [|split]]]]].
  - intros [opts|]; [|exact I]. unfold Screenshot.
    destruct (ValidateScreenshotOptions (Some opts)); [exact I|].
    apply returnsOne_sendAndParse; [exact Hmax|]. intros resp. unfold parseScreenshotResponse.
    destruct (String.eqb _ _).
    + apply (returnsOne_readAPIResponse _
               (fun a => ScreenshotResult.mk "" "" (ScreenshotOptions.URL opts) 0 0
                           (APIResponse.JobID a))).
      intros a. eexists. split; reflexivity.
    + destruct (Response.Body resp) as [err|data d]; [exact I|]. eexists. split; reflexivity.
  - intros [opts|]; [|exact I]. unfold PDF.
    destruct (ValidatePDFOptions (Some opts)); [exact I|].
    apply returnsOne_sendAndParse; [exact Hmax|]. intros resp. unfold parsePDFResponse.
    destruct (String.eqb _ _).
    + apply (returnsOne_readAPIResponse _
               (fun a => PDFResult.mk "" "" (PDFOptions.URL opts) 0 (APIResponse.JobID a))).
      intros a. eexists. split; reflexivity.
    + destruct (Response.Body resp) as [err|data d]; [exact I|]. eexists. split; reflexivity.
  - intros [opts|]; [|exact I]. unfold ScreenshotAsync.
    destruct (ValidateScreenshotOptions (Some opts)); [exact I|].
    destruct (webhookMissing _); [exact I|].
    apply returnsOne_sendAndParse; [exact Hmax|]. intros resp. unfold parseAsync.
    apply (returnsOne_readAPIResponse _ APIResponse.JobID). intros a. exact I.
  - intros [opts|]; [|exact I]. unfold PDFAsync.
    destruct (ValidatePDFOptions (Some opts)); [exact I|].
    destruct (webhookMissing _); [exact I|].
    apply returnsOne_sendAndParse; [exact Hmax|]. intros resp. unfold parseAsync.
    apply (returnsOne_readAPIResponse _ APIResponse.JobID). intros a. exact I.
  - intros resp url data d Hct Hbody. apply String.eqb_neq in Hct.
    unfold parseScreenshotResponse, parsePDFResponse. rewrite Hct, Hbody. split; reflexivity.
  - intros resp url raw a Hbody Hok.
    unfold parseAsync, parseScreenshotResponse, parsePDFResponse, readAPIResponse.
    rewrite Hbody, Hok. split; [reflexivity|]. intros ->. split; reflexivity.
  - intros resp key. unfold headerInt, Header_Get, nonempty.
    destruct (Response.Header resp !! key) as [h|]; cbn; [|reflexivity].
    destruct (String.eqb_spec h "") as [->|_]; [reflexivity|].
    cbn. destruct (Atoi h) as [n [|]]; reflexivity.
Qed.

Lemma capture_returns_witness :
  returnsOne
    (fun res => exists o, Some (Sample.shot "https://example.com" 80 None None) = Some o /\
                          ScreenshotResult.URL res = ScreenshotOptions.URL o)
    (resultOf (Screenshot (Sample.always Scenario.image) Sample.client
                 (Some (Sample.shot "https://example.com" 80 None None)))) /\
  resultOf (Screenshot (Sample.always Scenario.image) Sample.client
              (Some (Sample.shot "https://example.com" 80 None None)))
  = Returned (Some (ScreenshotResult.mk "PNG" "image/png" "https://example.com" 800 0 "")) None.
Proof.
  destruct (capture_returns (Sample.always Scenario.image) Sample.client) as (H & _).
  - vm_compute. discriminate.
  - split; [apply H|reflexivity].
Defined.

(** X16.  When the first request receives a response with a status below
    400, an entry point whose options pass the local checks returns what its
    parser makes of that response, after that one request and with the
    rate-limit headers of the response stored.  The parser can still make an
    error of it (a body that cannot be read or decoded, or [success] false);
    such an error ends the call: a rejection in a 2xx response is never
    retried. *)
Theorem capture_after_success env c resp :
  roundTrip (env 0%nat) = DoResponse resp ->
  Response.StatusCode resp < 400 ->
  (forall opts,
     ValidateScreenshotOptions (Some opts) = None ->
     sendsFirst env c (buildScreenshotRequest opts) ->
     Screenshot env c (Some opts)
     = (parseRateLimitHeaders c resp,
        Returned (fst (parseScreenshotResponse resp (ScreenshotOptions.URL opts)))
          (snd (parseScreenshotResponse resp (ScreenshotOptions.URL opts))),
        [Sent 0 screenshotEndpoint (buildScreenshotRequest opts)]) /\
     (webhookMissing (ScreenshotOptions.Webhook opts) = false ->
      ScreenshotAsync env c (Some opts)
      = (parseRateLimitHeaders c resp,
         Returned (fst (parseAsync resp)) (snd (parseAsync resp)),
         [Sent 0 screenshotEndpoint (buildScreenshotRequest opts)]))) /\
  (forall opts,
     ValidatePDFOptions (Some opts) = None ->
     sendsFirst env c (buildPDFRequest opts) ->
     PDF env c (Some opts)
     = (parseRateLimitHeaders c resp,
        Returned (fst (parsePDFResponse resp (PDFOptions.URL opts)))
          (snd (parsePDFResponse resp (PDFOptions.URL opts))),
        [Sent 0 pdfEndpoint (buildPDFRequest opts)]) /\
     (webhookMissing (PDFOptions.Webhook opts) = false ->
      PDFAsync env c (Some opts)
      = (parseRateLimitHeaders c resp,
         Returned (fst (parseAsync resp)) (snd (parseAsync resp)),
         [Sent 0 pdfEndpoint (buildPDFRequest opts)]))).
Proof.
  intros Hrt Hst.
  assert (Hdo : forall {R} endpoint body (parse : Response.t -> option R * option error),
            sendsFirst env c body ->
            sendAndParse env c endpoint body parse
            = (parseRateLimitHeaders c resp, Returned (fst (parse resp)) (snd (parse resp)),
               [Sent 0 endpoint body])).
  { intros R endpoint body parse Hsends. apply sendAndParse_response.
    apply doRequest_response; assumption. }
  split.
  - intros opts Hv Hsends. unfold Screenshot, ScreenshotAsync. rewrite Hv.
    split; [exact (Hdo _ _ _ _ Hsends)|]. intros ->. exact (Hdo _ _ _ _ Hsends).
  - intros opts Hv Hsends. unfold PDF, PDFAsync. rewrite Hv.
    split; [exact (Hdo _ _ _ _ Hsends)|]. intros ->. exact (Hdo _ _ _ _ Hsends).
Qed.

Lemma capture_after_success_witness :
  Screenshot (Sample.always Scenario.rejected) Sample.client
    (Some (Sample.shot "https://example.com" 80 None None))
  = (Sample.client,
     Returned None (Some (PError (Error.mk 200 "" "quota exhausted" None "" None))),
     [Sent 0 screenshotEndpoint
        (buildScreenshotRequest (Sample.shot "https://example.com" 80 None None))]).
Proof.
  destruct (capture_after_success (Sample.always Scenario.rejected) Sample.client
              Scenario.rejected) as (H & _); [reflexivity|cbn; lia|].
  destruct (H (Sample.shot "https://example.com" 80 None None)) as (Hr & _);
    [reflexivity|sends_first|].
  exact Hr.
Defined.

(** ** The snapshot after a call *)

(** X24.  When the response to the first request carries a positive
    rate-limit value, the accessor returns after the call the values of that
    response, however the call ends: the snapshot is replaced as a whole, and
    a header the response does not carry reads as zero. *)
Theorem snapshot_of_response env c endpoint body resp :
  sendsFirst env c body ->
  roundTrip (env 0%nat) = DoResponse resp ->
  rateLimitSeen resp = true ->
  GetRateLimitInfo (clientOf (doRequest env c endpoint body)) = Some (snapshotOf resp).
Proof.
  intros Hsends Hrt Hseen.
  rewrite (doRequest_first env c endpoint body Hsends), clientOf_emit, Hrt. cbn zeta.
  assert (Hc : forall e : ending Response.t,
            GetRateLimitInfo (clientOf (parseRateLimitHeaders c resp, e, @nil Event))
            = Some (snapshotOf resp)).
  { intros e. unfold clientOf. cbn [fst]. apply parseRateLimitHeaders_seen. exact Hseen. }
  destruct (400 <=? _); [|apply Hc].
  destruct (parseErrorResponse resp) as [e|t]; [|apply Hc].
  destruct (IsRetryable (Some e)) as [retryable|]; [|apply Hc].
  destruct (negb retryable || _); apply Hc.
Qed.

Lemma snapshot_of_response_witness :
  GetRateLimitInfo
    (clientOf (doRequest
                 (Sample.always
                    (Response.mk 503 {[ "X-RateLimit-Remaining" := "7" ]}
                       (ReadBytes "upstream failure" None)))
                 Sample.client screenshotEndpoint ∅))
  = Some (RateLimitInfo.mk 0 7 0).
Proof.
  rewrite (snapshot_of_response
             (Sample.always
                (Response.mk 503 {[ "X-RateLimit-Remaining" := "7" ]}
                   (ReadBytes "upstream failure" None)))
             Sample.client screenshotEndpoint ∅
             (Response.mk 503 {[ "X-RateLimit-Remaining" := "7" ]}
                (ReadBytes "upstream failure" None)));
    [reflexivity|sends_first|reflexivity|reflexivity].
Defined.

